(** * Twitter-clone backend: a shallow embedding of [backend/app]

    The development follows the layout of the Python sources:

    - [models.py]   : the five tables and their rows;
    - [database.py] : the per-request session (unit of work over the store);
    - [schemas.py]  : the request body of tweet creation;
    - [app.py]      : the authentication dependency and the eleven handlers.

    The relational store is a record of row lists (insertion order is the
    natural order of a table, duplicates of non-key columns are possible),
    together with the counters of the [SERIAL] primary keys.  Handlers are
    written in a state-and-exception monad over the session, so that what
    was committed before an exception is raised stays committed. *)

From Stdlib Require Import ZArith List Ascii String Bool Lia DecimalString.
From Stdlib Require Import Permutation.
From Stdlib.Strings Require Import Byte.
Import ListNotations.
Set Warnings "-register-all".
Open Scope string_scope.
Open Scope list_scope.
Open Scope Z_scope.

(* ===================================================================== *)
(** ** models.py *)
(* ===================================================================== *)

(** [api_key] is a nullable, unique column; the header value compared with
    it may be missing as well, hence [option]. *)
Record User := mkUser {
  User_id : Z;
  User_name : string;
  User_api_key : option string
}.

Record Tweet := mkTweet {
  Tweet_id : Z;
  Tweet_content_text : string;
  Tweet_owner_id : Z
}.

Record Follower := mkFollower {
  Follower_id : Z;
  Follower_follower_id : Z;
  Follower_following_id : Z
}.

Record Like := mkLike {
  Like_id : Z;
  Like_user_id : Z;
  Like_tweet_id : Z
}.

(** [tweet_id] is declared [nullable=True]: a media row is uploaded first
    and attached later. *)
Record Media := mkMedia {
  Media_id : Z;
  Media_data : list byte;
  Media_file_name : string;
  Media_tweet_id : option Z
}.

(** The persistent store: the five tables and the sequences behind the
    generated primary keys of the four tables the handlers insert into. *)
Record Store := mkStore {
  users : list User;
  tweets : list Tweet;
  medias : list Media;
  likes : list Like;
  followers : list Follower;
  tweets_id_seq : Z;
  medias_id_seq : Z;
  likes_id_seq : Z;
  followers_id_seq : Z
}.

(* ===================================================================== *)
(** ** schemas.py *)
(* ===================================================================== *)

Record TweetCreate := mkTweetCreate {
  tweet_data : string;
  tweet_media_ids : option (list Z)
}.

(* ===================================================================== *)
(** ** Python values that cross the handlers *)
(* ===================================================================== *)

(** JSON-like values: the dictionaries the handlers return. *)
Inductive json :=
| JNone
| JBool (b : bool)
| JInt (z : Z)
| JStr (s : string)
| JList (l : list json)
| JDict (items : list (string * json)).

(** The exceptions that can be raised inside a handler. *)
Inductive Exception :=
| HTTPException (status_code : Z) (detail : string)
| AttributeError (msg : string)
| MultipleResultsFound
| IntegrityError (table : string).

(** What [get_current_user] hands to a handler: a [User] row, or the
    dictionary its own [except] clause returns. *)
Inductive PyObj :=
| ObjUser (u : User)
| ObjDict (d : json).

(** What a handler returns: a dictionary, or a [Response] object with raw
    content and a media type. *)
Inductive Returned :=
| RetDict (d : json)
| RetResponse (content : list byte) (media_type : string).

(** The multipart file of the upload endpoint. *)
Record UploadFile := mkUploadFile {
  content_type : option string;
  filename : string;
  file_read : list byte
}.

(** What goes on the wire. *)
Inductive Body :=
| JSONBody (j : json)
| RawBody (content : list byte) (media_type : string)
| PlainBody (text : string).

Record HTTPResponse := mkHTTPResponse {
  http_status : Z;
  http_body : Body
}.

(* ===================================================================== *)
(** ** database.py: the session *)
(* ===================================================================== *)

(** A session holds the committed store and the view of the open
    transaction.  Writes go to the view, [commit] publishes the view,
    [rollback] drops it.  (The ORM sends its writes at the flush inside
    [commit]; every handler commits right after each write and before its
    next query, so writing to the view at once is not observable.) *)
Record Session := mkSession {
  committed : Store;
  view : Store
}.

Definition get_async_session (s : Store) : Session :=
  {| committed := s; view := s |}.

(** [session.close()] in the [finally] of [get_async_session]: whatever was
    not committed is gone. *)
Definition close (ses : Session) : Store := committed ses.

Inductive Result (A : Type) :=
| Ok (a : A)
| Raise (e : Exception).
Arguments Ok {A} a.
Arguments Raise {A} e.

Definition M (A : Type) : Type := Session -> Result A * Session.

Definition ret {A} (a : A) : M A := fun ses => (Ok a, ses).

Definition bind {A B} (m : M A) (k : A -> M B) : M B :=
  fun ses =>
    match m ses with
    | (Ok a, ses') => k a ses'
    | (Raise e, ses') => (Raise e, ses')
    end.

Definition raise {A} (e : Exception) : M A := fun ses => (Raise e, ses).

(** [try: body / except Exception as e: handler e]. *)
Definition try_except {A} (body : M A) (handler : Exception -> M A) : M A :=
  fun ses =>
    match body ses with
    | (Ok a, ses') => (Ok a, ses')
    | (Raise e, ses') => handler e ses'
    end.

Declare Scope py_scope.
Delimit Scope py_scope with py.
Notation "x <- m ;; k" := (bind m (fun x => k))
  (at level 61, m at next level, right associativity) : py_scope.
Notation "m ;;; k" := (bind m (fun _ => k))
  (at level 61, right associativity) : py_scope.
Open Scope py_scope.

Fixpoint for_each {A B} (f : A -> M B) (l : list A) : M (list B) :=
  match l with
  | [] => ret []
  | x :: rest =>
      y <- f x ;;
      ys <- for_each f rest ;;
      ret (y :: ys)
  end.

(** *** Reading *)

(** [session.execute(select(T).filter(...))]: the rows of the session's
    view that meet the condition.  The check that the driver makes on the
    parameters of the statement is not part of it: an id that does not
    fit an [Integer] column is outside the model (see [in_int32]). *)
Definition select {A} (table : Store -> list A) (where_ : A -> bool)
  : M (list A) :=
  fun ses => (Ok (filter where_ (table (view ses))), ses).

(** [Result.scalar_one_or_none()]. *)
Definition scalar_one_or_none {A} (rows : list A) : M (option A) :=
  match rows with
  | [] => ret None
  | [x] => ret (Some x)
  | _ :: _ :: _ => raise MultipleResultsFound
  end.

(** [Result.scalars().first()]. *)
Definition first {A} (rows : list A) : option A :=
  match rows with
  | [] => None
  | x :: _ => Some x
  end.

(** [Column == value] where both sides may be NULL / [None]: comparing with
    [None] is rendered [IS NULL]; comparing a NULL column with a value
    selects nothing. *)
Definition sql_eq_string (column value : option string) : bool :=
  match value, column with
  | None, None => true
  | Some v, Some c => String.eqb c v
  | _, _ => false
  end.

Definition sql_eq_int (column : option Z) (value : Z) : bool :=
  match column with
  | Some c => c =? value
  | None => false
  end.

(** *** Writing *)

Definition on_view (f : Store -> Store) : M unit :=
  fun ses => (Ok tt, {| committed := committed ses; view := f (view ses) |}).

(** [nextval] of a sequence is not transactional: the counter moves in the
    committed store too and is never rolled back. *)
Definition on_both (f : Store -> Store) : M unit :=
  fun ses => (Ok tt, {| committed := f (committed ses); view := f (view ses) |}).

Definition commit : M unit :=
  fun ses => (Ok tt, {| committed := view ses; view := view ses |}).

Definition rollback : M unit :=
  fun ses => (Ok tt, {| committed := committed ses; view := committed ses |}).

Definition mem (x : Z) (l : list Z) : bool := existsb (Z.eqb x) l.

Definition set_tweets (f : list Tweet -> list Tweet) (s : Store) : Store :=
  {| users := users s; tweets := f (tweets s); medias := medias s;
     likes := likes s; followers := followers s;
     tweets_id_seq := tweets_id_seq s; medias_id_seq := medias_id_seq s;
     likes_id_seq := likes_id_seq s; followers_id_seq := followers_id_seq s |}.

Definition set_medias (f : list Media -> list Media) (s : Store) : Store :=
  {| users := users s; tweets := tweets s; medias := f (medias s);
     likes := likes s; followers := followers s;
     tweets_id_seq := tweets_id_seq s; medias_id_seq := medias_id_seq s;
     likes_id_seq := likes_id_seq s; followers_id_seq := followers_id_seq s |}.

Definition set_likes (f : list Like -> list Like) (s : Store) : Store :=
  {| users := users s; tweets := tweets s; medias := medias s;
     likes := f (likes s); followers := followers s;
     tweets_id_seq := tweets_id_seq s; medias_id_seq := medias_id_seq s;
     likes_id_seq := likes_id_seq s; followers_id_seq := followers_id_seq s |}.

Definition set_followers (f : list Follower -> list Follower) (s : Store)
  : Store :=
  {| users := users s; tweets := tweets s; medias := medias s;
     likes := likes s; followers := f (followers s);
     tweets_id_seq := tweets_id_seq s; medias_id_seq := medias_id_seq s;
     likes_id_seq := likes_id_seq s; followers_id_seq := followers_id_seq s |}.

Definition bump_tweets_id_seq (s : Store) : Store :=
  {| users := users s; tweets := tweets s; medias := medias s;
     likes := likes s; followers := followers s;
     tweets_id_seq := tweets_id_seq s + 1; medias_id_seq := medias_id_seq s;
     likes_id_seq := likes_id_seq s; followers_id_seq := followers_id_seq s |}.

Definition bump_medias_id_seq (s : Store) : Store :=
  {| users := users s; tweets := tweets s; medias := medias s;
     likes := likes s; followers := followers s;
     tweets_id_seq := tweets_id_seq s; medias_id_seq := medias_id_seq s + 1;
     likes_id_seq := likes_id_seq s; followers_id_seq := followers_id_seq s |}.

Definition bump_likes_id_seq (s : Store) : Store :=
  {| users := users s; tweets := tweets s; medias := medias s;
     likes := likes s; followers := followers s;
     tweets_id_seq := tweets_id_seq s; medias_id_seq := medias_id_seq s;
     likes_id_seq := likes_id_seq s + 1; followers_id_seq := followers_id_seq s |}.

Definition bump_followers_id_seq (s : Store) : Store :=
  {| users := users s; tweets := tweets s; medias := medias s;
     likes := likes s; followers := followers s;
     tweets_id_seq := tweets_id_seq s; medias_id_seq := medias_id_seq s;
     likes_id_seq := likes_id_seq s; followers_id_seq := followers_id_seq s + 1 |}.

(** [session.add(row)] for a row built without an [id]: the key is drawn
    from the table's sequence; a key already present violates the primary
    key and the insert is refused.  The values of the other columns are
    stored as they are given: the server's refusal of a text that holds
    the NUL character is outside the model (see [NUL_free]). *)
Definition add_Tweet (content_text : string) (owner_id : Z) : M Tweet :=
  on_both bump_tweets_id_seq ;;;
  fun ses =>
    let row := mkTweet (tweets_id_seq (view ses)) content_text owner_id in
    if mem (Tweet_id row) (map Tweet_id (tweets (view ses)))
    then (Raise (IntegrityError "tweets"), ses)
    else (on_view (set_tweets (fun t => t ++ [row])) ;;; ret row) ses.

Definition add_Media (data : list byte) (file_name : string) : M Media :=
  on_both bump_medias_id_seq ;;;
  fun ses =>
    let row := mkMedia (medias_id_seq (view ses)) data file_name None in
    if mem (Media_id row) (map Media_id (medias (view ses)))
    then (Raise (IntegrityError "medias"), ses)
    else (on_view (set_medias (fun t => t ++ [row])) ;;; ret row) ses.

Definition add_Like (user_id tweet_id : Z) : M Like :=
  on_both bump_likes_id_seq ;;;
  fun ses =>
    let row := mkLike (likes_id_seq (view ses)) user_id tweet_id in
    if mem (Like_id row) (map Like_id (likes (view ses)))
    then (Raise (IntegrityError "likes"), ses)
    else (on_view (set_likes (fun t => t ++ [row])) ;;; ret row) ses.

Definition add_Follower (follower_id following_id : Z) : M Follower :=
  on_both bump_followers_id_seq ;;;
  fun ses =>
    let row := mkFollower (followers_id_seq (view ses)) follower_id following_id in
    if mem (Follower_id row) (map Follower_id (followers (view ses)))
    then (Raise (IntegrityError "followers"), ses)
    else (on_view (set_followers (fun t => t ++ [row])) ;;; ret row) ses.

(** [result_media.tweet_id = tid]: an UPDATE of that row, found by its
    primary key.  The model keeps a table as the list of its rows and
    updates a row where it stands; the server may give an updated row
    another place in the table, so what is stated of a table with updated
    rows is stated up to the order of its rows. *)
Definition attach (tid : Z) (m : Media) : Media :=
  mkMedia (Media_id m) (Media_data m) (Media_file_name m) (Some tid).

Definition set_Media_tweet_id (result_media : Media) (tid : Z) : M unit :=
  on_view (set_medias (map (fun m =>
    if Media_id m =? Media_id result_media then attach tid m else m))).

(** [session.delete(tweet)].  The relationships of [Tweet] in [models.py]
    decide what happens to the rows that reference it:
    - [like] has [cascade="all, delete-orphan"]: its Like rows are deleted;
    - [media] has the default cascade: the ORM de-associates the children,
      setting their [tweet_id] to NULL, and keeps the rows. *)
Definition detach (tid : Z) (m : Media) : Media :=
  if sql_eq_int (Media_tweet_id m) tid
  then mkMedia (Media_id m) (Media_data m) (Media_file_name m) None
  else m.

Definition delete_Tweet (result : Tweet) : M unit :=
  on_view (fun s =>
    set_tweets (filter (fun t => negb (Tweet_id t =? Tweet_id result)))
      (set_medias (map (detach (Tweet_id result)))
        (set_likes (filter (fun l => negb (Like_tweet_id l =? Tweet_id result)))
          s))).

Definition delete_Like (like_tweet : Like) : M unit :=
  on_view (set_likes (filter (fun l => negb (Like_id l =? Like_id like_tweet)))).

Definition delete_Follower (subscription : Follower) : M unit :=
  on_view (set_followers
    (filter (fun f => negb (Follower_id f =? Follower_id subscription)))).

(* ===================================================================== *)
(** ** app.py *)
(* ===================================================================== *)

Definition HTTP_403_FORBIDDEN : Z := 403.
Definition HTTP_404_NOT_FOUND : Z := 404.

(** [APIKeyHeader(name="api-key", auto_error=False)]: a missing header and
    an empty one both give [None]. *)
Definition api_key_header (header : option string) : option string :=
  match header with
  | Some EmptyString => None
  | other => other
  end.

(** [obj.id] on what [get_current_user] returned. *)
Definition getattr_id (obj : PyObj) : M Z :=
  match obj with
  | ObjUser u => ret (User_id u)
  | ObjDict _ => raise (AttributeError "'dict' object has no attribute 'id'")
  end.

(** Decimal rendering of an integer inside an f-string. *)
Definition format_int (z : Z) : string := NilZero.string_of_int (Z.to_int z).

Definition media_url (m : Media) : json :=
  JStr (String.append "/api/media/" (format_int (Media_id m))).

Definition id_name (u : User) : json :=
  JDict [("id", JInt (User_id u)); ("name", JStr (User_name u))].

(** [tweet.owner] and [like.user]: the many-to-one side of a relationship,
    [None] when no row has that key. *)
Definition related_User (s : Store) (key : Z) : option User :=
  find (fun u => User_id u =? key) (users s).

Section App.

(** Two functions of the Python runtime the handlers call are left open:
    [str(e)] on an exception (its text depends on the installed library
    versions) and [Path(name).suffix]. *)
Variable str : Exception -> string.
Variable suffix : string -> string.

(** The dictionary every [except Exception as e] clause returns. *)
Definition server_error (e : Exception) : json :=
  JDict [("result", JBool false);
         ("error_type", JStr "server_error");
         ("error_message", JStr (str e))].

Definition result_true : json := JDict [("result", JBool true)].

Definition get_current_user (api_key : option string) : M PyObj :=
  try_except
    (result <- select users (fun u => sql_eq_string (User_api_key u) api_key) ;;
     user <- scalar_one_or_none result ;;
     match user with
     | None => raise (HTTPException HTTP_403_FORBIDDEN "Invalid API Key")
     | Some u => ret (ObjUser u)
     end)
    (fun e => ret (ObjDict (server_error e))).

(** The loop of [create_tweet] over [tweet.tweet_media_ids]. *)
Fixpoint attach_medias (db_tweet : Tweet) (media_ids : list Z) : M unit :=
  match media_ids with
  | [] => ret tt
  | media_id :: rest =>
      media <- select medias (fun m => Media_id m =? media_id) ;;
      result_media <- scalar_one_or_none media ;;
      match result_media with
      | Some m =>
          set_Media_tweet_id m (Tweet_id db_tweet) ;;;
          commit ;;;
          attach_medias db_tweet rest
      | None =>
          rollback ;;;
          raise (HTTPException HTTP_404_NOT_FOUND "Media not found")
      end
  end.

Definition create_tweet_body (tweet : TweetCreate) (current_user : PyObj)
  : M Returned :=
  owner_id <- getattr_id current_user ;;
  db_tweet <- add_Tweet (tweet_data tweet) owner_id ;;
  commit ;;;
  match tweet_media_ids tweet with
  | Some media_ids => attach_medias db_tweet media_ids
  | None => ret tt
  end ;;;
  ret (RetDict (JDict [("result", JBool true);
                       ("tweet_id", JInt (Tweet_id db_tweet))])).

Definition on_exception (e : Exception) : M Returned :=
  ret (RetDict (server_error e)).

Definition create_tweet (tweet : TweetCreate) (current_user : PyObj)
  : M Returned :=
  try_except (create_tweet_body tweet current_user) on_exception.

Definition allowed_content_type (ct : option string) : bool :=
  match ct with
  | Some t => existsb (String.eqb t) ["image/jpeg"; "image/png"; "image/jpg"]
  | None => false
  end.

(** [uuid4] is the value [uuid.uuid4()] draws for this request. *)
Definition create_media_body (file : UploadFile) (uuid4 : string)
  (current_user : PyObj) : M Returned :=
  if negb (allowed_content_type (content_type file))
  then raise (HTTPException 400
                "Invalid file type. Only JPEG and PNG are allowed.")
  else
    let unique_filename := String.append uuid4 (suffix (filename file)) in
    media <- add_Media (file_read file) unique_filename ;;
    commit ;;;
    ret (RetDict (JDict [("result", JBool true);
                         ("media_id", JInt (Media_id media))])).

Definition create_media (file : UploadFile) (uuid4 : string)
  (current_user : PyObj) : M Returned :=
  try_except (create_media_body file uuid4 current_user) on_exception.

Definition get_media_by_id_body (id : Z) : M Returned :=
  media <- select medias (fun m => Media_id m =? id) ;;
  result <- scalar_one_or_none media ;;
  match result with
  | None => raise (HTTPException HTTP_404_NOT_FOUND "Media not found")
  | Some r => ret (RetResponse (Media_data r) "image/png")
  end.

Definition get_media_by_id (id : Z) : M Returned :=
  try_except (get_media_by_id_body id) on_exception.

Definition delete_by_id_body (id : Z) (current_user : PyObj) : M Returned :=
  tweet <- select tweets (fun t => Tweet_id t =? id) ;;
  result <- scalar_one_or_none tweet ;;
  match result with
  | None => raise (HTTPException HTTP_404_NOT_FOUND "Tweet not found")
  | Some r =>
      uid <- getattr_id current_user ;;
      (if Tweet_owner_id r =? uid
       then delete_Tweet r ;;; commit
       else raise (HTTPException HTTP_403_FORBIDDEN
                     "You are not authorized to delete this tweet")) ;;;
      ret (RetDict result_true)
  end.

Definition delete_by_id (id : Z) (current_user : PyObj) : M Returned :=
  try_except (delete_by_id_body id current_user) on_exception.

Definition likes_tweets_body (id : Z) (current_user : PyObj) : M Returned :=
  tweet <- select tweets (fun t => Tweet_id t =? id) ;;
  result <- scalar_one_or_none tweet ;;
  match result with
  | None => raise (HTTPException HTTP_404_NOT_FOUND "Tweet not found")
  | Some _ =>
      uid <- getattr_id current_user ;;
      add_Like uid id ;;;
      commit ;;;
      ret (RetDict result_true)
  end.

Definition likes_tweets (id : Z) (current_user : PyObj) : M Returned :=
  try_except (likes_tweets_body id current_user) on_exception.

Definition delete_likes_by_id_body (id : Z) (current_user : PyObj)
  : M Returned :=
  uid <- getattr_id current_user ;;
  like_tweet <- select likes
    (fun l => (Like_user_id l =? uid) && (Like_tweet_id l =? id)) ;;
  match first like_tweet with
  | None => raise (HTTPException HTTP_404_NOT_FOUND "Like not found")
  | Some l =>
      delete_Like l ;;;
      commit ;;;
      ret (RetDict result_true)
  end.

Definition delete_likes_by_id (id : Z) (current_user : PyObj) : M Returned :=
  try_except (delete_likes_by_id_body id current_user) on_exception.

Definition follow_user_by_id_body (id : Z) (current_user : PyObj)
  : M Returned :=
  user <- select users (fun u => User_id u =? id) ;;
  result <- scalar_one_or_none user ;;
  match result with
  | None => raise (HTTPException HTTP_404_NOT_FOUND "User not found")
  | Some _ =>
      uid <- getattr_id current_user ;;
      add_Follower uid id ;;;
      commit ;;;
      ret (RetDict result_true)
  end.

Definition follow_user_by_id (id : Z) (current_user : PyObj) : M Returned :=
  try_except (follow_user_by_id_body id current_user) on_exception.

Definition delete_follow_by_id_body (id : Z) (current_user : PyObj)
  : M Returned :=
  uid <- getattr_id current_user ;;
  subscription <- select followers
    (fun f => (Follower_follower_id f =? uid)
              && (Follower_following_id f =? id)) ;;
  match first subscription with
  | None => raise (HTTPException HTTP_404_NOT_FOUND "Follower not found")
  | Some f =>
      delete_Follower f ;;;
      commit ;;;
      ret (RetDict result_true)
  end.

Definition delete_follow_by_id (id : Z) (current_user : PyObj) : M Returned :=
  try_except (delete_follow_by_id_body id current_user) on_exception.

(** A many-to-one relationship read through the session. *)
Definition load_User (key : Z) : M (option User) :=
  fun ses => (Ok (related_User (view ses) key), ses).

Definition like_entry (like : Like) : M json :=
  user <- load_User (Like_user_id like) ;;
  match user with
  | Some u => ret (JDict [("user_id", JInt (Like_user_id like));
                          ("name", JStr (User_name u))])
  | None => raise (AttributeError
                     "'NoneType' object has no attribute 'name'")
  end.

(** One turn of the loop of [read_tweets] ([print(tweet.id)] only writes to
    the log of the process). *)
Definition tweet_entry (tweet : Tweet) : M json :=
  media_files <- select medias
    (fun m => sql_eq_int (Media_tweet_id m) (Tweet_id tweet)) ;;
  let attachments := map media_url media_files in
  likes_ <- select likes (fun l => Like_tweet_id l =? Tweet_id tweet) ;;
  like_list <- for_each like_entry likes_ ;;
  owner <- load_User (Tweet_owner_id tweet) ;;
  match owner with
  | Some o =>
      ret (JDict [("id", JInt (Tweet_id tweet));
                  ("content", JStr (Tweet_content_text tweet));
                  ("attachments", JList attachments);
                  ("author", id_name o);
                  ("likes", JList like_list)])
  | None => raise (AttributeError
                     "'NoneType' object has no attribute 'id'")
  end.

Definition read_tweets_body (current_user : PyObj) : M Returned :=
  tweets_ <- select tweets (fun _ => true) ;;
  tweet_list <- for_each tweet_entry tweets_ ;;
  ret (RetDict (JDict [("result", JBool true);
                       ("tweets", JList tweet_list)])).

Definition read_tweets (current_user : PyObj) : M Returned :=
  try_except (read_tweets_body current_user) on_exception.

(** The part shared by the two profile handlers, from the follower queries
    on; [user] is the row the first query found, if any. *)
Definition profile (user : option User) (id : Z) : M Returned :=
  follower_rows <- select followers (fun f => Follower_following_id f =? id) ;;
  following_rows <- select followers (fun f => Follower_follower_id f =? id) ;;
  let follower_ids := map Follower_follower_id follower_rows in
  let following_ids := map Follower_following_id following_rows in
  followers_query <- select users (fun u => mem (User_id u) follower_ids) ;;
  followings_query <- select users (fun u => mem (User_id u) following_ids) ;;
  let followers_list := map id_name followers_query in
  let following_list := map id_name followings_query in
  match user with
  | Some u =>
      ret (RetDict (JDict [("result", JBool true);
                           ("user", JDict [("id", JInt (User_id u));
                                           ("name", JStr (User_name u));
                                           ("followers", JList followers_list);
                                           ("following", JList following_list)])]))
  | None => raise (AttributeError
                     "'NoneType' object has no attribute 'id'")
  end.

Definition read_user_body (current_user : PyObj) : M Returned :=
  uid <- getattr_id current_user ;;
  user_query <- select users (fun u => User_id u =? uid) ;;
  user <- scalar_one_or_none user_query ;;
  profile user uid.

Definition read_user (current_user : PyObj) : M Returned :=
  try_except (read_user_body current_user) on_exception.

Definition read_user_by_id_body (id : Z) (current_user : PyObj) : M Returned :=
  user_query <- select users (fun u => User_id u =? id) ;;
  user <- scalar_one_or_none user_query ;;
  match user with
  | None => raise (HTTPException HTTP_404_NOT_FOUND "User not found")
  | Some u => profile (Some u) id
  end.

Definition read_user_by_id (id : Z) (current_user : PyObj) : M Returned :=
  try_except (read_user_by_id_body id current_user) on_exception.

(** *** The routes *)

(** A request that passed validation: the method and path, the value of the
    [api-key] header where the route declares the dependency, and the
    parameters. *)
Inductive Request :=
| POST_tweets (api_key : option string) (tweet : TweetCreate)
| POST_medias (api_key : option string) (file : UploadFile) (uuid4 : string)
| GET_media (id : Z)
| DELETE_tweets (api_key : option string) (id : Z)
| POST_likes (api_key : option string) (id : Z)
| DELETE_likes (api_key : option string) (id : Z)
| POST_follow (api_key : option string) (id : Z)
| DELETE_follow (api_key : option string) (id : Z)
| GET_tweets (api_key : option string)
| GET_users_me (api_key : option string)
| GET_users (api_key : option string) (id : Z).

(** The body of each handler, after its dependencies. *)
Definition handler_body (req : Request) (current_user : PyObj) : M Returned :=
  match req with
  | POST_tweets _ tweet => create_tweet_body tweet current_user
  | POST_medias _ file uuid4 => create_media_body file uuid4 current_user
  | GET_media id => get_media_by_id_body id
  | DELETE_tweets _ id => delete_by_id_body id current_user
  | POST_likes _ id => likes_tweets_body id current_user
  | DELETE_likes _ id => delete_likes_by_id_body id current_user
  | POST_follow _ id => follow_user_by_id_body id current_user
  | DELETE_follow _ id => delete_follow_by_id_body id current_user
  | GET_tweets _ => read_tweets_body current_user
  | GET_users_me _ => read_user_body current_user
  | GET_users _ id => read_user_by_id_body id current_user
  end.

Definition handler (req : Request) (current_user : PyObj) : M Returned :=
  match req with
  | POST_tweets _ tweet => create_tweet tweet current_user
  | POST_medias _ file uuid4 => create_media file uuid4 current_user
  | GET_media id => get_media_by_id id
  | DELETE_tweets _ id => delete_by_id id current_user
  | POST_likes _ id => likes_tweets id current_user
  | DELETE_likes _ id => delete_likes_by_id id current_user
  | POST_follow _ id => follow_user_by_id id current_user
  | DELETE_follow _ id => delete_follow_by_id id current_user
  | GET_tweets _ => read_tweets current_user
  | GET_users_me _ => read_user current_user
  | GET_users _ id => read_user_by_id id current_user
  end.

(** [Depends(get_current_user)]: every route but [GET /api/media/{id}]
    declares it; the dependency runs on the session of the request, before
    the handler.  [get_media_by_id] has no such parameter: the value handed
    over on that route is never looked at. *)
Definition dependencies (req : Request) : M PyObj :=
  match req with
  | GET_media _ => ret (ObjDict JNone)
  | POST_tweets h _ | POST_medias h _ _ | DELETE_tweets h _ | POST_likes h _
  | DELETE_likes h _ | POST_follow h _ | DELETE_follow h _ | GET_tweets h
  | GET_users_me h | GET_users h _ => get_current_user (api_key_header h)
  end.

(** What the framework makes of the outcome of a handler: a returned
    dictionary or [Response] goes out with status 200; an [HTTPException]
    that escapes goes out with its own status; anything else is a 500. *)
Definition respond (r : Result Returned) : HTTPResponse :=
  match r with
  | Ok (RetDict d) => mkHTTPResponse 200 (JSONBody d)
  | Ok (RetResponse c mt) => mkHTTPResponse 200 (RawBody c mt)
  | Raise (HTTPException code detail) =>
      mkHTTPResponse code (JSONBody (JDict [("detail", JStr detail)]))
  | Raise _ => mkHTTPResponse 500 (PlainBody "Internal Server Error")
  end.

(** One request against the store: open the session, run the dependencies
    and the handler, close the session. *)
Definition serve (req : Request) (s : Store) : HTTPResponse * Store :=
  let (r, ses) :=
    (current_user <- dependencies req ;; handler req current_user)
      (get_async_session s) in
  (respond r, close ses).

Fixpoint serve_all (reqs : list Request) (s : Store)
  : list HTTPResponse * Store :=
  match reqs with
  | [] => ([], s)
  | req :: rest =>
      let (resp, s1) := serve req s in
      let (resps, s2) := serve_all rest s1 in
      (resp :: resps, s2)
  end.

End App.

(* ===================================================================== *)
(** ** The constraints of the schema *)
(* ===================================================================== *)

Fixpoint distinct (l : list Z) : bool :=
  match l with
  | [] => true
  | x :: rest => negb (mem x rest) && distinct rest
  end.

Fixpoint distinct_keys (l : list (option string)) : bool :=
  match l with
  | [] => true
  | None :: rest => distinct_keys rest
  | Some k :: rest =>
      negb (existsb (fun o => sql_eq_string o (Some k)) rest)
      && distinct_keys rest
  end.

Definition upto (seq : Z) (ids : list Z) : bool :=
  forallb (fun i => i <=? seq) ids.

Definition references (ids : list Z) (fk : option Z) : bool :=
  match fk with
  | None => true
  | Some k => mem k ids
  end.

(** The states the database admits and the handlers can reach: primary
    keys are unique, [api_key] is unique among the rows that have one, the
    generated keys have been drawn from the sequences, and every foreign
    key names a row. *)
Definition consistent (s : Store) : bool :=
  let user_ids := map User_id (users s) in
  let tweet_ids := map Tweet_id (tweets s) in
  distinct user_ids
  && distinct_keys (map User_api_key (users s))
  && distinct tweet_ids
  && upto (tweets_id_seq s) tweet_ids
  && distinct (map Media_id (medias s))
  && upto (medias_id_seq s) (map Media_id (medias s))
  && distinct (map Like_id (likes s))
  && upto (likes_id_seq s) (map Like_id (likes s))
  && distinct (map Follower_id (followers s))
  && upto (followers_id_seq s) (map Follower_id (followers s))
  && forallb (fun t => mem (Tweet_owner_id t) user_ids) (tweets s)
  && forallb (fun m => references tweet_ids (Media_tweet_id m)) (medias s)
  && forallb (fun l => mem (Like_user_id l) user_ids
                       && mem (Like_tweet_id l) tweet_ids) (likes s)
  && forallb (fun f => mem (Follower_follower_id f) user_ids
                       && mem (Follower_following_id f) user_ids)
       (followers s).

(** Number of rows of a table that satisfy a condition. *)
Definition count {A} (p : A -> bool) (l : list A) : nat :=
  List.length (filter p l).

Definition attached_to (tid : Z) (m : Media) : bool :=
  sql_eq_int (Media_tweet_id m) tid.

Definition like_of (uid tid : Z) (l : Like) : bool :=
  (Like_user_id l =? uid) && (Like_tweet_id l =? tid).

(** The rows of [ms] after the media named in [ids] were attached to the
    tweet [tid]. *)
Definition attach_all (tid : Z) (ids : list Z) (ms : list Media)
  : list Media :=
  map (fun m => if mem (Media_id m) ids then attach tid m else m) ms.

(** Two limits of the database lie outside the model, which computes with
    unbounded integers and stores any text: the driver refuses an integer
    parameter that does not fit the 32 bits of an [Integer] column, and the
    server refuses a text that holds the NUL character; either way the
    statement raises and the handler answers with the error dictionary.
    The statements below about an id that names no row, and about the
    text of a new tweet, are made within these limits. *)
Definition in_int32 (z : Z) : Prop := -2147483648 <= z <= 2147483647.

Fixpoint NUL_free (text : string) : bool :=
  match text with
  | EmptyString => true
  | String c rest => negb (Ascii.eqb c Ascii.zero) && NUL_free rest
  end.

(** A session with nothing pending. *)
Definition settled (s : Store) : Session := {| committed := s; view := s |}.

(** The store after a tweet, a like, a media or a follower edge was
    inserted with the next key of its sequence. *)
Definition with_new_tweet (content_text : string) (owner_id : Z) (s : Store)
  : Store :=
  set_tweets
    (fun t => t ++ [mkTweet (tweets_id_seq s + 1) content_text owner_id])
    (bump_tweets_id_seq s).

Definition with_new_like (user_id tweet_id : Z) (s : Store) : Store :=
  set_likes
    (fun l => l ++ [mkLike (likes_id_seq s + 1) user_id tweet_id])
    (bump_likes_id_seq s).

Definition with_new_media (data : list byte) (file_name : string) (s : Store)
  : Store :=
  set_medias
    (fun l => l ++ [mkMedia (medias_id_seq s + 1) data file_name None])
    (bump_medias_id_seq s).

Definition with_new_follower (follower_id following_id : Z) (s : Store)
  : Store :=
  set_followers
    (fun l => l ++ [mkFollower (followers_id_seq s + 1) follower_id following_id])
    (bump_followers_id_seq s).

(** The store after [session.delete(tweet)] and [commit]. *)
Definition without_tweet (id : Z) (s : Store) : Store :=
  set_tweets (filter (fun t => negb (Tweet_id t =? id)))
    (set_medias (map (detach id))
      (set_likes (filter (fun l => negb (Like_tweet_id l =? id))) s)).

(** A follower edge from [follower_id] to [following_id]. *)
Definition edge_of (follower_id following_id : Z) (f : Follower) : bool :=
  (Follower_follower_id f =? follower_id)
  && (Follower_following_id f =? following_id).

(** The users the two profile handlers list: those with an edge to [id],
    and those [id] has an edge to, in the order of the users table. *)
Definition followers_of (s : Store) (id : Z) : list User :=
  filter (fun u => mem (User_id u)
                     (map Follower_follower_id
                        (filter (fun f => Follower_following_id f =? id)
                           (followers s))))
    (users s).

Definition following_of (s : Store) (id : Z) : list User :=
  filter (fun u => mem (User_id u)
                     (map Follower_following_id
                        (filter (fun f => Follower_follower_id f =? id)
                           (followers s))))
    (users s).

(** The dictionary a profile handler returns for the user [u]. *)
Definition profile_json (s : Store) (u : User) : json :=
  JDict [("result", JBool true);
         ("user",
          JDict [("id", JInt (User_id u));
                 ("name", JStr (User_name u));
                 ("followers", JList (map id_name (followers_of s (User_id u))));
                 ("following", JList (map id_name (following_of s (User_id u))))])].

(** The first exception of a list of outcomes, or all their values. *)
Fixpoint all_ok {A} (l : list (Result A)) : Result (list A) :=
  match l with
  | [] => Ok []
  | Raise e :: _ => Raise e
  | Ok a :: rest =>
      match all_ok rest with
      | Ok r => Ok (a :: r)
      | Raise e => Raise e
      end
  end.

(** What the loop of [read_tweets] computes for one like and for one
    tweet, as a function of the tables. *)
Definition like_item (s : Store) (like : Like) : Result json :=
  match related_User s (Like_user_id like) with
  | Some u => Ok (JDict [("user_id", JInt (Like_user_id like));
                         ("name", JStr (User_name u))])
  | None => Raise (AttributeError "'NoneType' object has no attribute 'name'")
  end.

Definition feed_item (s : Store) (tweet : Tweet) : Result json :=
  let attachments :=
    map media_url (filter (attached_to (Tweet_id tweet)) (medias s)) in
  match all_ok (map (like_item s)
                  (filter (fun l => Like_tweet_id l =? Tweet_id tweet)
                     (likes s))) with
  | Raise e => Raise e
  | Ok like_list =>
      match related_User s (Tweet_owner_id tweet) with
      | Some o =>
          Ok (JDict [("id", JInt (Tweet_id tweet));
                     ("content", JStr (Tweet_content_text tweet));
                     ("attachments", JList attachments);
                     ("author", id_name o);
                     ("likes", JList like_list)])
      | None =>
          Raise (AttributeError "'NoneType' object has no attribute 'id'")
      end
  end.

Definition feed (s : Store) : Result (list json) :=
  all_ok (map (feed_item s) (tweets s)).

(** The value of the [api-key] header of a request, and whether the
    handler of its route reads [current_user.id]. *)
Definition request_key (req : Request) : option string :=
  match req with
  | GET_media _ => None
  | POST_tweets h _ | POST_medias h _ _ | DELETE_tweets h _ | POST_likes h _
  | DELETE_likes h _ | POST_follow h _ | DELETE_follow h _ | GET_tweets h
  | GET_users_me h | GET_users h _ => h
  end.

Definition uses_current_user (req : Request) : bool :=
  match req with
  | POST_medias _ _ _ | GET_media _ | GET_tweets _ | GET_users _ _ => false
  | _ => true
  end.

(** The routes registered with [@app.get]. *)
Definition is_GET (req : Request) : bool :=
  match req with
  | GET_media _ | GET_tweets _ | GET_users_me _ | GET_users _ _ => true
  | _ => false
  end.

(** [preserves I m]: whatever [m] returns or raises, it leaves a session
    that satisfies [I] when it started from one. *)
Definition preserves {A} (I : Session -> Prop) (m : M A) : Prop :=
  forall ses, I ses -> I (snd (m ses)).

(** Run on a session with nothing pending, [m] ends the request with a
    store that meets the constraints of the schema. *)
Definition stays_consistent (m : M Returned) (s : Store) : Prop :=
  consistent (close (snd (m (settled s)))) = true.

(** Both sides of a session hold the users [us]. *)
Definition users_are (us : list User) (ses : Session) : Prop :=
  users (committed ses) = us /\ users (view ses) = us.

(* ===================================================================== *)
(** ** A small database to run the handlers on *)
(* ===================================================================== *)

Module Sample.

(** A rendering of exceptions in the style of recent library versions; the
    theorems below hold for any rendering. *)
Definition str (e : Exception) : string :=
  match e with
  | HTTPException code detail =>
      String.append (format_int code) (String.append ": " detail)
  | AttributeError msg => msg
  | MultipleResultsFound =>
      "Multiple rows were found when one or none was required"
  | IntegrityError table =>
      String.append "duplicate key value violates unique constraint on " table
  end.

(** A stand-in for [Path(name).suffix]: the text from the last dot of the
    name on.  It agrees with the library on plain names such as
    [cat.jpeg]; the theorems hold for any function in its place. *)
Fixpoint suffix (name : string) : string :=
  match name with
  | EmptyString => EmptyString
  | String c rest =>
      match suffix rest with
      | EmptyString =>
          if Ascii.eqb c "."%char then name else EmptyString
      | s => s
      end
  end.

Definition alice : User := mkUser 1 "alice" (Some "k1").
Definition bob : User := mkUser 2 "bob" (Some "k2").

(** The tables as they are created at startup, with two users entered. *)
Definition two_users : Store := mkStore [alice; bob] [] [] [] [] 0 0 0 0.

(** Alice has one tweet, liked by Bob, with one picture attached; a second
    picture is not attached. *)
Definition busy : Store :=
  mkStore [alice; bob]
          [mkTweet 1 "hello" 1]
          [mkMedia 1 [x89; x50] "a.png" (Some 1); mkMedia 2 [xff] "b.jpg" None]
          [mkLike 1 2 1]
          []
          1 2 1 0.

(** A user entered without a key, next to Alice and Bob. *)
Definition guest : User := mkUser 3 "guest" None.

Definition with_guest : Store :=
  mkStore [alice; bob; guest] [] [] [] [] 0 0 0 0.

(** Two uploads: a picture, and a text file. *)
Definition cat_jpeg : UploadFile :=
  mkUploadFile (Some "image/jpeg") "cat.jpeg" [xff; xd8].

Definition notes_txt : UploadFile :=
  mkUploadFile (Some "text/plain") "notes.txt" [x68; x69].

End Sample.

(* ===================================================================== *)
(** ** Lists of rows and their keys *)
(* ===================================================================== *)

Lemma mem_true_iff (x : Z) (l : list Z) : mem x l = true <-> In x l.
Proof.
  unfold mem. rewrite existsb_exists. split.
  - intros [y [Hy E]]. apply Z.eqb_eq in E. now subst.
  - intros H. exists x. split; [assumption | apply Z.eqb_refl].
Qed.

Lemma mem_false_iff (x : Z) (l : list Z) : mem x l = false <-> ~ In x l.
Proof.
  rewrite <- mem_true_iff. destruct (mem x l); split; congruence.
Qed.

Lemma distinct_NoDup (l : list Z) : distinct l = true <-> NoDup l.
Proof.
  induction l as [|x l IH]; simpl.
  - split; [constructor | reflexivity].
  - rewrite andb_true_iff, negb_true_iff, mem_false_iff, IH. split.
    + intros [H1 H2]. now constructor.
    + intros H. inversion H. now split.
Qed.

Lemma upto_fresh (seq : Z) (l : list Z) :
  upto seq l = true -> mem (seq + 1) l = false.
Proof.
  unfold upto. rewrite forallb_forall, mem_false_iff. intros H Hin.
  apply H in Hin. apply Z.leb_le in Hin. lia.
Qed.

Lemma upto_bump (seq : Z) (l : list Z) :
  upto seq l = true -> upto (seq + 1) (l ++ [seq + 1]) = true.
Proof.
  unfold upto. rewrite !forallb_forall. intros H i Hi.
  apply in_app_or in Hi. destruct Hi as [Hi | [<- | []]].
  - apply H, Z.leb_le in Hi. apply Z.leb_le. lia.
  - apply Z.leb_refl.
Qed.

Lemma distinct_snoc (l : list Z) (x : Z) :
  distinct l = true -> mem x l = false -> distinct (l ++ [x]) = true.
Proof.
  rewrite !distinct_NoDup, mem_false_iff. intros Hl Hx.
  induction Hl as [|y l Hy Hl IH]; simpl.
  - constructor; [intros [] | constructor].
  - constructor.
    + intros Hin. apply in_app_or in Hin. destruct Hin as [Hin | [-> | []]].
      * contradiction.
      * apply Hx. now left.
    + apply IH. intros Hin. apply Hx. now right.
Qed.

Section Keyed.

Context {A : Type} (key : A -> Z).

Lemma filter_key_absent (k : Z) (l : list A) :
  mem k (map key l) = false -> filter (fun r => key r =? k) l = [].
Proof.
  rewrite mem_false_iff. induction l as [|r l IH]; simpl; intros H.
  - reflexivity.
  - destruct (Z.eqb_spec (key r) k) as [E | _].
    + exfalso. apply H. now left.
    + apply IH. intros Hin. apply H. now right.
Qed.

Lemma filter_key_present (r : A) (l : list A) :
  distinct (map key l) = true -> In r l ->
  filter (fun x => key x =? key r) l = [r].
Proof.
  induction l as [|x l IH]; simpl; intros Hd Hin.
  - contradiction.
  - apply andb_true_iff in Hd. destruct Hd as [Hx Hd].
    apply negb_true_iff in Hx.
    destruct Hin as [-> | Hin].
    + rewrite Z.eqb_refl. f_equal. now apply filter_key_absent.
    + destruct (Z.eqb_spec (key x) (key r)) as [E | _].
      * exfalso. apply mem_false_iff in Hx. apply Hx. rewrite E.
        now apply in_map.
      * now apply IH.
Qed.

Lemma mem_key_In (k : Z) (l : list A) :
  mem k (map key l) = true <-> exists r, In r l /\ key r = k.
Proof.
  rewrite mem_true_iff, in_map_iff. split; intros [r [H1 H2]]; exists r; tauto.
Qed.

Lemma distinct_filter (p : A -> bool) (l : list A) :
  distinct (map key l) = true -> distinct (map key (filter p l)) = true.
Proof.
  rewrite !distinct_NoDup. induction l as [|x l IH]; simpl; intros H.
  - constructor.
  - inversion H as [|? ? Hx Hl]; subst. destruct (p x); simpl.
    + constructor; [|now apply IH]. intros Hin. apply Hx.
      apply in_map_iff in Hin. destruct Hin as [y [E Hy]].
      apply filter_In in Hy. rewrite <- E. apply in_map. tauto.
    + now apply IH.
Qed.

Lemma upto_filter (seq : Z) (p : A -> bool) (l : list A) :
  upto seq (map key l) = true -> upto seq (map key (filter p l)) = true.
Proof.
  unfold upto. rewrite !forallb_forall. intros H i Hi. apply H.
  apply in_map_iff in Hi. destruct Hi as [y [E Hy]].
  apply filter_In in Hy. rewrite <- E. apply in_map. tauto.
Qed.

End Keyed.

Lemma existsb_sql_eq_false (k : string) (us : list User) :
  existsb (fun o => sql_eq_string o (Some k)) (map User_api_key us) = false ->
  filter (fun x => sql_eq_string (User_api_key x) (Some k)) us = [].
Proof.
  induction us as [|y us IH]; cbn [map existsb filter]; intros H.
  - reflexivity.
  - apply orb_false_iff in H. destruct H as [Hy H].
    rewrite Hy. now apply IH.
Qed.

Lemma filter_api_key (k : string) (u : User) (us : list User) :
  distinct_keys (map User_api_key us) = true ->
  In u us -> User_api_key u = Some k ->
  filter (fun x => sql_eq_string (User_api_key x) (Some k)) us = [u].
Proof.
  induction us as [|x us IH]; intros Hd Hin Hk.
  - contradiction.
  - cbn [map] in Hd. cbn [filter]. destruct Hin as [-> | Hin].
    + rewrite Hk in *. cbn [distinct_keys] in Hd. cbn [sql_eq_string].
      rewrite String.eqb_refl.
      apply andb_true_iff in Hd. destruct Hd as [Hx _].
      apply negb_true_iff in Hx. f_equal.
      now apply existsb_sql_eq_false.
    + destruct (User_api_key x) as [kx|]; cbn [distinct_keys] in Hd.
      * apply andb_true_iff in Hd. destruct Hd as [Hx Hd].
        apply negb_true_iff in Hx. cbn [sql_eq_string].
        destruct (String.eqb_spec kx k) as [-> | _]; [|now apply IH].
        exfalso.
        assert (E : existsb (fun o => sql_eq_string o (Some k))
                      (map User_api_key us) = true).
        { apply existsb_exists. exists (Some k). split.
          - rewrite <- Hk. now apply in_map.
          - cbn [sql_eq_string]. apply String.eqb_refl. }
        rewrite E in Hx. discriminate.
      * cbn [sql_eq_string]. now apply IH.
Qed.

Lemma mem_app (x : Z) (l1 l2 : list Z) :
  mem x (l1 ++ l2) = mem x l1 || mem x l2.
Proof. unfold mem. apply existsb_app. Qed.

Lemma forallb_filter {A} (p q : A -> bool) (l : list A) :
  forallb p l = true -> forallb p (filter q l) = true.
Proof.
  rewrite !forallb_forall. intros H x Hx. apply H.
  apply filter_In in Hx. tauto.
Qed.

Lemma forallb_impl {A} (p q : A -> bool) (l : list A) :
  (forall x, In x l -> p x = true -> q x = true) ->
  forallb p l = true -> forallb q l = true.
Proof.
  rewrite !forallb_forall. intros H Hp x Hx. apply H; auto.
Qed.

Lemma mem_snoc (x y : Z) (l : list Z) :
  mem x l = true -> mem x (l ++ [y]) = true.
Proof. intros H. rewrite mem_app, H. reflexivity. Qed.

Lemma first_filter_Some {A} (p : A -> bool) (l : list A) (x : A) :
  first (filter p l) = Some x -> In x l /\ p x = true.
Proof.
  intros H. apply filter_In. destruct (filter p l) as [|y r]; simpl in H.
  - discriminate.
  - injection H as ->. now left.
Qed.

Lemma first_filter_None {A} (p : A -> bool) (l : list A) :
  first (filter p l) = None <-> (forall x, In x l -> p x = false).
Proof.
  split.
  - intros H x Hx. destruct (p x) eqn:E; [|reflexivity].
    assert (Hin : In x (filter p l)) by (apply filter_In; now split).
    destruct (filter p l); [contradiction | discriminate].
  - induction l as [|y l IH]; intros H; simpl.
    + reflexivity.
    + rewrite (H y (or_introl eq_refl)). apply IH.
      intros x Hx. apply H. now right.
Qed.

Lemma count_app {A} (p : A -> bool) (l1 l2 : list A) :
  count p (l1 ++ l2) = (count p l1 + count p l2)%nat.
Proof. unfold count. now rewrite filter_app, length_app. Qed.

Section Rows.

Context {A : Type} (key : A -> Z).

(** Deleting a row by its key removes that row and no other. *)
Lemma count_without_row (p : A -> bool) (r : A) (l : list A) :
  distinct (map key l) = true -> In r l ->
  (count p (filter (fun x => negb (Z.eqb (key x) (key r))) l)
   + (if p r then 1 else 0) = count p l)%nat.
Proof.
  unfold count. induction l as [|x l IH]; intros Hd Hin.
  - contradiction.
  - cbn [map distinct] in Hd. apply andb_true_iff in Hd.
    destruct Hd as [Hx Hd]. apply negb_true_iff in Hx.
    cbn [filter]. destruct Hin as [-> | Hin].
    + rewrite Z.eqb_refl. cbn [negb].
      assert (E : filter (fun x => negb (key x =? key r)) l = l).
      { apply mem_false_iff in Hx. clear - Hx.
        induction l as [|y l IH]; simpl.
        - reflexivity.
        - destruct (Z.eqb_spec (key y) (key r)) as [E|_].
          + exfalso. apply Hx. left. exact E.
          + simpl. f_equal. apply IH. intros H. apply Hx. now right. }
      rewrite E. destruct (p r); simpl; lia.
    + destruct (Z.eqb_spec (key x) (key r)) as [E|_].
      * exfalso. apply mem_false_iff in Hx. apply Hx. rewrite E.
        now apply in_map.
      * cbn [negb filter]. specialize (IH Hd Hin).
        destruct (p x); simpl; lia.
Qed.

End Rows.

Lemma consistent_inv (s : Store) :
  consistent s = true ->
  distinct (map User_id (users s)) = true
  /\ distinct_keys (map User_api_key (users s)) = true
  /\ distinct (map Tweet_id (tweets s)) = true
  /\ upto (tweets_id_seq s) (map Tweet_id (tweets s)) = true
  /\ distinct (map Media_id (medias s)) = true
  /\ upto (medias_id_seq s) (map Media_id (medias s)) = true
  /\ distinct (map Like_id (likes s)) = true
  /\ upto (likes_id_seq s) (map Like_id (likes s)) = true
  /\ distinct (map Follower_id (followers s)) = true
  /\ upto (followers_id_seq s) (map Follower_id (followers s)) = true
  /\ forallb (fun t => mem (Tweet_owner_id t) (map User_id (users s)))
       (tweets s) = true
  /\ forallb (fun m => references (map Tweet_id (tweets s)) (Media_tweet_id m))
       (medias s) = true
  /\ forallb (fun l => mem (Like_user_id l) (map User_id (users s))
                       && mem (Like_tweet_id l) (map Tweet_id (tweets s)))
       (likes s) = true
  /\ forallb (fun f => mem (Follower_follower_id f) (map User_id (users s))
                       && mem (Follower_following_id f) (map User_id (users s)))
       (followers s) = true.
Proof.
  unfold consistent. cbv zeta. rewrite !andb_true_iff. tauto.
Qed.

Lemma consistent_intro (s : Store) :
  distinct (map User_id (users s)) = true ->
  distinct_keys (map User_api_key (users s)) = true ->
  distinct (map Tweet_id (tweets s)) = true ->
  upto (tweets_id_seq s) (map Tweet_id (tweets s)) = true ->
  distinct (map Media_id (medias s)) = true ->
  upto (medias_id_seq s) (map Media_id (medias s)) = true ->
  distinct (map Like_id (likes s)) = true ->
  upto (likes_id_seq s) (map Like_id (likes s)) = true ->
  distinct (map Follower_id (followers s)) = true ->
  upto (followers_id_seq s) (map Follower_id (followers s)) = true ->
  forallb (fun t => mem (Tweet_owner_id t) (map User_id (users s)))
    (tweets s) = true ->
  forallb (fun m => references (map Tweet_id (tweets s)) (Media_tweet_id m))
    (medias s) = true ->
  forallb (fun l => mem (Like_user_id l) (map User_id (users s))
                    && mem (Like_tweet_id l) (map Tweet_id (tweets s)))
    (likes s) = true ->
  forallb (fun f => mem (Follower_follower_id f) (map User_id (users s))
                    && mem (Follower_following_id f) (map User_id (users s)))
    (followers s) = true ->
  consistent s = true.
Proof.
  intros. unfold consistent. cbv zeta. rewrite !andb_true_iff. tauto.
Qed.

Ltac consistent_facts H :=
  let H' := fresh H in
  pose proof (consistent_inv _ H) as H';
  destruct H' as (Huid & Hkeys & Htid & Htseq & Hmid & Hmseq & Hlid & Hlseq
                  & Hfid & Hfseq & Hown & Hmfk & Hlfk & Hffk).

(* ===================================================================== *)
(** ** Properties kept by a computation on the session *)
(* ===================================================================== *)

Section Preserves.

Variable I : Session -> Prop.

Lemma preserves_ret {A} (a : A) : preserves I (ret a).
Proof. intros ses H. exact H. Qed.

Lemma preserves_raise {A} (e : Exception) : preserves I (@raise A e).
Proof. intros ses H. exact H. Qed.

Lemma preserves_bind {A B} (m : M A) (k : A -> M B) :
  preserves I m -> (forall a, preserves I (k a)) -> preserves I (bind m k).
Proof.
  intros Hm Hk ses H. unfold bind. specialize (Hm ses H).
  destruct (m ses) as [[a | e] ses']; simpl in *.
  - now apply Hk.
  - exact Hm.
Qed.

Lemma preserves_try_except {A} (body : M A) (h : Exception -> M A) :
  preserves I body -> (forall e, preserves I (h e)) ->
  preserves I (try_except body h).
Proof.
  intros Hm Hk ses H. unfold try_except. specialize (Hm ses H).
  destruct (body ses) as [[a | e] ses']; simpl in *.
  - exact Hm.
  - now apply Hk.
Qed.

Lemma preserves_select {A} (table : Store -> list A) (w : A -> bool) :
  preserves I (select table w).
Proof. intros ses H. exact H. Qed.

Lemma preserves_scalar_one_or_none {A} (rows : list A) :
  preserves I (scalar_one_or_none rows).
Proof. intros ses H. destruct rows as [|x [|y rows]]; exact H. Qed.

Lemma preserves_getattr_id (obj : PyObj) : preserves I (getattr_id obj).
Proof. intros ses H. destruct obj; exact H. Qed.

Lemma preserves_load_User (key : Z) : preserves I (load_User key).
Proof. intros ses H. exact H. Qed.

Lemma preserves_for_each {A B} (f : A -> M B) (l : list A) :
  (forall x, preserves I (f x)) -> preserves I (for_each f l).
Proof.
  intros Hf. induction l as [|x l IH]; simpl.
  - apply preserves_ret.
  - apply preserves_bind; [apply Hf | intros y].
    apply preserves_bind; [apply IH | intros ys]. apply preserves_ret.
Qed.

End Preserves.

Create HintDb preserves.

#[export] Hint Resolve preserves_ret preserves_raise preserves_select
  preserves_scalar_one_or_none preserves_getattr_id preserves_load_User
  : preserves.

(** Walks through a handler: binds, [try]/[except], loops and the case
    distinctions on what a query returned; the leaves are closed from the
    hint database. *)
Ltac preserve :=
  repeat first
    [ progress auto with preserves
    | apply preserves_bind; [| intros ?]
    | apply preserves_try_except; [| intros ?]
    | apply preserves_for_each; intros ?
    | match goal with
      | |- preserves _ (match ?x with _ => _ end) => destruct x
      end ].

(* ===================================================================== *)
(** ** The handlers *)
(* ===================================================================== *)

Section Properties.

Variable str : Exception -> string.
Variable suffix : string -> string.

(** *** What every handler has in common *)

Lemma handler_try_except (req : Request) (current_user : PyObj) :
  handler str suffix req current_user
  = try_except (handler_body suffix req current_user) (on_exception str).
Proof. destruct req; reflexivity. Qed.

(** The authentication dependency catches what it raises: it always hands
    a value to the handler. *)
Lemma get_current_user_returns (api_key : option string) (ses : Session) :
  exists obj, get_current_user str api_key ses = (Ok obj, ses).
Proof.
  unfold get_current_user, try_except, bind, select.
  destruct (filter _ _) as [|u [|u' rows]]; simpl; unfold ret; eauto.
Qed.

Lemma dependencies_return (req : Request) (ses : Session) :
  exists obj, dependencies str req ses = (Ok obj, ses).
Proof.
  destruct req; simpl; try apply get_current_user_returns.
  eexists. reflexivity.
Qed.

Lemma handler_returns (req : Request) (current_user : PyObj) (ses : Session) :
  exists r ses', handler str suffix req current_user ses = (Ok r, ses').
Proof.
  rewrite handler_try_except. unfold try_except, on_exception, ret.
  destruct (handler_body _ _ _ _) as [[r | e] ses']; eauto.
Qed.

(** No route ever answers with a status other than 200. *)
Lemma serve_status_200 (req : Request) (s : Store) :
  http_status (fst (serve str suffix req s)) = 200.
Proof.
  unfold serve, bind.
  destruct (dependencies_return req (get_async_session s)) as [obj ->].
  destruct (handler_returns req obj (get_async_session s)) as (r & ses' & ->).
  destruct r; reflexivity.
Qed.

(** *** Handlers that only read *)

Lemma preserves_get_current_user I (api_key : option string) :
  preserves I (get_current_user str api_key).
Proof. unfold get_current_user. preserve. Qed.

Lemma preserves_dependencies I (req : Request) :
  preserves I (dependencies str req).
Proof.
  destruct req; simpl; auto using preserves_get_current_user with preserves.
Qed.

Lemma preserves_on_exception I (e : Exception) :
  preserves I (on_exception str e).
Proof. unfold on_exception. preserve. Qed.

Hint Resolve preserves_get_current_user preserves_dependencies
  preserves_on_exception : preserves.

Lemma preserves_get_media_by_id I (id : Z) :
  preserves I (get_media_by_id str id).
Proof. unfold get_media_by_id, get_media_by_id_body. preserve. Qed.

Lemma preserves_read_tweets I (current_user : PyObj) :
  preserves I (read_tweets str current_user).
Proof.
  unfold read_tweets, read_tweets_body, tweet_entry, like_entry. preserve.
Qed.

Lemma preserves_profile I (user : option User) (id : Z) :
  preserves I (profile user id).
Proof. unfold profile. preserve. Qed.

Hint Resolve preserves_profile : preserves.

Lemma preserves_read_user I (current_user : PyObj) :
  preserves I (read_user str current_user).
Proof. unfold read_user, read_user_body. preserve. Qed.

Lemma preserves_read_user_by_id I (id : Z) (current_user : PyObj) :
  preserves I (read_user_by_id str id current_user).
Proof. unfold read_user_by_id, read_user_by_id_body. preserve. Qed.

Lemma GET_leaves_session (req : Request) (ses : Session) :
  is_GET req = true ->
  snd ((current_user <- dependencies str req ;;
        handler str suffix req current_user) ses) = ses.
Proof.
  intros Hget.
  assert (H : preserves (fun x => x = ses)
                (current_user <- dependencies str req ;;
                 handler str suffix req current_user)).
  { apply preserves_bind; [apply preserves_dependencies | intros cu].
    destruct req; try discriminate; simpl.
    - apply preserves_get_media_by_id.
    - apply preserves_read_tweets.
    - apply preserves_read_user.
    - apply preserves_read_user_by_id. }
  now apply H.
Qed.

(** C9. Each of the four GET routes (the tweet feed, a media by id, the
    caller's profile, a profile by id) leaves the store as it found it:
    the five tables (and the sequences) are the same after the request,
    whatever the header and the id are and whether the handler succeeded
    or answered with an error. *)
Theorem GET_routes_leave_store_unchanged :
  (forall api_key s,
     snd (serve str suffix (GET_tweets api_key) s) = s)
  /\ (forall id s,
        snd (serve str suffix (GET_media id) s) = s)
  /\ (forall api_key s,
        snd (serve str suffix (GET_users_me api_key) s) = s)
  /\ (forall api_key id s,
        snd (serve str suffix (GET_users api_key id) s) = s).
Proof.
  assert (H : forall req s, is_GET req = true ->
                            snd (serve str suffix req s) = s).
  { intros req s Hget. unfold serve.
    pose proof (GET_leaves_session req (get_async_session s) Hget) as E.
    destruct ((current_user <- dependencies str req ;;
               handler str suffix req current_user) (get_async_session s))
      as [r ses]. simpl in *. now subst. }
  repeat split; intros; now apply H.
Qed.

(** *** Handlers that write: none of them touches the users *)

Lemma users_on_view us (f : Store -> Store) :
  (forall s, users (f s) = users s) -> preserves (users_are us) (on_view f).
Proof. intros Hf ses [H1 H2]. split; simpl; [|rewrite Hf]; assumption. Qed.

Lemma users_on_both us (f : Store -> Store) :
  (forall s, users (f s) = users s) -> preserves (users_are us) (on_both f).
Proof. intros Hf ses [H1 H2]. split; simpl; rewrite Hf; assumption. Qed.

Lemma users_commit us : preserves (users_are us) commit.
Proof. intros ses [H1 H2]. split; assumption. Qed.

Lemma users_rollback us : preserves (users_are us) rollback.
Proof. intros ses [H1 H2]. split; assumption. Qed.

Lemma users_add_Tweet us content_text owner_id :
  preserves (users_are us) (add_Tweet content_text owner_id).
Proof.
  intros ses [H1 H2]. unfold add_Tweet, bind, on_both. simpl.
  destruct (mem _ _); split; assumption.
Qed.

Lemma users_add_Media us data file_name :
  preserves (users_are us) (add_Media data file_name).
Proof.
  intros ses [H1 H2]. unfold add_Media, bind, on_both. simpl.
  destruct (mem _ _); split; assumption.
Qed.

Lemma users_add_Like us user_id tweet_id :
  preserves (users_are us) (add_Like user_id tweet_id).
Proof.
  intros ses [H1 H2]. unfold add_Like, bind, on_both. simpl.
  destruct (mem _ _); split; assumption.
Qed.

Lemma users_add_Follower us follower_id following_id :
  preserves (users_are us) (add_Follower follower_id following_id).
Proof.
  intros ses [H1 H2]. unfold add_Follower, bind, on_both. simpl.
  destruct (mem _ _); split; assumption.
Qed.

Lemma users_set_Media_tweet_id us m tid :
  preserves (users_are us) (set_Media_tweet_id m tid).
Proof. apply users_on_view. reflexivity. Qed.

Lemma users_delete_Tweet us t : preserves (users_are us) (delete_Tweet t).
Proof. apply users_on_view. reflexivity. Qed.

Lemma users_delete_Like us l : preserves (users_are us) (delete_Like l).
Proof. apply users_on_view. reflexivity. Qed.

Lemma users_delete_Follower us f :
  preserves (users_are us) (delete_Follower f).
Proof. apply users_on_view. reflexivity. Qed.

Hint Resolve users_commit users_rollback users_add_Tweet users_add_Media
  users_add_Like users_add_Follower users_set_Media_tweet_id
  users_delete_Tweet users_delete_Like users_delete_Follower : preserves.

Lemma users_attach_medias us db_tweet media_ids :
  preserves (users_are us) (attach_medias db_tweet media_ids).
Proof. induction media_ids as [|i rest IH]; simpl; preserve. Qed.

Hint Resolve users_attach_medias : preserves.

Lemma users_handler us (req : Request) (current_user : PyObj) :
  preserves (users_are us) (handler str suffix req current_user).
Proof.
  destruct req; simpl.
  - unfold create_tweet, create_tweet_body. preserve.
  - unfold create_media, create_media_body. preserve.
  - apply preserves_get_media_by_id.
  - unfold delete_by_id, delete_by_id_body. preserve.
  - unfold likes_tweets, likes_tweets_body. preserve.
  - unfold delete_likes_by_id, delete_likes_by_id_body. preserve.
  - unfold follow_user_by_id, follow_user_by_id_body. preserve.
  - unfold delete_follow_by_id, delete_follow_by_id_body. preserve.
  - apply preserves_read_tweets.
  - apply preserves_read_user.
  - apply preserves_read_user_by_id.
Qed.

Lemma users_serve (req : Request) (s : Store) :
  users (snd (serve str suffix req s)) = users s.
Proof.
  unfold serve.
  assert (H : preserves (users_are (users s))
                (current_user <- dependencies str req ;;
                 handler str suffix req current_user)).
  { apply preserves_bind; [apply preserves_dependencies | intros cu].
    apply users_handler. }
  specialize (H (get_async_session s) (conj eq_refl eq_refl)).
  destruct ((current_user <- dependencies str req ;;
             handler str suffix req current_user) (get_async_session s))
    as [r ses]. simpl in *. apply H.
Qed.

(** C10. No route inserts, deletes or modifies a row of [users]: after
    any sequence of requests, served one after the other, the users table
    is the one the sequence started from. *)
Theorem users_table_never_changes :
  forall (reqs : list Request) (s : Store),
    users (snd (serve_all str suffix reqs s)) = users s.
Proof.
  induction reqs as [|req rest IH]; intros s; simpl.
  - reflexivity.
  - pose proof (users_serve req s) as H1.
    destruct (serve str suffix req s) as [resp s1]. simpl in H1.
    specialize (IH s1).
    destruct (serve_all str suffix rest s1) as [resps s2]. simpl in *.
    congruence.
Qed.

(** C3. On every route and every input, when the body of the handler
    raises an exception [e] (the [HTTPException]s the body raises itself
    for a missing row, a foreign tweet or a refused file type included),
    the answer has status 200 and its body is the dictionary
    [{result: false, error_type: "server_error", error_message: str(e)}];
    the shape is the same on all eleven routes. *)
Theorem handler_exception_gives_server_error :
  forall (req : Request) (s : Store) (current_user : PyObj)
         (ses0 ses1 : Session) (e : Exception),
    dependencies str req (get_async_session s) = (Ok current_user, ses0) ->
    handler_body suffix req current_user ses0 = (Raise e, ses1) ->
    serve str suffix req s
    = (mkHTTPResponse 200
         (JSONBody (JDict [("result", JBool false);
                           ("error_type", JStr "server_error");
                           ("error_message", JStr (str e))])),
       close ses1).
Proof.
  intros req s cu ses0 ses1 e Hdep Hbody.
  unfold serve, bind. rewrite Hdep, handler_try_except.
  unfold try_except. rewrite Hbody. reflexivity.
Qed.

(** *** Authentication *)

Lemma api_key_header_nonempty (k : string) :
  k <> "" -> api_key_header (Some k) = Some k.
Proof. destruct k; [congruence | reflexivity]. Qed.

(** A header that carries the key of a user resolves to that user. *)
Lemma get_current_user_resolves (s : Store) (u : User) (k : string) :
  consistent s = true -> In u (users s) -> User_api_key u = Some k ->
  k <> "" ->
  get_current_user str (api_key_header (Some k)) (get_async_session s)
  = (Ok (ObjUser u), get_async_session s).
Proof.
  intros Hs Hu Hk Hne. consistent_facts Hs.
  rewrite (api_key_header_nonempty k Hne).
  unfold get_current_user, try_except, bind, select, get_async_session.
  cbn [view]. rewrite (filter_api_key k u (users s) Hkeys Hu Hk). reflexivity.
Qed.

(** *** The attachment loop of [create_tweet] *)

Lemma Media_id_attach_all (tid : Z) (ids : list Z) (ms : list Media) :
  map Media_id (attach_all tid ids ms) = map Media_id ms.
Proof.
  unfold attach_all. rewrite map_map. apply map_ext.
  intros m. destruct (mem _ _); reflexivity.
Qed.

Lemma attach_all_app (tid : Z) (l1 l2 : list Z) (ms : list Media) :
  attach_all tid l2 (attach_all tid l1 ms) = attach_all tid (l1 ++ l2) ms.
Proof.
  unfold attach_all. rewrite map_map. apply map_ext. intros m.
  rewrite mem_app. destruct (mem (Media_id m) l1); simpl.
  - destruct (mem _ l2); reflexivity.
  - reflexivity.
Qed.

Lemma attach_all_nil (tid : Z) (ms : list Media) : attach_all tid [] ms = ms.
Proof. unfold attach_all. simpl. apply map_id. Qed.

Lemma set_medias_nil (tid : Z) (s : Store) :
  set_medias (attach_all tid []) s = s.
Proof. destruct s. unfold set_medias. simpl. now rewrite attach_all_nil. Qed.

Lemma set_medias_app (tid : Z) (l1 l2 : list Z) (s : Store) :
  set_medias (attach_all tid l2) (set_medias (attach_all tid l1) s)
  = set_medias (attach_all tid (l1 ++ l2)) s.
Proof. unfold set_medias. simpl. now rewrite attach_all_app. Qed.

(** One turn of the loop on an id that names a row. *)
Lemma attach_medias_step (t : Tweet) (i : Z) (rest : list Z) (s : Store) :
  distinct (map Media_id (medias s)) = true ->
  mem i (map Media_id (medias s)) = true ->
  attach_medias t (i :: rest) (settled s)
  = attach_medias t rest
      (settled (set_medias (attach_all (Tweet_id t) [i]) s)).
Proof.
  intros Hd Hi. apply mem_key_In in Hi. destruct Hi as [m [Hm <-]].
  cbn [attach_medias]. unfold bind at 1. unfold select at 1.
  cbn [view settled]. rewrite (filter_key_present Media_id m _ Hd Hm).
  unfold bind at 1. cbn [scalar_one_or_none ret].
  unfold bind, set_Media_tweet_id, on_view, commit. cbn [view committed settled].
  f_equal. unfold settled.
  assert (E : set_medias
                (map (fun m0 => if Media_id m0 =? Media_id m
                                then attach (Tweet_id t) m0 else m0)) s
              = set_medias (attach_all (Tweet_id t) [Media_id m]) s).
  { unfold set_medias, attach_all. f_equal. apply map_ext. intros x.
    unfold mem. simpl. now rewrite orb_false_r. }
  now rewrite E.
Qed.

(** One turn of the loop on an id that names no row: the rollback finds
    nothing to undo. *)
Lemma attach_medias_missing (t : Tweet) (i : Z) (rest : list Z) (s : Store) :
  mem i (map Media_id (medias s)) = false ->
  attach_medias t (i :: rest) (settled s)
  = (Raise (HTTPException 404 "Media not found"), settled s).
Proof.
  intros Hi. cbn [attach_medias]. unfold bind at 1. unfold select at 1.
  cbn [view settled]. rewrite (filter_key_absent Media_id i _ Hi).
  reflexivity.
Qed.

(** The loop goes through the ids from left to right. *)
Lemma attach_medias_prefix (t : Tweet) (pre rest : list Z) :
  forall s,
    distinct (map Media_id (medias s)) = true ->
    (forall i, In i pre -> mem i (map Media_id (medias s)) = true) ->
    attach_medias t (pre ++ rest) (settled s)
    = attach_medias t rest
        (settled (set_medias (attach_all (Tweet_id t) pre) s)).
Proof.
  induction pre as [|i pre IH]; intros s Hd Hpre.
  - simpl. now rewrite set_medias_nil.
  - cbn [app]. rewrite attach_medias_step;
      [| assumption | apply Hpre; now left].
    rewrite IH.
    + now rewrite set_medias_app.
    + simpl. now rewrite Media_id_attach_all.
    + intros j Hj. simpl. rewrite Media_id_attach_all. apply Hpre. now right.
Qed.

(** *** [create_tweet] *)

Lemma add_Tweet_fresh (s : Store) (text : string) (owner : Z) :
  upto (tweets_id_seq s) (map Tweet_id (tweets s)) = true ->
  add_Tweet text owner (settled s)
  = (Ok (mkTweet (tweets_id_seq s + 1) text owner),
     {| committed := bump_tweets_id_seq s;
        view := with_new_tweet text owner s |}).
Proof.
  intros Hseq. unfold add_Tweet, bind, on_both, settled.
  cbn [view committed bump_tweets_id_seq tweets tweets_id_seq Tweet_id].
  rewrite (upto_fresh _ _ Hseq). reflexivity.
Qed.

(** An authenticated creation, run up to the point where the loop has
    gone through a prefix of existing ids. *)
Lemma serve_POST_tweets (s : Store) (u : User) (k text : string)
  (pre rest : list Z) :
  consistent s = true -> In u (users s) -> User_api_key u = Some k ->
  k <> "" ->
  (forall i, In i pre -> mem i (map Media_id (medias s)) = true) ->
  let t := mkTweet (tweets_id_seq s + 1) text (User_id u) in
  serve str suffix
    (POST_tweets (Some k) (mkTweetCreate text (Some (pre ++ rest)))) s
  = let (r, ses) :=
      try_except
        (attach_medias t rest ;;;
         ret (RetDict (JDict [("result", JBool true);
                              ("tweet_id", JInt (Tweet_id t))])))
        (on_exception str)
        (settled (set_medias (attach_all (Tweet_id t) pre)
                    (with_new_tweet text (User_id u) s))) in
    (respond r, close ses).
Proof.
  intros Hs Hu Hk Hne Hpre t. consistent_facts Hs.
  unfold serve. cbn [dependencies handler]. unfold bind at 1.
  rewrite (get_current_user_resolves s u k Hs Hu Hk Hne).
  unfold create_tweet, create_tweet_body, try_except.
  cbn [getattr_id tweet_data tweet_media_ids].
  unfold bind at 1. cbn [ret]. unfold bind at 1.
  change (get_async_session s) with (settled s).
  rewrite (add_Tweet_fresh s text (User_id u) Htseq).
  unfold bind at 1. unfold commit at 1. cbn [view].
  unfold bind at 1.
  change {| committed := with_new_tweet text (User_id u) s;
            view := with_new_tweet text (User_id u) s |}
    with (settled (with_new_tweet text (User_id u) s)).
  rewrite attach_medias_prefix.
  - fold t. unfold bind. reflexivity.
  - exact Hmid.
  - exact Hpre.
Qed.

Lemma serve_POST_tweets_all (s : Store) (u : User) (k text : string)
  (ids : list Z) :
  consistent s = true -> In u (users s) -> User_api_key u = Some k ->
  k <> "" ->
  (forall i, In i ids -> mem i (map Media_id (medias s)) = true) ->
  serve str suffix (POST_tweets (Some k) (mkTweetCreate text (Some ids))) s
  = (mkHTTPResponse 200
       (JSONBody (JDict [("result", JBool true);
                         ("tweet_id", JInt (tweets_id_seq s + 1))])),
     set_medias (attach_all (tweets_id_seq s + 1) ids)
       (with_new_tweet text (User_id u) s)).
Proof.
  intros Hs Hu Hk Hne Hids.
  rewrite <- (app_nil_r ids) at 1.
  rewrite (serve_POST_tweets s u k text ids [] Hs Hu Hk Hne Hids).
  reflexivity.
Qed.

Lemma serve_POST_tweets_missing (s : Store) (u : User) (k text : string)
  (pre post : list Z) (bad : Z) :
  consistent s = true -> In u (users s) -> User_api_key u = Some k ->
  k <> "" ->
  (forall i, In i pre -> mem i (map Media_id (medias s)) = true) ->
  mem bad (map Media_id (medias s)) = false ->
  serve str suffix
    (POST_tweets (Some k) (mkTweetCreate text (Some (pre ++ bad :: post)))) s
  = (mkHTTPResponse 200
       (JSONBody (server_error str (HTTPException 404 "Media not found"))),
     set_medias (attach_all (tweets_id_seq s + 1) pre)
       (with_new_tweet text (User_id u) s)).
Proof.
  intros Hs Hu Hk Hne Hpre Hbad.
  rewrite (serve_POST_tweets s u k text pre (bad :: post) Hs Hu Hk Hne Hpre).
  cbv zeta. unfold try_except, bind.
  rewrite attach_medias_missing.
  - reflexivity.
  - cbn [medias set_medias]. now rewrite Media_id_attach_all.
Qed.

(** No media row can reference the tweet that is about to be created. *)
Lemma fresh_tweet_unreferenced (s : Store) (m : Media) :
  consistent s = true -> In m (medias s) ->
  attached_to (tweets_id_seq s + 1) m = false.
Proof.
  intros Hs Hm. consistent_facts Hs.
  rewrite forallb_forall in Hmfk. specialize (Hmfk m Hm).
  unfold attached_to, sql_eq_int. unfold references in Hmfk.
  destruct (Media_tweet_id m) as [t|]; [|reflexivity].
  apply Z.eqb_neq. intros ->.
  apply upto_fresh in Htseq. congruence.
Qed.

Lemma attached_to_iff (tid : Z) (m : Media) :
  attached_to tid m = true <-> Media_tweet_id m = Some tid.
Proof.
  unfold attached_to, sql_eq_int. destruct (Media_tweet_id m) as [t|].
  - rewrite Z.eqb_eq. split; congruence.
  - split; discriminate.
Qed.

Lemma filter_attach_all (tid : Z) (ids : list Z) (ms : list Media) :
  (forall m, In m ms -> attached_to tid m = false) ->
  List.length (filter (attached_to tid) (attach_all tid ids ms))
  = List.length (filter (fun x => mem x ids) (map Media_id ms)).
Proof.
  induction ms as [|m ms IH]; intros Hfresh; simpl.
  - reflexivity.
  - assert (IH' := IH (fun x Hx => Hfresh x (or_intror Hx))).
    destruct (mem (Media_id m) ids) eqn:E.
    + unfold attached_to at 1. simpl. rewrite Z.eqb_refl. simpl.
      now rewrite IH'.
    + rewrite (Hfresh m (or_introl eq_refl)). exact IH'.
Qed.

Lemma length_filter_members (l ids : list Z) :
  NoDup l -> NoDup ids -> incl ids l ->
  List.length (filter (fun x => mem x ids) l) = List.length ids.
Proof.
  intros Hl Hids Hincl. apply Nat.le_antisymm.
  - apply NoDup_incl_length.
    + now apply NoDup_filter.
    + intros x Hx. apply filter_In in Hx. now apply mem_true_iff.
  - apply NoDup_incl_length; [assumption|].
    intros x Hx. apply filter_In. split.
    + now apply Hincl.
    + now apply mem_true_iff.
Qed.

(** C4 (amended). An authenticated creation whose text the database can
    store and whose media ids all name existing rows succeeds and returns
    the id of the new tweet; the media rows that end attached to the new
    tweet are exactly those whose id occurs in the list - as many as the
    list is long when its ids are pairwise different - and every other
    row is untouched (the table holds the rows of before, those named
    attached, in whatever order).  The ids are taken in the order
    supplied and the first one that names no row ends the loop: with
    such an id (one that fits the column) put anywhere in the list the
    request fails with the NotFound condition and only the ids before it
    are attached. *)
Theorem create_tweet_attaches_listed_medias :
  forall (s : Store) (u : User) (k text : string) (ids : list Z),
    consistent s = true -> In u (users s) -> User_api_key u = Some k ->
    k <> "" -> NUL_free text = true ->
    (forall i, In i ids -> exists m, In m (medias s) /\ Media_id m = i) ->
    let new := tweets_id_seq s + 1 in
    let request l := POST_tweets (Some k) (mkTweetCreate text (Some l)) in
    let s' := snd (serve str suffix (request ids) s) in
    fst (serve str suffix (request ids) s)
    = mkHTTPResponse 200
        (JSONBody (JDict [("result", JBool true); ("tweet_id", JInt new)]))
    /\ tweets s' = tweets s ++ [mkTweet new text (User_id u)]
    /\ Permutation (medias s') (attach_all new ids (medias s))
    /\ (forall m, In m (medias s') ->
          (Media_tweet_id m = Some new <-> In (Media_id m) ids))
    /\ (forall m, In m (medias s) -> ~ In (Media_id m) ids ->
          In m (medias s'))
    /\ (NoDup ids ->
          count (attached_to new) (medias s') = List.length ids)
    /\ (forall (pre post : list Z) (bad : Z),
          ids = pre ++ post -> in_int32 bad ->
          (forall m, In m (medias s) -> Media_id m <> bad) ->
          let s'' :=
            snd (serve str suffix (request (pre ++ bad :: post)) s) in
          fst (serve str suffix (request (pre ++ bad :: post)) s)
          = mkHTTPResponse 200
              (JSONBody (server_error str
                           (HTTPException 404 "Media not found")))
          /\ Permutation (medias s'') (attach_all new pre (medias s))).
Proof.
  intros s u k text ids Hs Hu Hk Hne Htext Hids new request s'.
  assert (Hmem : forall i, In i ids ->
                           mem i (map Media_id (medias s)) = true).
  { intros i Hi. apply mem_key_In. destruct (Hids i Hi) as [m Hm].
    now exists m. }
  subst s' request. cbv beta.
  rewrite (serve_POST_tweets_all s u k text ids Hs Hu Hk Hne Hmem).
  cbn [fst snd]. fold new.
  assert (Hmedias : medias (set_medias (attach_all new ids)
                              (with_new_tweet text (User_id u) s))
                    = attach_all new ids (medias s)) by reflexivity.
  rewrite Hmedias.
  split; [reflexivity|]. split; [reflexivity|].
  split; [apply Permutation_refl|].
  split; [|split; [|split]].
  - intros m' Hm'. unfold attach_all in Hm'. apply in_map_iff in Hm'.
    destruct Hm' as [m [<- Hm]].
    destruct (mem (Media_id m) ids) eqn:E.
    + simpl. apply mem_true_iff in E. tauto.
    + pose proof (fresh_tweet_unreferenced s m Hs Hm) as Hfresh.
      fold new in Hfresh. apply mem_false_iff in E.
      rewrite <- attached_to_iff. rewrite Hfresh. split; [discriminate|tauto].
  - intros m Hm Hnot. unfold attach_all. apply in_map_iff. exists m.
    apply mem_false_iff in Hnot. rewrite Hnot. now split.
  - intros Hnodup. unfold count. rewrite filter_attach_all.
    + consistent_facts Hs. apply length_filter_members.
      * now apply distinct_NoDup.
      * assumption.
      * intros i Hi. apply mem_true_iff. now apply Hmem.
    + intros m Hm. now apply fresh_tweet_unreferenced.
  - intros pre post bad -> Hrange Hbad.
    assert (Hpre : forall i, In i pre ->
                             mem i (map Media_id (medias s)) = true).
    { intros i Hi. apply Hmem. apply in_or_app. now left. }
    assert (Hbad' : mem bad (map Media_id (medias s)) = false).
    { apply mem_false_iff. intros Hin. apply in_map_iff in Hin.
      destruct Hin as [m [E Hm]]. now apply (Hbad m). }
    cbv zeta.
    rewrite (serve_POST_tweets_missing s u k text pre post bad
               Hs Hu Hk Hne Hpre Hbad').
    split; [reflexivity | apply Permutation_refl].
Qed.


(** C2 (the code at the failing input). Alice creates a tweet with the
    media ids [2; 7] on a store that has media 2 but no media 7: the
    answer reports the failure, the new tweet (id 2) stays, and media 2
    stays attached to it - each attachment was committed on its own, so
    the rollback before the [raise] has nothing left to undo. *)
Theorem create_tweet_keeps_earlier_attachments :
  serve str suffix
    (POST_tweets (Some "k1") (mkTweetCreate "x" (Some [2; 7]))) Sample.busy
  = (mkHTTPResponse 200
       (JSONBody (server_error str (HTTPException 404 "Media not found"))),
     mkStore [Sample.alice; Sample.bob]
             [mkTweet 1 "hello" 1; mkTweet 2 "x" 1]
             [mkMedia 1 [x89; x50] "a.png" (Some 1);
              mkMedia 2 [xff] "b.jpg" (Some 2)]
             [mkLike 1 2 1]
             []
             2 2 1 0).
Proof. reflexivity. Qed.

(** *** [likes_tweets] and [delete_likes_by_id] *)

Lemma add_Like_fresh (s : Store) (uid id : Z) :
  upto (likes_id_seq s) (map Like_id (likes s)) = true ->
  add_Like uid id (settled s)
  = (Ok (mkLike (likes_id_seq s + 1) uid id),
     {| committed := bump_likes_id_seq s; view := with_new_like uid id s |}).
Proof.
  intros Hseq. unfold add_Like, bind, on_both, settled.
  cbn [view committed bump_likes_id_seq likes likes_id_seq Like_id].
  rewrite (upto_fresh _ _ Hseq). reflexivity.
Qed.

Lemma consistent_with_new_like (s : Store) (uid id : Z) :
  consistent s = true ->
  In uid (map User_id (users s)) -> In id (map Tweet_id (tweets s)) ->
  consistent (with_new_like uid id s) = true.
Proof.
  intros Hs Hu Ht. consistent_facts Hs.
  apply consistent_intro; try assumption;
    cbn [with_new_like set_likes bump_likes_id_seq likes likes_id_seq users
         tweets medias followers tweets_id_seq medias_id_seq followers_id_seq].
  - rewrite map_app. apply distinct_snoc; [assumption|].
    now apply upto_fresh.
  - rewrite map_app. now apply upto_bump.
  - rewrite forallb_app, Hlfk. cbn [forallb Like_user_id Like_tweet_id].
    apply mem_true_iff in Hu, Ht. now rewrite Hu, Ht.
Qed.

Lemma serve_POST_likes (s : Store) (u : User) (k : string) (id : Z) :
  consistent s = true -> In u (users s) -> User_api_key u = Some k ->
  k <> "" -> In id (map Tweet_id (tweets s)) ->
  serve str suffix (POST_likes (Some k) id) s
  = (mkHTTPResponse 200 (JSONBody (JDict [("result", JBool true)])),
     with_new_like (User_id u) id s).
Proof.
  intros Hs Hu Hk Hne Hid. consistent_facts Hs.
  apply in_map_iff in Hid. destruct Hid as [t [<- Ht]].
  unfold serve. cbn [dependencies handler]. unfold bind at 1.
  rewrite (get_current_user_resolves s u k Hs Hu Hk Hne).
  unfold likes_tweets, likes_tweets_body, try_except.
  unfold bind at 1. unfold select at 1. cbn [view get_async_session].
  rewrite (filter_key_present Tweet_id t _ Htid Ht).
  unfold bind at 1. cbn [scalar_one_or_none ret getattr_id].
  unfold bind at 1. unfold ret at 1. unfold bind at 1.
  change (get_async_session s) with (settled s).
  rewrite (add_Like_fresh s (User_id u) (Tweet_id t) Hlseq).
  reflexivity.
Qed.

Lemma serve_DELETE_likes (s : Store) (u : User) (k : string) (id : Z) :
  consistent s = true -> In u (users s) -> User_api_key u = Some k ->
  k <> "" ->
  serve str suffix (DELETE_likes (Some k) id) s
  = match first (filter (like_of (User_id u) id) (likes s)) with
    | Some l =>
        (mkHTTPResponse 200 (JSONBody (JDict [("result", JBool true)])),
         set_likes (filter (fun x => negb (Like_id x =? Like_id l))) s)
    | None =>
        (mkHTTPResponse 200
           (JSONBody (server_error str (HTTPException 404 "Like not found"))),
         s)
    end.
Proof.
  intros Hs Hu Hk Hne.
  unfold serve. cbn [dependencies handler]. unfold bind at 1.
  rewrite (get_current_user_resolves s u k Hs Hu Hk Hne).
  unfold delete_likes_by_id, delete_likes_by_id_body, try_except.
  cbn [getattr_id]. unfold bind at 1. unfold ret at 1.
  unfold bind at 1. unfold select at 1. cbn [view get_async_session].
  change (fun l : Like =>
            (Like_user_id l =? User_id u) && (Like_tweet_id l =? id))
    with (like_of (User_id u) id).
  destruct (first (filter (like_of (User_id u) id) (likes s))) as [l|];
    reflexivity.
Qed.

(** C7. A user who likes an existing tweet twice gets two Like rows, with
    different keys, both for that user and that tweet: nothing looks for
    an earlier like.  One unlike by that user then deletes exactly one
    row for that user and tweet and leaves the other in place.  An unlike
    that finds no row for the user and the tweet - the tweet of the claim
    or any other id that fits the Integer column - fails with the
    NotFound condition and changes nothing. *)
Theorem like_twice_unlike_once :
  forall (s : Store) (u : User) (k : string) (id : Z),
    consistent s = true -> In u (users s) -> User_api_key u = Some k ->
    k <> "" -> In id (map Tweet_id (tweets s)) ->
    let uid := User_id u in
    let n := likes_id_seq s in
    let ok := mkHTTPResponse 200 (JSONBody (JDict [("result", JBool true)])) in
    let s1 := snd (serve str suffix (POST_likes (Some k) id) s) in
    let s2 := snd (serve str suffix (POST_likes (Some k) id) s1) in
    let s3 := snd (serve str suffix (DELETE_likes (Some k) id) s2) in
    fst (serve str suffix (POST_likes (Some k) id) s) = ok
    /\ fst (serve str suffix (POST_likes (Some k) id) s1) = ok
    /\ likes s2 = likes s ++ [mkLike (n + 1) uid id; mkLike (n + 2) uid id]
    /\ ~ In (n + 1) (map Like_id (likes s))
    /\ ~ In (n + 2) (map Like_id (likes s))
    /\ fst (serve str suffix (DELETE_likes (Some k) id) s2) = ok
    /\ (exists l, In l (likes s2) /\ like_of uid id l = true
                  /\ likes s3
                     = filter (fun x => negb (Like_id x =? Like_id l))
                         (likes s2))
    /\ (List.length (likes s3) + 1 = List.length (likes s2))%nat
    /\ (count (like_of uid id) (likes s2)
        = count (like_of uid id) (likes s) + 2)%nat
    /\ (count (like_of uid id) (likes s3)
        = count (like_of uid id) (likes s) + 1)%nat
    /\ ((forall l, In l (likes s) -> like_of uid id l = false) ->
        serve str suffix (DELETE_likes (Some k) id) s
        = (mkHTTPResponse 200
             (JSONBody (server_error str
                          (HTTPException 404 "Like not found"))),
           s))
    /\ (forall id', in_int32 id' ->
          (forall l, In l (likes s) -> like_of uid id' l = false) ->
          serve str suffix (DELETE_likes (Some k) id') s
          = (mkHTTPResponse 200
               (JSONBody (server_error str
                            (HTTPException 404 "Like not found"))),
             s)).
Proof.
  intros s u k id Hs Hu Hk Hne Hid uid n ok s1 s2 s3.
  assert (Huid' : In uid (map User_id (users s))) by now apply in_map.
  assert (E1 : serve str suffix (POST_likes (Some k) id) s
               = (ok, with_new_like uid id s))
    by now apply serve_POST_likes.
  assert (Hs1 : consistent (with_new_like uid id s) = true)
    by now apply consistent_with_new_like.
  assert (E2 : serve str suffix (POST_likes (Some k) id)
                 (with_new_like uid id s)
               = (ok, with_new_like uid id (with_new_like uid id s)))
    by now apply serve_POST_likes.
  assert (Hs2 : consistent (with_new_like uid id (with_new_like uid id s))
                = true)
    by now apply consistent_with_new_like.
  assert (L2 : likes (with_new_like uid id (with_new_like uid id s))
               = likes s ++ [mkLike (n + 1) uid id; mkLike (n + 2) uid id]).
  { cbn [with_new_like set_likes bump_likes_id_seq likes likes_id_seq].
    rewrite <- app_assoc. fold n. simpl.
    replace (n + 1 + 1) with (n + 2) by lia. reflexivity. }
  assert (Hlike : forall i, like_of uid id (mkLike i uid id) = true).
  { intros i. unfold like_of. simpl. now rewrite !Z.eqb_refl. }
  assert (Es1 : s1 = with_new_like uid id s) by (unfold s1; now rewrite E1).
  clearbody s1. subst s1.
  assert (Es2 : s2 = with_new_like uid id (with_new_like uid id s))
    by (unfold s2; now rewrite E2).
  clearbody s2. subst s2.
  pose proof (serve_DELETE_likes _ u k id Hs2 Hu Hk Hne) as E3.
  fold uid in E3. rewrite L2 in E3.
  destruct (first (filter (like_of uid id)
                     (likes s ++ [mkLike (n + 1) uid id;
                                  mkLike (n + 2) uid id]))) as [l|] eqn:Ef.
  2:{ exfalso. rewrite first_filter_None in Ef.
      specialize (Ef (mkLike (n + 2) uid id)). rewrite Hlike in Ef.
      assert (true = false); [|discriminate]. apply Ef.
      apply in_or_app. right. right. now left. }
  apply first_filter_Some in Ef. destruct Ef as [Hl Hpl].
  assert (L3 : likes s3
               = filter (fun x => negb (Like_id x =? Like_id l))
                   (likes s ++ [mkLike (n + 1) uid id;
                                mkLike (n + 2) uid id])).
  { unfold s3. rewrite E3. cbn [snd set_likes likes]. now rewrite L2. }
  clearbody s3.
  rewrite E1, E2, E3, L2, L3. cbn [fst].
  pose proof (consistent_inv _ Hs) as Hc.
  destruct Hc as (_ & _ & _ & _ & _ & _ & _ & Hlseq & _).
  pose proof (consistent_inv _ Hs2) as Hc2.
  destruct Hc2 as (_ & _ & _ & _ & _ & _ & Hlid2 & _).
  rewrite L2 in Hlid2.
  assert (C2 : (count (like_of uid id)
                  (likes s ++ [mkLike (n + 1) uid id; mkLike (n + 2) uid id])
                = count (like_of uid id) (likes s) + 2)%nat).
  { rewrite count_app. unfold count at 2. simpl. now rewrite !Hlike. }
  pose proof (count_without_row Like_id (like_of uid id) l _ Hlid2 Hl) as C3.
  rewrite Hpl in C3.
  pose proof (count_without_row Like_id (fun _ => true) l _ Hlid2 Hl) as C4.
  unfold count in C4.
  rewrite (filter_true (likes s ++ _)) in C4.
  rewrite filter_true in C4.
  repeat split; try reflexivity.
  - intros Hin. apply (upto_fresh _ _) in Hlseq. apply mem_false_iff in Hlseq.
    now apply Hlseq.
  - intros Hin. unfold upto in Hlseq. rewrite forallb_forall in Hlseq.
    apply Hlseq in Hin. apply Z.leb_le in Hin. fold n in Hin. lia.
  - exists l. repeat split; assumption.
  - exact C4.
  - exact C2.
  - lia.
  - intros Hnone.
    rewrite (serve_DELETE_likes s u k id Hs Hu Hk Hne). fold uid.
    apply first_filter_None in Hnone. now rewrite Hnone.
  - intros id' _ Hnone.
    rewrite (serve_DELETE_likes s u k id' Hs Hu Hk Hne). fold uid.
    apply first_filter_None in Hnone. now rewrite Hnone.
Qed.

(** *** [delete_by_id] *)

Lemma serve_DELETE_tweets_found (s : Store) (u : User) (k : string)
  (t : Tweet) :
  consistent s = true -> In u (users s) -> User_api_key u = Some k ->
  k <> "" -> In t (tweets s) ->
  serve str suffix (DELETE_tweets (Some k) (Tweet_id t)) s
  = if Tweet_owner_id t =? User_id u
    then (mkHTTPResponse 200 (JSONBody (JDict [("result", JBool true)])),
          without_tweet (Tweet_id t) s)
    else (mkHTTPResponse 200
            (JSONBody (server_error str
                         (HTTPException 403
                            "You are not authorized to delete this tweet"))),
          s).
Proof.
  intros Hs Hu Hk Hne Ht. consistent_facts Hs.
  unfold serve. cbn [dependencies handler]. unfold bind at 1.
  rewrite (get_current_user_resolves s u k Hs Hu Hk Hne).
  unfold delete_by_id, delete_by_id_body, try_except.
  unfold bind at 1. unfold select at 1. cbn [view get_async_session].
  rewrite (filter_key_present Tweet_id t _ Htid Ht).
  unfold bind at 1. cbn [scalar_one_or_none ret getattr_id].
  unfold bind at 1. unfold ret at 1. unfold bind at 1.
  destruct (Tweet_owner_id t =? User_id u); reflexivity.
Qed.

Lemma serve_DELETE_tweets_missing (s : Store) (api_key : option string)
  (id : Z) :
  mem id (map Tweet_id (tweets s)) = false ->
  serve str suffix (DELETE_tweets api_key id) s
  = (mkHTTPResponse 200
       (JSONBody (server_error str (HTTPException 404 "Tweet not found"))),
     s).
Proof.
  intros Hid.
  unfold serve. cbn [dependencies handler]. unfold bind at 1.
  destruct (get_current_user_returns (api_key_header api_key)
              (get_async_session s)) as [obj ->].
  unfold delete_by_id, delete_by_id_body, try_except.
  unfold bind at 1. unfold select at 1. cbn [view get_async_session].
  rewrite (filter_key_absent Tweet_id id _ Hid). reflexivity.
Qed.

(** C5 (amended). A deletion request for an existing tweet by a caller
    who is not its owner fails with the Forbidden condition and leaves the
    store as it was.  By the owner it succeeds: the tweet row is deleted,
    every Like row that references the tweet is deleted with it, and the
    media rows that referenced it stay in the table with their [tweet_id]
    set to null (all other rows and columns are as before, whatever the
    order in which the table gives its rows).  A request for an id that
    fits the Integer column and names no tweet fails with the NotFound
    condition. *)
Theorem delete_tweet_by_owner_only :
  forall (s : Store) (u : User) (k : string) (id : Z),
    consistent s = true -> In u (users s) -> User_api_key u = Some k ->
    k <> "" ->
    let request := DELETE_tweets (Some k) id in
    let s' := snd (serve str suffix request s) in
    (forall t, In t (tweets s) -> Tweet_id t = id ->
               Tweet_owner_id t <> User_id u ->
       serve str suffix request s
       = (mkHTTPResponse 200
            (JSONBody (server_error str
                         (HTTPException 403
                            "You are not authorized to delete this tweet"))),
          s))
    /\ (forall t, In t (tweets s) -> Tweet_id t = id ->
                  Tweet_owner_id t = User_id u ->
          fst (serve str suffix request s)
          = mkHTTPResponse 200 (JSONBody (JDict [("result", JBool true)]))
          /\ tweets s' = filter (fun x => negb (Tweet_id x =? id)) (tweets s)
          /\ ~ In id (map Tweet_id (tweets s'))
          /\ likes s' = filter (fun l => negb (Like_tweet_id l =? id)) (likes s)
          /\ (forall l, In l (likes s') -> Like_tweet_id l <> id)
          /\ Permutation (medias s') (map (detach id) (medias s))
          /\ (forall m, In m (medias s) -> Media_tweet_id m = Some id ->
                 In (mkMedia (Media_id m) (Media_data m) (Media_file_name m)
                       None) (medias s'))
          /\ (forall m, In m (medias s) -> Media_tweet_id m <> Some id ->
                 In m (medias s'))
          /\ (forall m, In m (medias s') -> Media_tweet_id m <> Some id)
          /\ users s' = users s
          /\ followers s' = followers s)
    /\ (in_int32 id -> (forall t, In t (tweets s) -> Tweet_id t <> id) ->
        serve str suffix request s
        = (mkHTTPResponse 200
             (JSONBody (server_error str
                          (HTTPException 404 "Tweet not found"))),
           s)).
Proof.
  intros s u k id Hs Hu Hk Hne request s'. split; [|split].
  - intros t Ht <- Hown. unfold request.
    rewrite (serve_DELETE_tweets_found s u k t Hs Hu Hk Hne Ht).
    apply Z.eqb_neq in Hown. now rewrite Hown.
  - intros t Ht <- Hown.
    assert (E : serve str suffix request s
                = (mkHTTPResponse 200
                     (JSONBody (JDict [("result", JBool true)])),
                   without_tweet (Tweet_id t) s)).
    { unfold request.
      rewrite (serve_DELETE_tweets_found s u k t Hs Hu Hk Hne Ht).
      apply Z.eqb_eq in Hown. now rewrite Hown. }
    unfold s'. rewrite E.
    cbn [fst snd without_tweet set_tweets set_medias set_likes
         tweets likes medias users followers].
    repeat split; try reflexivity; try apply Permutation_refl.
    + intros Hin. apply in_map_iff in Hin. destruct Hin as [x [Ex Hx]].
      apply filter_In in Hx. destruct Hx as [_ Hx].
      rewrite Ex, Z.eqb_refl in Hx. discriminate.
    + intros l Hl E'. apply filter_In in Hl. destruct Hl as [_ Hl].
      rewrite E', Z.eqb_refl in Hl. discriminate.
    + intros m Hm Hatt. apply in_map_iff. exists m. split; [|assumption].
      unfold detach. rewrite Hatt. simpl. now rewrite Z.eqb_refl.
    + intros m Hm Hatt. apply in_map_iff. exists m. split; [|assumption].
      unfold detach. destruct (sql_eq_int (Media_tweet_id m) (Tweet_id t)) eqn:Eq;
        [|reflexivity].
      exfalso. apply Hatt. now apply attached_to_iff.
    + intros m Hm Hatt. apply in_map_iff in Hm. destruct Hm as [m0 [<- Hm0]].
      unfold detach in Hatt.
      destruct (sql_eq_int (Media_tweet_id m0) (Tweet_id t)) eqn:Eq.
      * discriminate.
      * apply attached_to_iff in Hatt. unfold attached_to in Hatt. congruence.
  - intros _ Hnone. unfold request. apply serve_DELETE_tweets_missing.
    apply mem_false_iff. intros Hin. apply in_map_iff in Hin.
    destruct Hin as [t [E Ht]]. now apply (Hnone t).
Qed.

(** *** The constraints of the schema are kept by every route *)

Lemma consistent_with_new_tweet (s : Store) (text : string) (owner : Z) :
  consistent s = true -> In owner (map User_id (users s)) ->
  consistent (with_new_tweet text owner s) = true.
Proof.
  intros Hs Ho. consistent_facts Hs.
  apply consistent_intro; try assumption;
    cbn [with_new_tweet set_tweets bump_tweets_id_seq likes likes_id_seq users
         tweets medias followers tweets_id_seq medias_id_seq followers_id_seq].
  - rewrite map_app. apply distinct_snoc; [assumption|]. now apply upto_fresh.
  - rewrite map_app. now apply upto_bump.
  - rewrite forallb_app, Hown. cbn [forallb Tweet_owner_id].
    apply mem_true_iff in Ho. now rewrite Ho.
  - revert Hmfk. apply forallb_impl. intros m _. rewrite map_app.
    unfold references. destruct (Media_tweet_id m); [apply mem_snoc|auto].
  - revert Hlfk. apply forallb_impl. intros l _. rewrite map_app.
    rewrite !andb_true_iff. intros [H1 H2]. split; [assumption|].
    now apply mem_snoc.
Qed.

Lemma consistent_attach (s : Store) (tid k : Z) :
  consistent s = true -> In tid (map Tweet_id (tweets s)) ->
  consistent
    (set_medias (map (fun m0 => if Media_id m0 =? k
                                then attach tid m0 else m0)) s) = true.
Proof.
  intros Hs Ht. consistent_facts Hs.
  assert (Hids : map Media_id
                   (map (fun m0 => if Media_id m0 =? k
                                   then attach tid m0 else m0) (medias s))
                 = map Media_id (medias s)).
  { rewrite map_map. apply map_ext. intros m. now destruct (_ =? _). }
  apply consistent_intro; try assumption;
    cbn [set_medias likes likes_id_seq users
         tweets medias followers tweets_id_seq medias_id_seq followers_id_seq].
  - now rewrite Hids.
  - now rewrite Hids.
  - rewrite forallb_forall in *. intros m' Hm'. apply in_map_iff in Hm'.
    destruct Hm' as [m [<- Hm]]. destruct (_ =? _).
    + simpl. now apply mem_true_iff.
    + now apply Hmfk.
Qed.

Lemma consistent_without_tweet (s : Store) (id : Z) :
  consistent s = true -> consistent (without_tweet id s) = true.
Proof.
  intros Hs. consistent_facts Hs.
  assert (Hids : map Media_id (map (detach id) (medias s))
                 = map Media_id (medias s)).
  { rewrite map_map. apply map_ext. intros m. unfold detach.
    now destruct (sql_eq_int _ _). }
  assert (Hkeep : forall t, t <> id -> mem t (map Tweet_id (tweets s)) = true ->
            mem t (map Tweet_id (filter (fun x => negb (Tweet_id x =? id))
                                   (tweets s))) = true).
  { intros t Hne Hin. apply mem_key_In in Hin. destruct Hin as [x [Hx <-]].
    apply mem_key_In. exists x. split; [|reflexivity]. apply filter_In.
    split; [assumption|]. apply negb_true_iff. now apply Z.eqb_neq. }
  apply consistent_intro; try assumption;
    cbn [without_tweet set_tweets set_medias set_likes likes likes_id_seq users
         tweets medias followers tweets_id_seq medias_id_seq followers_id_seq].
  - now apply distinct_filter.
  - now apply upto_filter.
  - now rewrite Hids.
  - now rewrite Hids.
  - now apply distinct_filter.
  - now apply upto_filter.
  - now apply forallb_filter.
  - rewrite forallb_forall in *. intros m' Hm'. apply in_map_iff in Hm'.
    destruct Hm' as [m [<- Hm]]. specialize (Hmfk m Hm).
    unfold detach, sql_eq_int, references in *.
    destruct (Media_tweet_id m) as [t|] eqn:E; [|now rewrite E].
    destruct (Z.eqb_spec t id) as [->|Hne]; [reflexivity|].
    rewrite E. now apply Hkeep.
  - rewrite forallb_forall in *. intros l Hl. apply filter_In in Hl.
    destruct Hl as [Hl Hne]. specialize (Hlfk l Hl).
    apply andb_true_iff in Hlfk. destruct Hlfk as [H1 H2].
    rewrite H1. simpl. apply Hkeep; [|assumption].
    apply negb_true_iff in Hne. now apply Z.eqb_neq.
Qed.


Lemma consistent_with_new_media (s : Store) (data : list Byte.byte)
  (file_name : string) :
  consistent s = true -> consistent (with_new_media data file_name s) = true.
Proof.
  intros Hs. consistent_facts Hs.
  apply consistent_intro; try assumption;
    cbn [with_new_media set_medias bump_medias_id_seq likes likes_id_seq users
         tweets medias followers tweets_id_seq medias_id_seq followers_id_seq].
  - rewrite map_app. apply distinct_snoc; [assumption|]. now apply upto_fresh.
  - rewrite map_app. now apply upto_bump.
  - now rewrite forallb_app, Hmfk.
Qed.

Lemma consistent_with_new_follower (s : Store) (a b : Z) :
  consistent s = true ->
  In a (map User_id (users s)) -> In b (map User_id (users s)) ->
  consistent (with_new_follower a b s) = true.
Proof.
  intros Hs Ha Hb. consistent_facts Hs.
  apply consistent_intro; try assumption;
    cbn [with_new_follower set_followers bump_followers_id_seq likes
         likes_id_seq users tweets medias followers tweets_id_seq
         medias_id_seq followers_id_seq].
  - rewrite map_app. apply distinct_snoc; [assumption|]. now apply upto_fresh.
  - rewrite map_app. now apply upto_bump.
  - rewrite forallb_app, Hffk.
    cbn [forallb Follower_follower_id Follower_following_id].
    apply mem_true_iff in Ha, Hb. now rewrite Ha, Hb.
Qed.

Lemma consistent_without_like (s : Store) (p : Like -> bool) :
  consistent s = true -> consistent (set_likes (filter p) s) = true.
Proof.
  intros Hs. consistent_facts Hs.
  apply consistent_intro; try assumption;
    cbn [set_likes likes likes_id_seq users tweets medias followers
         tweets_id_seq medias_id_seq followers_id_seq].
  - now apply distinct_filter.
  - now apply upto_filter.
  - now apply forallb_filter.
Qed.

Lemma consistent_without_follower (s : Store) (p : Follower -> bool) :
  consistent s = true -> consistent (set_followers (filter p) s) = true.
Proof.
  intros Hs. consistent_facts Hs.
  apply consistent_intro; try assumption;
    cbn [set_followers likes likes_id_seq users tweets medias followers
         tweets_id_seq medias_id_seq followers_id_seq].
  - now apply distinct_filter.
  - now apply upto_filter.
  - now apply forallb_filter.
Qed.

(** What the dependency hands over is a row of [users] or a dictionary. *)
Lemma get_current_user_spec (api_key : option string) (s : Store) :
  exists obj,
    get_current_user str api_key (settled s) = (Ok obj, settled s)
    /\ forall u, obj = ObjUser u -> In u (users s).
Proof.
  unfold get_current_user, try_except, bind, select. cbn [view settled].
  destruct (filter _ (users s)) as [|u [|u' rows]] eqn:E; cbn.
  - eexists. split; [reflexivity | discriminate].
  - eexists. split; [reflexivity|]. intros u0 [= <-].
    assert (H : In u (filter (fun u1 => sql_eq_string (User_api_key u1) api_key)
                        (users s))) by (rewrite E; now left).
    apply filter_In in H. tauto.
  - eexists. split; [reflexivity | discriminate].
Qed.

Lemma dependencies_spec (req : Request) (s : Store) :
  exists obj,
    dependencies str req (settled s) = (Ok obj, settled s)
    /\ forall u, obj = ObjUser u -> In u (users s).
Proof.
  destruct req; cbn [dependencies]; try apply get_current_user_spec.
  eexists. split; [reflexivity | discriminate].
Qed.

Lemma attach_medias_consistent (t : Tweet) (ids : list Z) :
  forall s,
    consistent s = true -> In (Tweet_id t) (map Tweet_id (tweets s)) ->
    exists r s',
      attach_medias t ids (settled s) = (r, settled s')
      /\ consistent s' = true.
Proof.
  induction ids as [|i rest IH]; intros s Hs Ht.
  - exists (Ok tt), s. now split.
  - cbn [attach_medias]. unfold bind at 1. unfold select at 1.
    cbn [view settled].
    destruct (filter _ (medias s)) as [|m [|m' rows]]; cbn [scalar_one_or_none].
    + exists (Raise (HTTPException 404 "Media not found")), s. now split.
    + unfold bind at 1. unfold ret at 1. 
      unfold bind at 1. unfold set_Media_tweet_id, on_view at 1. cbn [view committed].
      unfold bind at 1. unfold commit at 1. cbn [view committed].
      apply IH.
      * now apply consistent_attach.
      * exact Ht.
    + exists (Raise MultipleResultsFound), s. now split.
Qed.

Lemma add_Media_fresh (s : Store) (data : list Byte.byte) (name : string) :
  upto (medias_id_seq s) (map Media_id (medias s)) = true ->
  add_Media data name (settled s)
  = (Ok (mkMedia (medias_id_seq s + 1) data name None),
     {| committed := bump_medias_id_seq s;
        view := with_new_media data name s |}).
Proof.
  intros Hseq. unfold add_Media, bind, on_both, settled.
  cbn [view committed bump_medias_id_seq medias medias_id_seq Media_id].
  rewrite (upto_fresh _ _ Hseq). reflexivity.
Qed.

Lemma add_Follower_fresh (s : Store) (a b : Z) :
  upto (followers_id_seq s) (map Follower_id (followers s)) = true ->
  add_Follower a b (settled s)
  = (Ok (mkFollower (followers_id_seq s + 1) a b),
     {| committed := bump_followers_id_seq s;
        view := with_new_follower a b s |}).
Proof.
  intros Hseq. unfold add_Follower, bind, on_both, settled.
  cbn [view committed bump_followers_id_seq followers followers_id_seq
       Follower_id].
  rewrite (upto_fresh _ _ Hseq). reflexivity.
Qed.

Lemma create_tweet_consistent (tweet : TweetCreate) (obj : PyObj) (s : Store) :
  consistent s = true -> (forall u, obj = ObjUser u -> In u (users s)) ->
  stays_consistent (create_tweet str tweet obj) s.
Proof.
  intros Hs Hobj. unfold stays_consistent, create_tweet, create_tweet_body, try_except.
  destruct obj as [u|d]; cbn [getattr_id]; [|exact Hs].
  consistent_facts Hs.
  unfold bind at 1. unfold ret at 1. unfold bind at 1.
  rewrite (add_Tweet_fresh s _ _ Htseq).
  unfold bind at 1. unfold commit at 1. cbn [view]. unfold bind at 1.
  assert (Hc : consistent (with_new_tweet (tweet_data tweet) (User_id u) s)
               = true).
  { apply consistent_with_new_tweet; [assumption|].
    apply in_map. now apply Hobj. }
  destruct (tweet_media_ids tweet) as [ids|].
  - destruct (attach_medias_consistent
                (mkTweet (tweets_id_seq s + 1) (tweet_data tweet) (User_id u))
                ids _ Hc) as (r & s' & E & Hs').
    { cbn [with_new_tweet set_tweets tweets Tweet_id]. rewrite map_app.
      apply in_or_app. right. now left. }
    unfold settled in E. rewrite E. destruct r; exact Hs'.
  - exact Hc.
Qed.

Lemma create_media_consistent (file : UploadFile) (uuid4 : string)
  (obj : PyObj) (s : Store) :
  consistent s = true ->
  stays_consistent (create_media str suffix file uuid4 obj) s.
Proof.
  intros Hs. unfold stays_consistent, create_media, create_media_body, try_except.
  destruct (negb _); [exact Hs|]. consistent_facts Hs.
  unfold bind at 1. rewrite (add_Media_fresh s _ _ Hmseq).
  cbn. now apply consistent_with_new_media.
Qed.

Lemma delete_by_id_consistent (id : Z) (obj : PyObj) (s : Store) :
  consistent s = true ->
  stays_consistent (delete_by_id str id obj) s.
Proof.
  intros Hs. unfold stays_consistent, delete_by_id, delete_by_id_body, try_except.
  unfold bind at 1. unfold select at 1. cbn [view settled].
  destruct (filter _ (tweets s)) as [|t [|t' rows]]; cbn [scalar_one_or_none];
    try exact Hs.
  unfold bind at 1. unfold ret at 1.
  destruct obj as [u|d]; cbn [getattr_id]; [|exact Hs].
  unfold bind at 1. unfold ret at 1. unfold bind at 1.
  destruct (Tweet_owner_id t =? User_id u); [|exact Hs].
  cbn. now apply consistent_without_tweet.
Qed.

Lemma likes_tweets_consistent (id : Z) (obj : PyObj) (s : Store) :
  consistent s = true -> (forall u, obj = ObjUser u -> In u (users s)) ->
  stays_consistent (likes_tweets str id obj) s.
Proof.
  intros Hs Hobj. unfold stays_consistent, likes_tweets, likes_tweets_body, try_except.
  unfold bind at 1. unfold select at 1. cbn [view settled].
  destruct (filter _ (tweets s)) as [|t [|t' rows]] eqn:E;
    cbn [scalar_one_or_none]; try exact Hs.
  unfold bind at 1. unfold ret at 1.
  destruct obj as [u|d]; cbn [getattr_id]; [|exact Hs].
  unfold bind at 1. unfold ret at 1. unfold bind at 1.
  consistent_facts Hs.
  change {| committed := s; view := s |} with (settled s).
  rewrite (add_Like_fresh s _ _ Hlseq). cbn.
  apply consistent_with_new_like; [assumption | |].
  - apply in_map. now apply Hobj.
  - assert (H : In t (filter (fun t0 => Tweet_id t0 =? id) (tweets s)))
      by (rewrite E; now left).
    apply filter_In in H. destruct H as [H1 H2]. apply Z.eqb_eq in H2.
    rewrite <- H2. now apply in_map.
Qed.

Lemma delete_likes_by_id_consistent (id : Z) (obj : PyObj) (s : Store) :
  consistent s = true ->
  stays_consistent (delete_likes_by_id str id obj) s.
Proof.
  intros Hs.
  unfold stays_consistent, delete_likes_by_id, delete_likes_by_id_body, try_except.
  destruct obj as [u|d]; cbn [getattr_id]; [|exact Hs].
  unfold bind at 1. unfold ret at 1. unfold bind at 1. unfold select at 1.
  cbn [view settled].
  destruct (first _); [|exact Hs].
  cbn. now apply consistent_without_like.
Qed.

Lemma follow_user_by_id_consistent (id : Z) (obj : PyObj) (s : Store) :
  consistent s = true -> (forall u, obj = ObjUser u -> In u (users s)) ->
  stays_consistent (follow_user_by_id str id obj) s.
Proof.
  intros Hs Hobj.
  unfold stays_consistent, follow_user_by_id, follow_user_by_id_body, try_except.
  unfold bind at 1. unfold select at 1. cbn [view settled].
  destruct (filter _ (users s)) as [|t [|t' rows]] eqn:E;
    cbn [scalar_one_or_none]; try exact Hs.
  unfold bind at 1. unfold ret at 1.
  destruct obj as [u|d]; cbn [getattr_id]; [|exact Hs].
  unfold bind at 1. unfold ret at 1. unfold bind at 1.
  consistent_facts Hs.
  change {| committed := s; view := s |} with (settled s).
  rewrite (add_Follower_fresh s _ _ Hfseq). cbn.
  apply consistent_with_new_follower; [assumption | |].
  - apply in_map. now apply Hobj.
  - assert (H : In t (filter (fun t0 => User_id t0 =? id) (users s)))
      by (rewrite E; now left).
    apply filter_In in H. destruct H as [H1 H2]. apply Z.eqb_eq in H2.
    rewrite <- H2. now apply in_map.
Qed.

Lemma delete_follow_by_id_consistent (id : Z) (obj : PyObj) (s : Store) :
  consistent s = true ->
  stays_consistent (delete_follow_by_id str id obj) s.
Proof.
  intros Hs.
  unfold stays_consistent, delete_follow_by_id, delete_follow_by_id_body, try_except.
  destruct obj as [u|d]; cbn [getattr_id]; [|exact Hs].
  unfold bind at 1. unfold ret at 1. unfold bind at 1. unfold select at 1.
  cbn [view settled].
  destruct (first _); [|exact Hs].
  cbn. now apply consistent_without_follower.
Qed.


Lemma handler_consistent (req : Request) (obj : PyObj) (s : Store) :
  consistent s = true -> (forall u, obj = ObjUser u -> In u (users s)) ->
  stays_consistent (handler str suffix req obj) s.
Proof.
  intros Hs Hobj.
  assert (Hread : forall m : M Returned,
            preserves (fun x => x = settled s) m -> stays_consistent m s).
  { intros m Hm. unfold stays_consistent. rewrite (Hm (settled s) eq_refl).
    exact Hs. }
  destruct req; cbn [handler].
  - now apply create_tweet_consistent.
  - now apply create_media_consistent.
  - apply Hread, preserves_get_media_by_id.
  - now apply delete_by_id_consistent.
  - now apply likes_tweets_consistent.
  - now apply delete_likes_by_id_consistent.
  - now apply follow_user_by_id_consistent.
  - now apply delete_follow_by_id_consistent.
  - apply Hread, preserves_read_tweets.
  - apply Hread, preserves_read_user.
  - apply Hread, preserves_read_user_by_id.
Qed.

(** A request served on a store that meets the constraints leaves one
    that meets them. *)
Theorem serve_consistent (req : Request) (s : Store) :
  consistent s = true -> consistent (snd (serve str suffix req s)) = true.
Proof.
  intros Hs. unfold serve, bind.
  change (get_async_session s) with (settled s).
  destruct (dependencies_spec req s) as (obj & -> & Hobj).
  pose proof (handler_consistent req obj s Hs Hobj) as H.
  unfold stays_consistent in H.
  destruct (handler str suffix req obj (settled s)) as [r ses]. exact H.
Qed.

(** X1. The constraints of the schema - unique primary keys, unique api
    keys, generated keys drawn from the sequences, foreign keys that name
    a row - hold after any sequence of requests served on a store on
    which they held. *)
Theorem serve_all_consistent (reqs : list Request) :
  forall s, consistent s = true ->
            consistent (snd (serve_all str suffix reqs s)) = true.
Proof.
  induction reqs as [|req rest IH]; intros s Hs; simpl.
  - exact Hs.
  - pose proof (serve_consistent req s Hs) as H1.
    destruct (serve str suffix req s) as [resp s1]. simpl in H1.
    specialize (IH s1 H1).
    destruct (serve_all str suffix rest s1) as [resps s2]. exact IH.
Qed.

(** *** [get_media_by_id] *)

Lemma serve_GET_media_found (s : Store) (m : Media) :
  distinct (map Media_id (medias s)) = true -> In m (medias s) ->
  serve str suffix (GET_media (Media_id m)) s
  = (mkHTTPResponse 200 (RawBody (Media_data m) "image/png"), s).
Proof.
  intros Hd Hm. unfold serve. cbn [dependencies handler].
  unfold bind at 1. unfold ret at 1.
  unfold get_media_by_id, get_media_by_id_body, try_except.
  unfold bind at 1. unfold select at 1. cbn [view get_async_session].
  rewrite (filter_key_present Media_id m _ Hd Hm). reflexivity.
Qed.

Lemma serve_GET_media_missing (s : Store) (id : Z) :
  mem id (map Media_id (medias s)) = false ->
  serve str suffix (GET_media id) s
  = (mkHTTPResponse 200
       (JSONBody (server_error str (HTTPException 404 "Media not found"))),
     s).
Proof.
  intros Hid. unfold serve. cbn [dependencies handler].
  unfold bind at 1. unfold ret at 1.
  unfold get_media_by_id, get_media_by_id_body, try_except.
  unfold bind at 1. unfold select at 1. cbn [view get_async_session].
  rewrite (filter_key_absent Media_id id _ Hid). reflexivity.
Qed.

(** C6 (the code at the failing input). A request for media 5 on a store
    that has no such row: the [HTTPException] with status 404 is raised
    and then caught by the [except] clause of the same handler, so the
    answer goes out with status 200 and the error dictionary as its
    body. *)
Theorem get_media_by_id_missing_row :
  serve str suffix (GET_media 5) Sample.busy
  = (mkHTTPResponse 200
       (JSONBody (JDict [("result", JBool false);
                         ("error_type", JStr "server_error");
                         ("error_message",
                          JStr (str (HTTPException 404 "Media not found")))])),
     Sample.busy).
Proof. reflexivity. Qed.

(** *** [get_current_user] *)

Lemma get_current_user_no_match (api_key : option string) (ses : Session) :
  filter (fun u => sql_eq_string (User_api_key u) api_key) (users (view ses))
  = [] ->
  get_current_user str api_key ses
  = (Ok (ObjDict (server_error str
                    (HTTPException 403 "Invalid API Key"))), ses).
Proof.
  intros H. unfold get_current_user, try_except, bind, select.
  rewrite H. reflexivity.
Qed.

(** C1 (the code at the failing input). A request for the feed with a key
    that no user has: the dependency raises the 403 inside its own [try]
    and returns the error dictionary as if it were the user; the handler
    never looks at it, and the request is answered with status 200 and
    the same feed a caller with a valid key gets. *)
Theorem get_current_user_unknown_key :
  get_current_user str (api_key_header (Some "nope"))
    (get_async_session Sample.busy)
  = (Ok (ObjDict (server_error str (HTTPException 403 "Invalid API Key"))),
     get_async_session Sample.busy)
  /\ http_status (fst (serve str suffix (GET_tweets (Some "nope"))
                         Sample.busy)) = 200
  /\ serve str suffix (GET_tweets (Some "nope")) Sample.busy
     = serve str suffix (GET_tweets (Some "k1")) Sample.busy
  /\ fst (serve str suffix (GET_tweets None) Sample.two_users)
     = mkHTTPResponse 200
         (JSONBody (JDict [("result", JBool true); ("tweets", JList [])])).
Proof. repeat split. Qed.

End Properties.

(* ===================================================================== *)
(** ** The theorems at work on the sample database *)
(* ===================================================================== *)

Lemma handler_exception_gives_server_error_witness :
  dependencies Sample.str (GET_media 5) (get_async_session Sample.busy)
  = (Ok (ObjDict JNone), settled Sample.busy)
  /\ handler_body Sample.suffix (GET_media 5) (ObjDict JNone)
       (settled Sample.busy)
     = (Raise (HTTPException 404 "Media not found"), settled Sample.busy)
  /\ serve Sample.str Sample.suffix (GET_media 5) Sample.busy
     = (mkHTTPResponse 200
          (JSONBody (JDict [("result", JBool false);
                            ("error_type", JStr "server_error");
                            ("error_message", JStr "404: Media not found")])),
        Sample.busy).
Proof.
  split; [reflexivity|]. split; [reflexivity|].
  apply (handler_exception_gives_server_error Sample.str Sample.suffix
           (GET_media 5) Sample.busy (ObjDict JNone)
           (settled Sample.busy) (settled Sample.busy)
           (HTTPException 404 "Media not found")); reflexivity.
Defined.

(** The claim of C4 counts the attached rows by the length of the list;
    a list that names the same row twice attaches one row. *)
Lemma create_tweet_repeated_media_id :
  let request := POST_tweets (Some "k1") (mkTweetCreate "x" (Some [2; 2])) in
  let s' := snd (serve Sample.str Sample.suffix request Sample.busy) in
  consistent Sample.busy = true
  /\ forallb (fun i => mem i (map Media_id (medias Sample.busy))) [2; 2]
     = true
  /\ fst (serve Sample.str Sample.suffix request Sample.busy)
     = mkHTTPResponse 200
         (JSONBody (JDict [("result", JBool true); ("tweet_id", JInt 2)]))
  /\ count (attached_to 2) (medias s') = 1%nat
  /\ count (attached_to 2) (medias s') <> List.length [2; 2].
Proof. repeat split. discriminate. Qed.

Lemma create_tweet_attaches_listed_medias_witness :
  let request := POST_tweets (Some "k1") (mkTweetCreate "x" (Some [2; 1])) in
  let s' := snd (serve Sample.str Sample.suffix request Sample.busy) in
  consistent Sample.busy = true
  /\ In Sample.alice (users Sample.busy)
  /\ User_api_key Sample.alice = Some "k1"
  /\ "k1" <> ""
  /\ NUL_free "x" = true
  /\ (forall i, In i [2; 1] ->
        exists m, In m (medias Sample.busy) /\ Media_id m = i)
  /\ fst (serve Sample.str Sample.suffix request Sample.busy)
     = mkHTTPResponse 200
         (JSONBody (JDict [("result", JBool true); ("tweet_id", JInt 2)]))
  /\ count (attached_to 2) (medias s') = 2%nat
  /\ in_int32 7
  /\ (forall m, In m (medias Sample.busy) -> Media_id m <> 7)
  /\ fst (serve Sample.str Sample.suffix
            (POST_tweets (Some "k1") (mkTweetCreate "x" (Some [2; 7; 1])))
            Sample.busy)
     = mkHTTPResponse 200
         (JSONBody (server_error Sample.str
                      (HTTPException 404 "Media not found"))).
Proof.
  assert (H1 : consistent Sample.busy = true) by reflexivity.
  assert (H2 : In Sample.alice (users Sample.busy)) by (left; reflexivity).
  assert (H3 : User_api_key Sample.alice = Some "k1") by reflexivity.
  assert (H4 : "k1" <> "") by discriminate.
  assert (H5 : forall i, In i [2; 1] ->
                 exists m, In m (medias Sample.busy) /\ Media_id m = i).
  { intros i [<- | [<- | []]].
    - exists (mkMedia 2 [xff] "b.jpg" None). split; [right; left|]; reflexivity.
    - exists (mkMedia 1 [x89; x50] "a.png" (Some 1)).
      split; [left|]; reflexivity. }
  pose proof (create_tweet_attaches_listed_medias Sample.str Sample.suffix
                Sample.busy Sample.alice "k1" "x" [2; 1]
                H1 H2 H3 H4 eq_refl H5) as T.
  cbv zeta in T. destruct T as (T1 & _ & _ & _ & _ & T6 & T7).
  assert (H6 : in_int32 7) by (split; discriminate).
  assert (H7 : forall m, In m (medias Sample.busy) -> Media_id m <> 7).
  { intros m [<- | [<- | []]]; discriminate. }
  cbv zeta.
  refine (conj H1 (conj H2 (conj H3 (conj H4 (conj eq_refl
            (conj H5 (conj T1 (conj _ (conj H6 (conj H7 _)))))))))).
  - apply T6. constructor.
    + intros [E | []]. discriminate.
    + constructor; [intros [] | constructor].
  - exact (proj1 (T7 [2] [1] 7 eq_refl H6 H7)).
Defined.



(** The claim of C5 has the media rows of a deleted tweet keep their
    [tweet_id]; the row that referenced tweet 1 comes out with none. *)
Lemma delete_tweet_clears_media_reference :
  let request := DELETE_tweets (Some "k1") 1 in
  let s' := snd (serve Sample.str Sample.suffix request Sample.busy) in
  In (mkMedia 1 [x89; x50] "a.png" (Some 1)) (medias Sample.busy)
  /\ fst (serve Sample.str Sample.suffix request Sample.busy)
     = mkHTTPResponse 200 (JSONBody (JDict [("result", JBool true)]))
  /\ medias s' = [mkMedia 1 [x89; x50] "a.png" None;
                  mkMedia 2 [xff] "b.jpg" None]
  /\ ~ In (mkMedia 1 [x89; x50] "a.png" (Some 1)) (medias s').
Proof.
  cbv zeta. split; [left; reflexivity|]. split; [reflexivity|].
  split; [reflexivity|].
  intros [E | [E | []]]; discriminate.
Qed.

Lemma delete_tweet_by_owner_only_witness :
  let s' := snd (serve Sample.str Sample.suffix (DELETE_tweets (Some "k1") 1)
                   Sample.busy) in
  consistent Sample.busy = true
  /\ In Sample.alice (users Sample.busy)
  /\ User_api_key Sample.alice = Some "k1"
  /\ "k1" <> ""
  /\ In (mkTweet 1 "hello" 1) (tweets Sample.busy)
  /\ tweets s' = filter (fun x => negb (Tweet_id x =? 1)) (tweets Sample.busy)
  /\ likes s' = filter (fun l => negb (Like_tweet_id l =? 1))
                  (likes Sample.busy)
  /\ Permutation (medias s') (map (detach 1) (medias Sample.busy))
  /\ in_int32 9
  /\ (forall t, In t (tweets Sample.busy) -> Tweet_id t <> 9)
  /\ serve Sample.str Sample.suffix (DELETE_tweets (Some "k1") 9) Sample.busy
     = (mkHTTPResponse 200
          (JSONBody (server_error Sample.str
                       (HTTPException 404 "Tweet not found"))),
        Sample.busy).
Proof.
  assert (H1 : consistent Sample.busy = true) by reflexivity.
  assert (H2 : In Sample.alice (users Sample.busy)) by (left; reflexivity).
  assert (H3 : User_api_key Sample.alice = Some "k1") by reflexivity.
  assert (H4 : "k1" <> "") by discriminate.
  assert (H5 : In (mkTweet 1 "hello" 1) (tweets Sample.busy))
    by (left; reflexivity).
  pose proof (delete_tweet_by_owner_only Sample.str Sample.suffix
                Sample.busy Sample.alice "k1" 1 H1 H2 H3 H4) as T.
  cbv zeta in T. destruct T as (_ & T2 & _).
  destruct (T2 (mkTweet 1 "hello" 1) H5 eq_refl eq_refl)
    as (_ & T3 & _ & T4 & _ & T5 & _).
  assert (H6 : in_int32 9) by (split; discriminate).
  assert (H7 : forall t, In t (tweets Sample.busy) -> Tweet_id t <> 9).
  { intros t [<- | []]. discriminate. }
  pose proof (delete_tweet_by_owner_only Sample.str Sample.suffix
                Sample.busy Sample.alice "k1" 9 H1 H2 H3 H4) as T'.
  cbv zeta in T'. destruct T' as (_ & _ & T6).
  cbv zeta.
  exact (conj H1 (conj H2 (conj H3 (conj H4 (conj H5 (conj T3 (conj T4
           (conj T5 (conj H6 (conj H7 (T6 H6 H7))))))))))).
Defined.

Lemma like_twice_unlike_once_witness :
  let like := POST_likes (Some "k1") 1 in
  let s1 := snd (serve Sample.str Sample.suffix like Sample.busy) in
  let s2 := snd (serve Sample.str Sample.suffix like s1) in
  let s3 := snd (serve Sample.str Sample.suffix (DELETE_likes (Some "k1") 1)
                   s2) in
  consistent Sample.busy = true
  /\ In Sample.alice (users Sample.busy)
  /\ User_api_key Sample.alice = Some "k1"
  /\ "k1" <> ""
  /\ In 1 (map Tweet_id (tweets Sample.busy))
  /\ likes s2 = likes Sample.busy ++ [mkLike 2 1 1; mkLike 3 1 1]
  /\ (count (like_of 1 1) (likes s3)
      = count (like_of 1 1) (likes Sample.busy) + 1)%nat
  /\ in_int32 9
  /\ (forall l, In l (likes Sample.busy) -> like_of 1 9 l = false)
  /\ serve Sample.str Sample.suffix (DELETE_likes (Some "k1") 9) Sample.busy
     = (mkHTTPResponse 200
          (JSONBody (server_error Sample.str
                       (HTTPException 404 "Like not found"))),
        Sample.busy).
Proof.
  assert (H1 : consistent Sample.busy = true) by reflexivity.
  assert (H2 : In Sample.alice (users Sample.busy)) by (left; reflexivity).
  assert (H3 : User_api_key Sample.alice = Some "k1") by reflexivity.
  assert (H4 : "k1" <> "") by discriminate.
  assert (H5 : In 1 (map Tweet_id (tweets Sample.busy)))
    by (left; reflexivity).
  pose proof (like_twice_unlike_once Sample.str Sample.suffix
                Sample.busy Sample.alice "k1" 1 H1 H2 H3 H4 H5) as T.
  cbv zeta in T.
  destruct T as (_ & _ & T3 & _ & _ & _ & _ & _ & _ & T10 & _ & T12).
  assert (H6 : in_int32 9) by (split; discriminate).
  assert (H7 : forall l, In l (likes Sample.busy) -> like_of 1 9 l = false).
  { intros l [<- | []]. reflexivity. }
  cbv zeta.
  exact (conj H1 (conj H2 (conj H3 (conj H4 (conj H5 (conj T3 (conj T10
           (conj H6 (conj H7 (T12 9 H6 H7)))))))))).
Defined.

(* ===================================================================== *)
(** ** Further properties of the handlers *)
(* ===================================================================== *)

Lemma find_key_present (u : User) (us : list User) :
  distinct (map User_id us) = true -> In u us ->
  find (fun x => User_id x =? User_id u) us = Some u.
Proof.
  induction us as [|x us IH]; intros Hd Hin.
  - contradiction.
  - cbn [map distinct] in Hd. apply andb_true_iff in Hd.
    destruct Hd as [Hx Hd]. apply negb_true_iff in Hx. cbn [find].
    destruct Hin as [-> | Hin].
    + now rewrite Z.eqb_refl.
    + destruct (Z.eqb_spec (User_id x) (User_id u)) as [E|_].
      * exfalso. apply mem_false_iff in Hx. apply Hx. rewrite E.
        now apply in_map.
      * now apply IH.
Qed.

Lemma all_ok_length {A} (l : list (Result A)) (r : list A) :
  all_ok l = Ok r -> List.length r = List.length l.
Proof.
  revert r. induction l as [|[a|e] l IH]; intros r H; cbn [all_ok] in H.
  - now injection H as <-.
  - destruct (all_ok l) as [r'|e]; [|discriminate].
    injection H as <-. simpl. f_equal. now apply IH.
  - discriminate.
Qed.

Lemma all_ok_map {A B} (f : A -> Result B) (l : list A) :
  (forall x, In x l -> exists y, f x = Ok y) ->
  exists r, all_ok (map f l) = Ok r /\ Forall2 (fun x y => f x = Ok y) l r.
Proof.
  induction l as [|x l IH]; intros H.
  - exists []. split; [reflexivity | constructor].
  - destruct (H x (or_introl eq_refl)) as [y Hy].
    destruct IH as (r & Hr & HF); [intros z Hz; apply H; now right|].
    exists (y :: r). cbn [map all_ok]. rewrite Hy, Hr. split; [reflexivity|].
    now constructor.
Qed.

Lemma all_ok_app {A} (l1 l2 : list (Result A)) (r1 r2 : list A) :
  all_ok l1 = Ok r1 -> all_ok l2 = Ok r2 -> all_ok (l1 ++ l2) = Ok (r1 ++ r2).
Proof.
  revert r1. induction l1 as [|[a|e] l1 IH]; intros r1 H1 H2; cbn [all_ok app] in *.
  - injection H1 as <-. exact H2.
  - destruct (all_ok l1) as [r'|e] eqn:E; [|discriminate].
    injection H1 as <-. now rewrite (IH r' eq_refl H2).
  - discriminate.
Qed.

(** The loops of [read_tweets] compute the functions [like_item] and
    [feed_item] of the tables and leave the session alone. *)
Lemma for_each_all_ok {A B} (f : A -> M B) (g : A -> Result B) (l : list A)
  (ses : Session) :
  (forall x, f x ses = (g x, ses)) ->
  for_each f l ses = (all_ok (map g l), ses).
Proof.
  intros Hf. induction l as [|x l IH]; cbn [for_each map all_ok].
  - reflexivity.
  - unfold bind at 1. rewrite Hf. destruct (g x) as [y|e]; [|reflexivity].
    unfold bind at 1. rewrite IH. destruct (all_ok (map g l)); reflexivity.
Qed.

Lemma like_entry_item (like : Like) (ses : Session) :
  like_entry like ses = (like_item (view ses) like, ses).
Proof.
  unfold like_entry, like_item, bind, load_User.
  destruct (related_User (view ses) (Like_user_id like)); reflexivity.
Qed.

Lemma tweet_entry_item (tweet : Tweet) (ses : Session) :
  tweet_entry tweet ses = (feed_item (view ses) tweet, ses).
Proof.
  unfold tweet_entry, feed_item. unfold bind at 1. unfold select at 1.
  unfold bind at 1. unfold select at 1. unfold bind at 1.
  rewrite (for_each_all_ok like_entry (like_item (view ses)) _ ses
             (fun l => like_entry_item l ses)).
  change (fun m : Media => sql_eq_int (Media_tweet_id m) (Tweet_id tweet))
    with (attached_to (Tweet_id tweet)).
  destruct (all_ok _) as [like_list|e]; [|reflexivity].
  unfold bind, load_User.
  destruct (related_User (view ses) (Tweet_owner_id tweet)); reflexivity.
Qed.

Lemma first_filter_None_nil {A} (p : A -> bool) (l : list A) :
  filter p l = [] <-> (forall x, In x l -> p x = false).
Proof.
  split.
  - intros H x Hx. destruct (p x) eqn:E; [|reflexivity].
    assert (Hin : In x (filter p l)) by (apply filter_In; now split).
    rewrite H in Hin. contradiction.
  - induction l as [|y l IH]; intros H; simpl.
    + reflexivity.
    + rewrite (H y (or_introl eq_refl)). apply IH.
      intros x Hx. apply H. now right.
Qed.

Section RowsByKey.
Context {A : Type} (key : A -> Z).

Lemma same_key_same_row (a b : A) (l : list A) :
  distinct (map key l) = true -> In a l -> In b l -> key a = key b -> a = b.
Proof.
  induction l as [|x l IH]; intros Hd Ha Hb E.
  - contradiction.
  - cbn [map distinct] in Hd. apply andb_true_iff in Hd.
    destruct Hd as [Hx Hd]. apply negb_true_iff, mem_false_iff in Hx.
    destruct Ha as [-> | Ha], Hb as [-> | Hb].
    + reflexivity.
    + exfalso. apply Hx. rewrite E. now apply in_map.
    + exfalso. apply Hx. rewrite <- E. now apply in_map.
    + now apply IH.
Qed.

Lemma filter_other_keys (k : Z) (l : list A) :
  mem k (map key l) = false ->
  filter (fun x => negb (key x =? k)) l = l.
Proof.
  rewrite mem_false_iff. induction l as [|y l IH]; intros H; simpl.
  - reflexivity.
  - destruct (Z.eqb_spec (key y) k) as [E|_].
    + exfalso. apply H. left. exact E.
    + simpl. f_equal. apply IH. intros Hin. apply H. now right.
Qed.

Lemma filter_only (p : A -> bool) (u : A) (l : list A) :
  distinct (map key l) = true -> In u l -> p u = true ->
  (forall x, In x l -> p x = true -> x = u) ->
  filter p l = [u].
Proof.
  induction l as [|x l IH]; intros Hd Hu Hp Huniq.
  - contradiction.
  - cbn [map distinct] in Hd. apply andb_true_iff in Hd.
    destruct Hd as [Hx Hd]. apply negb_true_iff, mem_false_iff in Hx.
    cbn [filter]. destruct (p x) eqn:Epx.
    + assert (x = u) by (apply Huniq; [now left | assumption]). subst x.
      f_equal. apply first_filter_None_nil. intros y Hy.
      destruct (p y) eqn:Epy; [|reflexivity].
      exfalso. apply Hx.
      rewrite <- (Huniq y (or_intror Hy) Epy). now apply in_map.
    + destruct Hu as [-> | Hu]; [congruence|].
      apply IH; try assumption. intros y Hy. apply Huniq. now right.
Qed.
End RowsByKey.

Lemma detach_keeps (tid : Z) (m : Media) :
  Media_id (detach tid m) = Media_id m
  /\ Media_data (detach tid m) = Media_data m
  /\ Media_file_name (detach tid m) = Media_file_name m.
Proof. unfold detach. destruct (sql_eq_int _ _); repeat split. Qed.

Section Further.

Variable str : Exception -> string.
Variable suffix : string -> string.

(** X2. Every answer of every route has status 200, failures included:
    no [HTTPException] raised by a handler or by the authentication
    dependency ever reaches the framework. *)
Theorem every_answer_has_status_200 :
  forall (reqs : list Request) (s : Store),
    Forall (fun resp => http_status resp = 200)
      (fst (serve_all str suffix reqs s)).
Proof.
  induction reqs as [|req rest IH]; intros s; simpl.
  - constructor.
  - pose proof (serve_status_200 str suffix req s) as H.
    destruct (serve str suffix req s) as [resp s1]. simpl in H.
    specialize (IH s1).
    destruct (serve_all str suffix rest s1) as [resps s2]. simpl in *.
    now constructor.
Qed.

(** *** [create_media] *)


Lemma serve_POST_medias_refused (s : Store) (h : option string)
  (file : UploadFile) (uuid4 : string) :
  allowed_content_type (content_type file) = false ->
  serve str suffix (POST_medias h file uuid4) s
  = (mkHTTPResponse 200
       (JSONBody (server_error str
                    (HTTPException 400
                       "Invalid file type. Only JPEG and PNG are allowed."))),
     s).
Proof.
  intros Hct.
  unfold serve. cbn [dependencies handler]. unfold bind at 1.
  change (get_async_session s) with (settled s).
  destruct (get_current_user_spec str (api_key_header h) s) as (obj & -> & _).
  unfold create_media, create_media_body, try_except. rewrite Hct. reflexivity.
Qed.

(** *** [follow_user_by_id] and [delete_follow_by_id] *)

Lemma serve_POST_follow (s : Store) (u : User) (k : string) (id : Z) :
  consistent s = true -> In u (users s) -> User_api_key u = Some k ->
  k <> "" -> In id (map User_id (users s)) ->
  serve str suffix (POST_follow (Some k) id) s
  = (mkHTTPResponse 200 (JSONBody (JDict [("result", JBool true)])),
     with_new_follower (User_id u) id s).
Proof.
  intros Hs Hu Hk Hne Hid. consistent_facts Hs.
  apply in_map_iff in Hid. destruct Hid as [t [<- Ht]].
  unfold serve. cbn [dependencies handler]. unfold bind at 1.
  rewrite (get_current_user_resolves str s u k Hs Hu Hk Hne).
  unfold follow_user_by_id, follow_user_by_id_body, try_except.
  unfold bind at 1. unfold select at 1. cbn [view get_async_session].
  rewrite (filter_key_present User_id t _ Huid Ht).
  unfold bind at 1. cbn [scalar_one_or_none ret getattr_id].
  unfold bind at 1. unfold ret at 1. unfold bind at 1.
  change (get_async_session s) with (settled s).
  rewrite (add_Follower_fresh s (User_id u) (User_id t) Hfseq).
  reflexivity.
Qed.

Lemma serve_POST_follow_missing (s : Store) (h : option string) (id : Z) :
  mem id (map User_id (users s)) = false ->
  serve str suffix (POST_follow h id) s
  = (mkHTTPResponse 200
       (JSONBody (server_error str (HTTPException 404 "User not found"))),
     s).
Proof.
  intros Hid.
  unfold serve. cbn [dependencies handler]. unfold bind at 1.
  change (get_async_session s) with (settled s).
  destruct (get_current_user_spec str (api_key_header h) s) as (obj & -> & _).
  unfold follow_user_by_id, follow_user_by_id_body, try_except.
  unfold bind at 1. unfold select at 1. cbn [view settled].
  rewrite (filter_key_absent User_id id _ Hid). reflexivity.
Qed.

Lemma serve_DELETE_follow (s : Store) (u : User) (k : string) (id : Z) :
  consistent s = true -> In u (users s) -> User_api_key u = Some k ->
  k <> "" ->
  serve str suffix (DELETE_follow (Some k) id) s
  = match first (filter (edge_of (User_id u) id) (followers s)) with
    | Some f =>
        (mkHTTPResponse 200 (JSONBody (JDict [("result", JBool true)])),
         set_followers
           (filter (fun x => negb (Follower_id x =? Follower_id f))) s)
    | None =>
        (mkHTTPResponse 200
           (JSONBody (server_error str
                        (HTTPException 404 "Follower not found"))),
         s)
    end.
Proof.
  intros Hs Hu Hk Hne.
  unfold serve. cbn [dependencies handler]. unfold bind at 1.
  rewrite (get_current_user_resolves str s u k Hs Hu Hk Hne).
  unfold delete_follow_by_id, delete_follow_by_id_body, try_except.
  cbn [getattr_id]. unfold bind at 1. unfold ret at 1.
  unfold bind at 1. unfold select at 1. cbn [view get_async_session].
  change (fun f : Follower =>
            (Follower_follower_id f =? User_id u)
            && (Follower_following_id f =? id))
    with (edge_of (User_id u) id).
  destruct (first (filter (edge_of (User_id u) id) (followers s))) as [f|];
    reflexivity.
Qed.

Lemma serve_POST_likes_missing (s : Store) (h : option string) (id : Z) :
  mem id (map Tweet_id (tweets s)) = false ->
  serve str suffix (POST_likes h id) s
  = (mkHTTPResponse 200
       (JSONBody (server_error str (HTTPException 404 "Tweet not found"))),
     s).
Proof.
  intros Hid.
  unfold serve. cbn [dependencies handler]. unfold bind at 1.
  change (get_async_session s) with (settled s).
  destruct (get_current_user_spec str (api_key_header h) s) as (obj & -> & _).
  unfold likes_tweets, likes_tweets_body, try_except.
  unfold bind at 1. unfold select at 1. cbn [view settled].
  rewrite (filter_key_absent Tweet_id id _ Hid). reflexivity.
Qed.



(** *** The profile handlers *)

Lemma profile_returns (s : Store) (u : User) :
  profile (Some u) (User_id u) (settled s)
  = (Ok (RetDict (profile_json s u)), settled s).
Proof. reflexivity. Qed.

Lemma serve_GET_users_found (s : Store) (h : option string) (v : User) :
  distinct (map User_id (users s)) = true -> In v (users s) ->
  serve str suffix (GET_users h (User_id v)) s
  = (mkHTTPResponse 200 (JSONBody (profile_json s v)), s).
Proof.
  intros Hd Hv.
  unfold serve. cbn [dependencies handler]. unfold bind at 1.
  change (get_async_session s) with (settled s).
  destruct (get_current_user_spec str (api_key_header h) s) as (obj & -> & _).
  unfold read_user_by_id, read_user_by_id_body, try_except.
  unfold bind at 1. unfold select at 1. cbn [view settled].
  rewrite (filter_key_present User_id v _ Hd Hv).
  unfold bind at 1. cbn [scalar_one_or_none ret].
  change {| committed := s; view := s |} with (settled s).
  rewrite profile_returns. reflexivity.
Qed.

Lemma serve_GET_users_missing (s : Store) (h : option string) (id : Z) :
  mem id (map User_id (users s)) = false ->
  serve str suffix (GET_users h id) s
  = (mkHTTPResponse 200
       (JSONBody (server_error str (HTTPException 404 "User not found"))),
     s).
Proof.
  intros Hid.
  unfold serve. cbn [dependencies handler]. unfold bind at 1.
  change (get_async_session s) with (settled s).
  destruct (get_current_user_spec str (api_key_header h) s) as (obj & -> & _).
  unfold read_user_by_id, read_user_by_id_body, try_except.
  unfold bind at 1. unfold select at 1. cbn [view settled].
  rewrite (filter_key_absent User_id id _ Hid). reflexivity.
Qed.

Lemma serve_GET_users_me (s : Store) (u : User) (k : string) :
  consistent s = true -> In u (users s) -> User_api_key u = Some k ->
  k <> "" ->
  serve str suffix (GET_users_me (Some k)) s
  = (mkHTTPResponse 200 (JSONBody (profile_json s u)), s).
Proof.
  intros Hs Hu Hk Hne. consistent_facts Hs.
  unfold serve. cbn [dependencies handler]. unfold bind at 1.
  rewrite (get_current_user_resolves str s u k Hs Hu Hk Hne).
  unfold read_user, read_user_body, try_except.
  cbn [getattr_id]. unfold bind at 1. unfold ret at 1.
  unfold bind at 1. unfold select at 1. cbn [view get_async_session].
  rewrite (filter_key_present User_id u _ Huid Hu).
  unfold bind at 1. cbn [scalar_one_or_none ret].
  change {| committed := s; view := s |} with (settled s).
  rewrite profile_returns. reflexivity.
Qed.

(** The feed as a function of the store. *)
Lemma serve_GET_tweets (h : option string) (s : Store) :
  serve str suffix (GET_tweets h) s
  = (match feed s with
     | Ok tweet_list =>
         mkHTTPResponse 200
           (JSONBody (JDict [("result", JBool true);
                             ("tweets", JList tweet_list)]))
     | Raise e => mkHTTPResponse 200 (JSONBody (server_error str e))
     end, s).
Proof.
  unfold serve. cbn [dependencies handler]. unfold bind at 1.
  change (get_async_session s) with (settled s).
  destruct (get_current_user_spec str (api_key_header h) s) as (obj & -> & _).
  unfold read_tweets, read_tweets_body, try_except.
  unfold bind at 1. unfold select at 1. cbn [view settled].
  rewrite filter_true. unfold bind at 1.
  rewrite (for_each_all_ok tweet_entry (feed_item s) _ (settled s)
             (fun t => tweet_entry_item t (settled s))).
  fold (feed s). destruct (feed s); reflexivity.
Qed.

Lemma like_item_ok (s : Store) (l : Like) :
  consistent s = true -> In l (likes s) -> exists j, like_item s l = Ok j.
Proof.
  intros Hs Hl. consistent_facts Hs. rewrite forallb_forall in Hlfk.
  specialize (Hlfk l Hl). apply andb_true_iff in Hlfk. destruct Hlfk as [H _].
  apply mem_key_In in H. destruct H as [u [Hu E]].
  unfold like_item, related_User. rewrite <- E.
  rewrite (find_key_present u _ Huid Hu). eauto.
Qed.

Lemma feed_item_ok (s : Store) (t : Tweet) :
  consistent s = true -> In t (tweets s) -> exists j, feed_item s t = Ok j.
Proof.
  intros Hs Ht. unfold feed_item. cbv zeta.
  destruct (all_ok_map (like_item s)
              (filter (fun l => Like_tweet_id l =? Tweet_id t) (likes s)))
    as (r & -> & _).
  { intros l Hl. apply filter_In in Hl. now apply like_item_ok. }
  consistent_facts Hs. rewrite forallb_forall in Hown.
  specialize (Hown t Ht). apply mem_key_In in Hown.
  destruct Hown as [u [Hu E]]. unfold related_User. rewrite <- E.
  rewrite (find_key_present u _ Huid Hu). eauto.
Qed.

(** X12. On a store that meets the constraints of the schema the feed
    never fails, whatever the header is: it has one entry for every row
    of [tweets], in the order of the table, each one the item computed
    from that row. *)
Theorem feed_lists_every_tweet :
  forall (s : Store) (h : option string),
    consistent s = true ->
    exists entries,
      serve str suffix (GET_tweets h) s
      = (mkHTTPResponse 200
           (JSONBody (JDict [("result", JBool true);
                             ("tweets", JList entries)])), s)
      /\ List.length entries = List.length (tweets s)
      /\ Forall2 (fun t j => feed_item s t = Ok j) (tweets s) entries.
Proof.
  intros s h Hs.
  destruct (all_ok_map (feed_item s) (tweets s)) as (r & Hr & HF).
  { intros t Ht. now apply feed_item_ok. }
  exists r. rewrite serve_GET_tweets. unfold feed. rewrite Hr.
  split; [reflexivity|]. split; [|assumption].
  rewrite (all_ok_length _ _ Hr). apply length_map.
Qed.

Lemma serve_POST_tweets_None (s : Store) (u : User) (k text : string) :
  consistent s = true -> In u (users s) -> User_api_key u = Some k ->
  k <> "" ->
  serve str suffix (POST_tweets (Some k) (mkTweetCreate text None)) s
  = (mkHTTPResponse 200
       (JSONBody (JDict [("result", JBool true);
                         ("tweet_id", JInt (tweets_id_seq s + 1))])),
     with_new_tweet text (User_id u) s).
Proof.
  intros Hs Hu Hk Hne. consistent_facts Hs.
  unfold serve. cbn [dependencies handler]. unfold bind at 1.
  rewrite (get_current_user_resolves str s u k Hs Hu Hk Hne).
  unfold create_tweet, create_tweet_body, try_except.
  cbn [getattr_id tweet_data tweet_media_ids].
  unfold bind at 1. unfold ret at 1. unfold bind at 1.
  change (get_async_session s) with (settled s).
  rewrite (add_Tweet_fresh s text (User_id u) Htseq). reflexivity.
Qed.

(** X11. An authenticated creation without media ids - [None], or an
    empty list, which behaves the same - with a text that the database
    can store succeeds, returns the next id of the sequence, appends one
    tweet with the caller as owner and leaves the other four tables as
    they were. *)
Theorem create_tweet_without_media :
  forall (s : Store) (u : User) (k text : string),
    consistent s = true -> In u (users s) -> User_api_key u = Some k ->
    k <> "" -> NUL_free text = true ->
    let created :=
      (mkHTTPResponse 200
         (JSONBody (JDict [("result", JBool true);
                           ("tweet_id", JInt (tweets_id_seq s + 1))])),
       mkStore (users s)
         (tweets s ++ [mkTweet (tweets_id_seq s + 1) text (User_id u)])
         (medias s) (likes s) (followers s)
         (tweets_id_seq s + 1) (medias_id_seq s) (likes_id_seq s)
         (followers_id_seq s)) in
    serve str suffix (POST_tweets (Some k) (mkTweetCreate text None)) s
    = created
    /\ serve str suffix (POST_tweets (Some k) (mkTweetCreate text (Some []))) s
       = created.
Proof.
  intros s u k text Hs Hu Hk Hne Htext created. split.
  - now rewrite (serve_POST_tweets_None s u k text Hs Hu Hk Hne).
  - rewrite (serve_POST_tweets_all str suffix s u k text [] Hs Hu Hk Hne).
    + now rewrite set_medias_nil.
    + intros i [].
Qed.

(** X13. After a user has created a tweet without media, with a text
    that the database can store, the feed is the feed from before
    followed by one entry for the new tweet: its id and content, the
    author's id and name, no attachments and no likes. *)
Theorem created_tweet_appears_in_feed :
  forall (s : Store) (u : User) (k text : string) (h : option string),
    consistent s = true -> In u (users s) -> User_api_key u = Some k ->
    k <> "" -> NUL_free text = true ->
    let s1 := snd (serve str suffix
                     (POST_tweets (Some k) (mkTweetCreate text None)) s) in
    exists entries,
      fst (serve str suffix (GET_tweets h) s)
      = mkHTTPResponse 200
          (JSONBody (JDict [("result", JBool true);
                            ("tweets", JList entries)]))
      /\ fst (serve str suffix (GET_tweets h) s1)
         = mkHTTPResponse 200
             (JSONBody
                (JDict [("result", JBool true);
                        ("tweets",
                         JList (entries ++
                           [JDict [("id", JInt (tweets_id_seq s + 1));
                                   ("content", JStr text);
                                   ("attachments", JList []);
                                   ("author",
                                    JDict [("id", JInt (User_id u));
                                           ("name", JStr (User_name u))]);
                                   ("likes", JList [])]]))])).
Proof.
  intros s u k text h Hs Hu Hk Hne Htext s1.
  assert (E1 : s1 = with_new_tweet text (User_id u) s)
    by (unfold s1; now rewrite (serve_POST_tweets_None s u k text Hs Hu Hk Hne)).
  clearbody s1. subst s1.
  destruct (all_ok_map (feed_item s) (tweets s)) as (r & Hr & _).
  { intros t Ht. now apply feed_item_ok. }
  exists r. rewrite !serve_GET_tweets. cbn [fst]. unfold feed at 1. rewrite Hr.
  split; [reflexivity|].
  set (t := mkTweet (tweets_id_seq s + 1) text (User_id u)).
  assert (Hnew : feed_item (with_new_tweet text (User_id u) s) t
                 = Ok (JDict [("id", JInt (tweets_id_seq s + 1));
                              ("content", JStr text);
                              ("attachments", JList []);
                              ("author", id_name u);
                              ("likes", JList [])])).
  { unfold feed_item. cbv zeta.
    cbn [with_new_tweet set_tweets bump_tweets_id_seq medias likes users t
         Tweet_id Tweet_owner_id Tweet_content_text].
    rewrite (proj2 (first_filter_None_nil
                      (attached_to (tweets_id_seq s + 1)) (medias s))).
    2:{ intros m Hm. now apply fresh_tweet_unreferenced. }
    rewrite (proj2 (first_filter_None_nil
                      (fun l => Like_tweet_id l =? tweets_id_seq s + 1)
                      (likes s))).
    2:{ intros l Hl. consistent_facts Hs. rewrite forallb_forall in Hlfk.
        specialize (Hlfk l Hl). apply andb_true_iff in Hlfk.
        destruct Hlfk as [_ H]. apply Z.eqb_neq. intros E.
        rewrite E in H. apply upto_fresh in Htseq. congruence. }
    cbn [map all_ok]. consistent_facts Hs. unfold related_User.
    cbn [with_new_tweet set_tweets bump_tweets_id_seq users].
    now rewrite (find_key_present u _ Huid Hu). }
  unfold feed. cbn [with_new_tweet set_tweets tweets]. fold t.
  rewrite map_app. cbn [map].
  erewrite all_ok_app; [reflexivity | | ].
  - rewrite <- Hr. f_equal.
  - cbn [all_ok]. fold (with_new_tweet text (User_id u) s).
    now rewrite Hnew.
Qed.

(** X3. A header that carries the key of a user resolves to that user,
    and to no other: no other row of [users] has that key. *)
Theorem valid_key_resolves_its_user :
  forall (s : Store) (u : User) (k : string),
    consistent s = true -> In u (users s) -> User_api_key u = Some k ->
    k <> "" ->
    get_current_user str (api_key_header (Some k)) (get_async_session s)
    = (Ok (ObjUser u), get_async_session s)
    /\ (forall u', In u' (users s) -> User_api_key u' = Some k -> u' = u).
Proof.
  intros s u k Hs Hu Hk Hne. split.
  - now apply get_current_user_resolves.
  - intros u' Hu' Hk'. consistent_facts Hs.
    pose proof (filter_api_key k u (users s) Hkeys Hu Hk) as E.
    assert (Hin : In u' (filter (fun x => sql_eq_string (User_api_key x) (Some k))
                           (users s))).
    { apply filter_In. split; [assumption|]. rewrite Hk'. simpl.
      apply String.eqb_refl. }
    rewrite E in Hin. destruct Hin as [-> | []]. reflexivity.
Qed.

(** X4. A request with no [api-key] header, or with an empty one, is
    compared with [None], which selects the rows whose [api_key] is NULL:
    when exactly one user has no key, such a request is resolved to that
    user. *)
Theorem missing_header_resolves_keyless_user :
  forall (s : Store) (u : User) (h : option string),
    consistent s = true -> In u (users s) -> User_api_key u = None ->
    (forall u', In u' (users s) -> User_api_key u' = None -> u' = u) ->
    h = None \/ h = Some "" ->
    get_current_user str (api_key_header h) (get_async_session s)
    = (Ok (ObjUser u), get_async_session s).
Proof.
  intros s u h Hs Hu Hk Huniq Hh. consistent_facts Hs.
  assert (E : api_key_header h = None) by (destruct Hh; subst; reflexivity).
  rewrite E. unfold get_current_user, try_except, bind, select, get_async_session.
  cbn [view].
  rewrite (filter_only User_id
             (fun x => sql_eq_string (User_api_key x) None) u (users s)
             Huid Hu).
  - reflexivity.
  - now rewrite Hk.
  - intros x Hx Hpx. apply Huniq; [assumption|].
    destruct (User_api_key x); [discriminate | reflexivity].
Qed.

(** X5. When the header matches no user, the routes whose handler reads
    [current_user.id] (creating and deleting tweets, likes and follower
    edges, and the own profile) answer with the error dictionary and
    leave the store as it was. *)
Theorem without_a_user_nothing_is_written :
  forall (req : Request) (s : Store),
    uses_current_user req = true ->
    (forall u, In u (users s) ->
       sql_eq_string (User_api_key u) (api_key_header (request_key req))
       = false) ->
    exists e,
      serve str suffix req s
      = (mkHTTPResponse 200 (JSONBody (server_error str e)), s).
Proof.
  intros req s Huses Hnone.
  assert (Hdep : dependencies str req (get_async_session s)
                 = (Ok (ObjDict (server_error str
                                   (HTTPException 403 "Invalid API Key"))),
                    get_async_session s)).
  { destruct req; try discriminate; cbn [dependencies request_key] in *;
      apply get_current_user_no_match; apply first_filter_None_nil;
      exact Hnone. }
  unfold serve. unfold bind at 1. rewrite Hdep.
  destruct req; try discriminate; cbn [handler].
  - eexists. reflexivity.
  - unfold delete_by_id, delete_by_id_body, try_except.
    unfold bind at 1. unfold select at 1. cbn [view get_async_session].
    destruct (filter _ (tweets s)) as [|t [|t' r]]; eexists; reflexivity.
  - unfold likes_tweets, likes_tweets_body, try_except.
    unfold bind at 1. unfold select at 1. cbn [view get_async_session].
    destruct (filter _ (tweets s)) as [|t [|t' r]]; eexists; reflexivity.
  - eexists. reflexivity.
  - unfold follow_user_by_id, follow_user_by_id_body, try_except.
    unfold bind at 1. unfold select at 1. cbn [view get_async_session].
    destruct (filter _ (users s)) as [|t [|t' r]]; eexists; reflexivity.
  - eexists. reflexivity.
  - eexists. reflexivity.
Qed.


(** X8. An upload whose content type is none of [image/jpeg],
    [image/png] and [image/jpg] (or is missing) is refused with the
    400 condition in the error dictionary, and nothing is stored - not
    even a value of the sequence is used. *)
Theorem upload_refuses_other_content_types :
  forall (s : Store) (h : option string) (file : UploadFile) (uuid4 : string),
    ~ In (content_type file)
         [Some "image/jpeg"; Some "image/png"; Some "image/jpg"] ->
    serve str suffix (POST_medias h file uuid4) s
    = (mkHTTPResponse 200
         (JSONBody (server_error str
                      (HTTPException 400
                         "Invalid file type. Only JPEG and PNG are allowed."))),
       s).
Proof.
  intros s h file uuid4 Hct. apply serve_POST_medias_refused.
  unfold allowed_content_type. destruct (content_type file) as [t|];
    [|reflexivity].
  cbn [existsb].
  destruct (String.eqb_spec t "image/jpeg") as [->|_].
  { exfalso. apply Hct. now left. }
  destruct (String.eqb_spec t "image/png") as [->|_].
  { exfalso. apply Hct. right. now left. }
  destruct (String.eqb_spec t "image/jpg") as [->|_].
  { exfalso. apply Hct. right. right. now left. }
  reflexivity.
Qed.

(** X9. A media row that exists is served with status 200, its stored
    bytes and the content type [image/png], whatever its file name. *)
Theorem stored_media_is_served_as_png :
  forall (s : Store) (m : Media),
    consistent s = true -> In m (medias s) ->
    serve str suffix (GET_media (Media_id m)) s
    = (mkHTTPResponse 200 (RawBody (Media_data m) "image/png"), s).
Proof.
  intros s m Hs Hm. consistent_facts Hs. now apply serve_GET_media_found.
Qed.


(** X6. The feed, the profile by id and the upload never read the
    caller: they answer the same, and leave the same store, for any two
    values of the header - a valid key, an unknown one or none. *)
Theorem routes_that_ignore_the_caller :
  forall (s : Store) (h h' : option string),
    serve str suffix (GET_tweets h) s = serve str suffix (GET_tweets h') s
    /\ (forall id,
          serve str suffix (GET_users h id) s
          = serve str suffix (GET_users h' id) s)
    /\ (forall file uuid4,
          serve str suffix (POST_medias h file uuid4) s
          = serve str suffix (POST_medias h' file uuid4) s).
Proof.
  intros s h h'.
  assert (H : forall req req',
            (forall obj obj', handler str suffix req obj = handler str suffix req' obj') ->
            serve str suffix req s = serve str suffix req' s).
  { intros req req' Hh. unfold serve, bind.
    destruct (dependencies_return str req (get_async_session s)) as [obj ->].
    destruct (dependencies_return str req' (get_async_session s)) as [obj' ->].
    now rewrite (Hh obj obj'). }
  repeat split; intros; apply H; reflexivity.
Qed.

(** X14. Liking an id that fits the Integer column and names no tweet
    fails with the NotFound condition, for any header, and inserts
    nothing. *)
Theorem like_of_missing_tweet_fails :
  forall (s : Store) (h : option string) (id : Z),
    in_int32 id ->
    (forall t, In t (tweets s) -> Tweet_id t <> id) ->
    serve str suffix (POST_likes h id) s
    = (mkHTTPResponse 200
         (JSONBody (server_error str (HTTPException 404 "Tweet not found"))),
       s).
Proof.
  intros s h id _ Hnone. apply serve_POST_likes_missing.
  apply mem_false_iff. intros Hin. apply in_map_iff in Hin.
  destruct Hin as [t [E Ht]]. now apply (Hnone t).
Qed.

(** X15. An unlike by a user who has a like on the tweet succeeds and
    deletes exactly one row, one of that user for that tweet: the likes
    of other users and of other tweets all stay, no row is added, and the
    other tables are untouched. *)
Theorem unlike_removes_one_own_like :
  forall (s : Store) (u : User) (k : string) (id : Z) (mine : Like),
    consistent s = true -> In u (users s) -> User_api_key u = Some k ->
    k <> "" ->
    In mine (likes s) -> like_of (User_id u) id mine = true ->
    let s' := snd (serve str suffix (DELETE_likes (Some k) id) s) in
    fst (serve str suffix (DELETE_likes (Some k) id) s)
    = mkHTTPResponse 200 (JSONBody (JDict [("result", JBool true)]))
    /\ (count (like_of (User_id u) id) (likes s') + 1
        = count (like_of (User_id u) id) (likes s))%nat
    /\ (List.length (likes s') + 1 = List.length (likes s))%nat
    /\ (forall l, In l (likes s') -> In l (likes s))
    /\ (forall l, In l (likes s) -> like_of (User_id u) id l = false ->
                  In l (likes s'))
    /\ users s' = users s /\ tweets s' = tweets s
    /\ medias s' = medias s /\ followers s' = followers s.
Proof.
  intros s u k id mine Hs Hu Hk Hne Hmine Hlike s'.
  pose proof (serve_DELETE_likes str suffix s u k id Hs Hu Hk Hne) as E.
  destruct (first (filter (like_of (User_id u) id) (likes s))) as [l|] eqn:Ef.
  2:{ exfalso. rewrite first_filter_None in Ef.
      specialize (Ef mine Hmine). congruence. }
  apply first_filter_Some in Ef. destruct Ef as [Hl Hpl].
  unfold s'. rewrite E. cbn [fst snd set_likes likes users tweets medias followers].
  consistent_facts Hs.
  pose proof (count_without_row Like_id (like_of (User_id u) id) l _ Hlid Hl)
    as C1. rewrite Hpl in C1.
  pose proof (count_without_row Like_id (fun _ => true) l _ Hlid Hl) as C2.
  unfold count in C2. rewrite (filter_true (likes s)) in C2.
  rewrite filter_true in C2.
  split; [reflexivity|]. split; [exact C1|]. split; [exact C2|].
  split; [|split; [|repeat split]].
  - intros x Hx. apply filter_In in Hx. tauto.
  - intros x Hx Hnot. apply filter_In. split; [assumption|].
    apply negb_true_iff. apply Z.eqb_neq. intros Eid.
    assert (x = l) by (apply (same_key_same_row Like_id x l (likes s)); assumption).
    subst x. congruence.
Qed.

(** X16. Following an existing user appends one edge from the caller to
    that user; nothing looks for an earlier edge (the number of edges of
    the pair goes up by one each time), and following oneself succeeds
    as well. *)
Theorem follow_inserts_an_edge :
  forall (s : Store) (u : User) (k : string) (id : Z),
    consistent s = true -> In u (users s) -> User_api_key u = Some k ->
    k <> "" -> In id (map User_id (users s)) ->
    let s' := snd (serve str suffix (POST_follow (Some k) id) s) in
    fst (serve str suffix (POST_follow (Some k) id) s)
    = mkHTTPResponse 200 (JSONBody (JDict [("result", JBool true)]))
    /\ followers s'
       = followers s ++ [mkFollower (followers_id_seq s + 1) (User_id u) id]
    /\ (count (edge_of (User_id u) id) (followers s')
        = count (edge_of (User_id u) id) (followers s) + 1)%nat
    /\ fst (serve str suffix (POST_follow (Some k) (User_id u)) s)
       = mkHTTPResponse 200 (JSONBody (JDict [("result", JBool true)])).
Proof.
  intros s u k id Hs Hu Hk Hne Hid s'.
  unfold s'. rewrite (serve_POST_follow s u k id Hs Hu Hk Hne Hid).
  rewrite (serve_POST_follow s u k (User_id u) Hs Hu Hk Hne
             (in_map User_id _ _ Hu)).
  cbn [fst snd with_new_follower set_followers followers].
  repeat split. rewrite count_app. unfold count at 2. unfold edge_of at 2.
  simpl. now rewrite !Z.eqb_refl.
Qed.

(** X17. Following an id that fits the Integer column and names no user
    fails with the NotFound condition, for any header, and inserts
    nothing. *)
Theorem follow_of_missing_user_fails :
  forall (s : Store) (h : option string) (id : Z),
    in_int32 id ->
    (forall v, In v (users s) -> User_id v <> id) ->
    serve str suffix (POST_follow h id) s
    = (mkHTTPResponse 200
         (JSONBody (server_error str (HTTPException 404 "User not found"))),
       s).
Proof.
  intros s h id _ Hnone. apply serve_POST_follow_missing.
  apply mem_false_iff. intros Hin. apply in_map_iff in Hin.
  destruct Hin as [t [E Ht]]. now apply (Hnone t).
Qed.

(** X19. An unfollow by a user who has no edge to the target, an id that
    fits the Integer column, fails with the NotFound condition and
    changes nothing. *)
Theorem unfollow_without_edge_fails :
  forall (s : Store) (u : User) (k : string) (id : Z),
    consistent s = true -> In u (users s) -> User_api_key u = Some k ->
    k <> "" -> in_int32 id ->
    (forall f, In f (followers s) -> edge_of (User_id u) id f = false) ->
    serve str suffix (DELETE_follow (Some k) id) s
    = (mkHTTPResponse 200
         (JSONBody (server_error str
                      (HTTPException 404 "Follower not found"))),
       s).
Proof.
  intros s u k id Hs Hu Hk Hne _ Hnone.
  rewrite (serve_DELETE_follow s u k id Hs Hu Hk Hne).
  apply first_filter_None in Hnone. now rewrite Hnone.
Qed.

(** X18. A follow and then an unfollow of the same user by the same
    caller succeed and leave as many edges of the pair as before; when
    there was none before, the followers table is back to what it was. *)
Theorem follow_then_unfollow :
  forall (s : Store) (u : User) (k : string) (id : Z),
    consistent s = true -> In u (users s) -> User_api_key u = Some k ->
    k <> "" -> In id (map User_id (users s)) ->
    let s1 := snd (serve str suffix (POST_follow (Some k) id) s) in
    let s2 := snd (serve str suffix (DELETE_follow (Some k) id) s1) in
    fst (serve str suffix (DELETE_follow (Some k) id) s1)
    = mkHTTPResponse 200 (JSONBody (JDict [("result", JBool true)]))
    /\ count (edge_of (User_id u) id) (followers s2)
       = count (edge_of (User_id u) id) (followers s)
    /\ ((forall f, In f (followers s) -> edge_of (User_id u) id f = false) ->
        followers s2 = followers s).
Proof.
  intros s u k id Hs Hu Hk Hne Hid s1 s2.
  set (new := mkFollower (followers_id_seq s + 1) (User_id u) id).
  assert (E1 : s1 = with_new_follower (User_id u) id s)
    by (unfold s1; now rewrite (serve_POST_follow s u k id)).
  clearbody s1. subst s1.
  assert (Hs1 : consistent (with_new_follower (User_id u) id s) = true).
  { apply consistent_with_new_follower; try assumption. now apply in_map. }
  assert (F1 : followers (with_new_follower (User_id u) id s)
               = followers s ++ [new]) by reflexivity.
  assert (Hnew : edge_of (User_id u) id new = true).
  { unfold edge_of, new. simpl. now rewrite !Z.eqb_refl. }
  pose proof (serve_DELETE_follow _ u k id Hs1 Hu Hk Hne) as E2.
  rewrite F1 in E2.
  destruct (first (filter (edge_of (User_id u) id) (followers s ++ [new])))
    as [f|] eqn:Ef.
  2:{ exfalso. rewrite first_filter_None in Ef.
      specialize (Ef new). rewrite Hnew in Ef.
      assert (true = false); [|discriminate]. apply Ef.
      apply in_or_app. right. now left. }
  assert (F2 : followers s2
               = filter (fun x => negb (Follower_id x =? Follower_id f))
                   (followers s ++ [new])).
  { unfold s2. rewrite E2. cbn [snd set_followers followers].
    now rewrite F1. }
  clearbody s2. rewrite E2, F2. cbn [fst].
  consistent_facts Hs1. rewrite F1 in Hfid.
  pose proof (first_filter_Some _ _ _ Ef) as [Hf Hpf].
  pose proof (count_without_row Follower_id (edge_of (User_id u) id) f _
                Hfid Hf) as C.
  rewrite Hpf in C. rewrite count_app in C. unfold count in C at 3.
  cbn [filter] in C. rewrite Hnew in C. cbn [List.length] in C.
  split; [reflexivity|]. split; [lia|].
  intros Hnone.
  assert (Efs : filter (edge_of (User_id u) id) (followers s ++ [new]) = [new]).
  { rewrite filter_app. apply first_filter_None_nil in Hnone. rewrite Hnone.
    cbn [filter app]. now rewrite Hnew. }
  rewrite Efs in Ef. injection Ef as <-.
  rewrite filter_app. cbn [filter new Follower_id]. rewrite Z.eqb_refl.
  cbn [negb]. rewrite app_nil_r.
  apply (filter_other_keys Follower_id).
  pose proof (consistent_inv _ Hs) as Hc.
  destruct Hc as (_ & _ & _ & _ & _ & _ & _ & _ & _ & Hseq & _).
  now apply upto_fresh.
Qed.

(** X20. After [u] has followed [v], the profile of [v] is served for
    any header, and its lists are the ones of the store: [u] is among the
    followers of [v], and [v] among the users [u] follows. *)
Theorem profile_after_follow :
  forall (s : Store) (u v : User) (k : string) (h : option string),
    consistent s = true -> In u (users s) -> User_api_key u = Some k ->
    k <> "" -> In v (users s) ->
    let s1 := snd (serve str suffix (POST_follow (Some k) (User_id v)) s) in
    serve str suffix (GET_users h (User_id v)) s1
    = (mkHTTPResponse 200 (JSONBody (profile_json s1 v)), s1)
    /\ In u (followers_of s1 (User_id v))
    /\ In v (following_of s1 (User_id u)).
Proof.
  intros s u v k h Hs Hu Hk Hne Hv s1.
  assert (Hid : In (User_id v) (map User_id (users s))) by now apply in_map.
  assert (E1 : s1 = with_new_follower (User_id u) (User_id v) s)
    by (unfold s1;
        now rewrite (serve_POST_follow s u k (User_id v))).
  clearbody s1. subst s1.
  assert (Hs1 : consistent (with_new_follower (User_id u) (User_id v) s)
                = true).
  { apply consistent_with_new_follower; try assumption. now apply in_map. }
  consistent_facts Hs1. split; [|split].
  - now apply serve_GET_users_found.
  - unfold followers_of. apply filter_In. split; [exact Hu|].
    apply mem_true_iff.
    cbn [with_new_follower set_followers followers].
    rewrite filter_app, map_app. apply in_or_app. right.
    cbn [filter Follower_following_id]. rewrite Z.eqb_refl. now left.
  - unfold following_of. apply filter_In. split; [exact Hv|].
    apply mem_true_iff.
    cbn [with_new_follower set_followers followers].
    rewrite filter_app, map_app. apply in_or_app. right.
    cbn [filter Follower_follower_id]. rewrite Z.eqb_refl. now left.
Qed.

(** X21. For an authenticated caller the own profile is the profile by
    id at the caller's id: the same answer, the same store. *)
Theorem own_profile_is_profile_by_id :
  forall (s : Store) (u : User) (k : string) (h : option string),
    consistent s = true -> In u (users s) -> User_api_key u = Some k ->
    k <> "" ->
    serve str suffix (GET_users_me (Some k)) s
    = (mkHTTPResponse 200 (JSONBody (profile_json s u)), s)
    /\ serve str suffix (GET_users_me (Some k)) s
       = serve str suffix (GET_users h (User_id u)) s.
Proof.
  intros s u k h Hs Hu Hk Hne. consistent_facts Hs.
  rewrite (serve_GET_users_me s u k Hs Hu Hk Hne).
  rewrite (serve_GET_users_found s h u Huid Hu). now split.
Qed.

(** X22. The profile of an id that fits the Integer column and names no
    user fails with the NotFound condition, for any header. *)
Theorem profile_of_missing_user_fails :
  forall (s : Store) (h : option string) (id : Z),
    in_int32 id ->
    (forall v, In v (users s) -> User_id v <> id) ->
    serve str suffix (GET_users h id) s
    = (mkHTTPResponse 200
         (JSONBody (server_error str (HTTPException 404 "User not found"))),
       s).
Proof.
  intros s h id _ Hnone. apply serve_GET_users_missing.
  apply mem_false_iff. intros Hin. apply in_map_iff in Hin.
  destruct Hin as [t [E Ht]]. now apply (Hnone t).
Qed.

(** X23. The media of a tweet outlive it: after the owner has deleted a
    tweet, every media row of the store, attached to that tweet or not,
    is still served with its bytes. *)
Theorem media_outlives_its_tweet :
  forall (s : Store) (u : User) (k : string) (t : Tweet) (m : Media),
    consistent s = true -> In u (users s) -> User_api_key u = Some k ->
    k <> "" -> In t (tweets s) -> Tweet_owner_id t = User_id u ->
    In m (medias s) ->
    let s' := snd (serve str suffix (DELETE_tweets (Some k) (Tweet_id t)) s) in
    serve str suffix (GET_media (Media_id m)) s'
    = (mkHTTPResponse 200 (RawBody (Media_data m) "image/png"), s').
Proof.
  intros s u k t m Hs Hu Hk Hne Ht Howner Hm s'.
  assert (E : s' = without_tweet (Tweet_id t) s).
  { unfold s'.
    rewrite (serve_DELETE_tweets_found str suffix s u k t Hs Hu Hk Hne Ht).
    apply Z.eqb_eq in Howner. now rewrite Howner. }
  clearbody s'. subst s'.
  pose proof (consistent_without_tweet s (Tweet_id t) Hs) as Hs'.
  consistent_facts Hs'.
  destruct (detach_keeps (Tweet_id t) m) as (Eid & Edata & _).
  rewrite <- Eid, <- Edata.
  apply serve_GET_media_found; [assumption|].
  cbn [without_tweet set_tweets set_medias medias]. now apply in_map.
Qed.

(** X24. Once its owner has deleted a tweet, the id names nothing: a
    second deletion and a like of that id both fail with the NotFound
    condition, for any header, and change nothing. *)
Theorem deleted_tweet_is_gone :
  forall (s : Store) (u : User) (k : string) (t : Tweet) (h : option string),
    consistent s = true -> In u (users s) -> User_api_key u = Some k ->
    k <> "" -> In t (tweets s) -> Tweet_owner_id t = User_id u ->
    let s' := snd (serve str suffix (DELETE_tweets (Some k) (Tweet_id t)) s) in
    serve str suffix (DELETE_tweets h (Tweet_id t)) s'
    = (mkHTTPResponse 200
         (JSONBody (server_error str (HTTPException 404 "Tweet not found"))),
       s')
    /\ serve str suffix (POST_likes h (Tweet_id t)) s'
       = (mkHTTPResponse 200
            (JSONBody (server_error str
                         (HTTPException 404 "Tweet not found"))),
          s').
Proof.
  intros s u k t h Hs Hu Hk Hne Ht Howner s'.
  assert (E : s' = without_tweet (Tweet_id t) s).
  { unfold s'.
    rewrite (serve_DELETE_tweets_found str suffix s u k t Hs Hu Hk Hne Ht).
    apply Z.eqb_eq in Howner. now rewrite Howner. }
  clearbody s'. subst s'.
  assert (Hgone : mem (Tweet_id t)
                    (map Tweet_id (tweets (without_tweet (Tweet_id t) s)))
                  = false).
  { apply mem_false_iff. intros Hin. apply in_map_iff in Hin.
    destruct Hin as [x [Ex Hx]].
    cbn [without_tweet set_tweets tweets] in Hx.
    apply filter_In in Hx. destruct Hx as [_ Hx].
    rewrite Ex, Z.eqb_refl in Hx. discriminate. }
  split.
  - now apply serve_DELETE_tweets_missing.
  - now apply serve_POST_likes_missing.
Qed.

(** X25. An unfollow by a user who has an edge to the target succeeds and
    deletes exactly one row, an edge from that user to that target: the
    edges of other pairs all stay, and no row is added. *)
Theorem unfollow_removes_one_own_edge :
  forall (s : Store) (u : User) (k : string) (id : Z) (mine : Follower),
    consistent s = true -> In u (users s) -> User_api_key u = Some k ->
    k <> "" ->
    In mine (followers s) -> edge_of (User_id u) id mine = true ->
    let s' := snd (serve str suffix (DELETE_follow (Some k) id) s) in
    fst (serve str suffix (DELETE_follow (Some k) id) s)
    = mkHTTPResponse 200 (JSONBody (JDict [("result", JBool true)]))
    /\ (count (edge_of (User_id u) id) (followers s') + 1
        = count (edge_of (User_id u) id) (followers s))%nat
    /\ (List.length (followers s') + 1 = List.length (followers s))%nat
    /\ (forall f, In f (followers s') -> In f (followers s))
    /\ (forall f, In f (followers s) -> edge_of (User_id u) id f = false ->
                  In f (followers s')).
Proof.
  intros s u k id mine Hs Hu Hk Hne Hmine Hedge s'.
  pose proof (serve_DELETE_follow s u k id Hs Hu Hk Hne) as E.
  destruct (first (filter (edge_of (User_id u) id) (followers s)))
    as [f|] eqn:Ef.
  2:{ exfalso. rewrite first_filter_None in Ef.
      specialize (Ef mine Hmine). congruence. }
  apply first_filter_Some in Ef. destruct Ef as [Hf Hpf].
  unfold s'. rewrite E. cbn [fst snd set_followers followers].
  consistent_facts Hs.
  pose proof (count_without_row Follower_id (edge_of (User_id u) id) f _
                Hfid Hf) as C1.
  rewrite Hpf in C1.
  pose proof (count_without_row Follower_id (fun _ => true) f _ Hfid Hf) as C2.
  unfold count in C2. rewrite (filter_true (followers s)) in C2.
  rewrite filter_true in C2.
  split; [reflexivity|]. split; [exact C1|]. split; [exact C2|]. split.
  - intros x Hx. apply filter_In in Hx. tauto.
  - intros x Hx Hnot. apply filter_In. split; [assumption|].
    apply negb_true_iff. apply Z.eqb_neq. intros Eid.
    assert (x = f)
      by (apply (same_key_same_row Follower_id x f (followers s)); assumption).
    subst x. congruence.
Qed.

End Further.

(* ===================================================================== *)
(** ** The further properties at work on the sample database *)
(* ===================================================================== *)

Lemma serve_all_consistent_witness :
  consistent Sample.busy = true
  /\ consistent
       (snd (serve_all Sample.str Sample.suffix
               [POST_tweets (Some "k2") (mkTweetCreate "hi" (Some [2; 9]));
                DELETE_tweets (Some "k1") 1;
                POST_follow (Some "k2") 1;
                POST_medias None Sample.cat_jpeg "0f1e"]
               Sample.busy)) = true.
Proof.
  split; [reflexivity|].
  apply (serve_all_consistent Sample.str Sample.suffix). reflexivity.
Defined.

Lemma valid_key_resolves_its_user_witness :
  consistent Sample.busy = true
  /\ In Sample.alice (users Sample.busy)
  /\ User_api_key Sample.alice = Some "k1"
  /\ "k1" <> ""
  /\ get_current_user Sample.str (api_key_header (Some "k1"))
       (get_async_session Sample.busy)
     = (Ok (ObjUser Sample.alice), get_async_session Sample.busy).
Proof.
  assert (H1 : consistent Sample.busy = true) by reflexivity.
  assert (H2 : In Sample.alice (users Sample.busy)) by (left; reflexivity).
  assert (H3 : User_api_key Sample.alice = Some "k1") by reflexivity.
  assert (H4 : "k1" <> "") by discriminate.
  exact (conj H1 (conj H2 (conj H3 (conj H4
           (proj1 (valid_key_resolves_its_user Sample.str Sample.busy
                     Sample.alice "k1" H1 H2 H3 H4)))))).
Defined.

Lemma missing_header_resolves_keyless_user_witness :
  consistent Sample.with_guest = true
  /\ In Sample.guest (users Sample.with_guest)
  /\ User_api_key Sample.guest = None
  /\ (forall u', In u' (users Sample.with_guest) ->
                 User_api_key u' = None -> u' = Sample.guest)
  /\ get_current_user Sample.str (api_key_header None)
       (get_async_session Sample.with_guest)
     = (Ok (ObjUser Sample.guest), get_async_session Sample.with_guest).
Proof.
  assert (H1 : consistent Sample.with_guest = true) by reflexivity.
  assert (H2 : In Sample.guest (users Sample.with_guest))
    by (right; right; left; reflexivity).
  assert (H3 : User_api_key Sample.guest = None) by reflexivity.
  assert (H4 : forall u', In u' (users Sample.with_guest) ->
                          User_api_key u' = None -> u' = Sample.guest).
  { intros u' [<- | [<- | [<- | []]]] E;
      [discriminate | discriminate | reflexivity]. }
  exact (conj H1 (conj H2 (conj H3 (conj H4
           (missing_header_resolves_keyless_user Sample.str
              Sample.with_guest Sample.guest None H1 H2 H3 H4
              (or_introl eq_refl)))))).
Defined.

Lemma without_a_user_nothing_is_written_witness :
  uses_current_user (POST_likes (Some "nope") 1) = true
  /\ (forall u, In u (users Sample.busy) ->
        sql_eq_string (User_api_key u)
          (api_key_header (request_key (POST_likes (Some "nope") 1)))
        = false)
  /\ exists e,
       serve Sample.str Sample.suffix (POST_likes (Some "nope") 1) Sample.busy
       = (mkHTTPResponse 200 (JSONBody (server_error Sample.str e)),
          Sample.busy).
Proof.
  assert (H1 : uses_current_user (POST_likes (Some "nope") 1) = true)
    by reflexivity.
  assert (H2 : forall u, In u (users Sample.busy) ->
                 sql_eq_string (User_api_key u)
                   (api_key_header (request_key (POST_likes (Some "nope") 1)))
                 = false).
  { intros u [<- | [<- | []]]; reflexivity. }
  exact (conj H1 (conj H2
           (without_a_user_nothing_is_written Sample.str Sample.suffix
              (POST_likes (Some "nope") 1) Sample.busy H1 H2))).
Defined.


Lemma upload_refuses_other_content_types_witness :
  ~ In (content_type Sample.notes_txt)
       [Some "image/jpeg"; Some "image/png"; Some "image/jpg"]
  /\ serve Sample.str Sample.suffix
       (POST_medias (Some "k1") Sample.notes_txt "0f1e") Sample.busy
     = (mkHTTPResponse 200
          (JSONBody (server_error Sample.str
                       (HTTPException 400
                          "Invalid file type. Only JPEG and PNG are allowed."))),
        Sample.busy).
Proof.
  assert (H1 : ~ In (content_type Sample.notes_txt)
                   [Some "image/jpeg"; Some "image/png"; Some "image/jpg"]).
  { intros [E | [E | [E | []]]]; discriminate. }
  exact (conj H1
           (upload_refuses_other_content_types Sample.str Sample.suffix
              Sample.busy (Some "k1") Sample.notes_txt "0f1e" H1)).
Defined.

Lemma stored_media_is_served_as_png_witness :
  consistent Sample.busy = true
  /\ In (mkMedia 2 [xff] "b.jpg" None) (medias Sample.busy)
  /\ serve Sample.str Sample.suffix (GET_media 2) Sample.busy
     = (mkHTTPResponse 200 (RawBody [xff] "image/png"), Sample.busy).
Proof.
  assert (H1 : consistent Sample.busy = true) by reflexivity.
  assert (H2 : In (mkMedia 2 [xff] "b.jpg" None) (medias Sample.busy))
    by (right; left; reflexivity).
  exact (conj H1 (conj H2
           (stored_media_is_served_as_png Sample.str Sample.suffix
              Sample.busy (mkMedia 2 [xff] "b.jpg" None) H1 H2))).
Defined.


Lemma create_tweet_without_media_witness :
  consistent Sample.busy = true
  /\ In Sample.bob (users Sample.busy)
  /\ User_api_key Sample.bob = Some "k2"
  /\ "k2" <> ""
  /\ NUL_free "hi" = true
  /\ serve Sample.str Sample.suffix
       (POST_tweets (Some "k2") (mkTweetCreate "hi" None)) Sample.busy
     = (mkHTTPResponse 200
          (JSONBody (JDict [("result", JBool true); ("tweet_id", JInt 2)])),
        mkStore [Sample.alice; Sample.bob]
          [mkTweet 1 "hello" 1; mkTweet 2 "hi" 2]
          [mkMedia 1 [x89; x50] "a.png" (Some 1);
           mkMedia 2 [xff] "b.jpg" None]
          [mkLike 1 2 1] [] 2 2 1 0).
Proof.
  assert (H1 : consistent Sample.busy = true) by reflexivity.
  assert (H2 : In Sample.bob (users Sample.busy))
    by (right; left; reflexivity).
  assert (H3 : User_api_key Sample.bob = Some "k2") by reflexivity.
  assert (H4 : "k2" <> "") by discriminate.
  exact (conj H1 (conj H2 (conj H3 (conj H4 (conj eq_refl
           (proj1 (create_tweet_without_media Sample.str Sample.suffix
                     Sample.busy Sample.bob "k2" "hi"
                     H1 H2 H3 H4 eq_refl))))))).
Defined.

Lemma feed_lists_every_tweet_witness :
  consistent Sample.busy = true
  /\ exists entries,
       serve Sample.str Sample.suffix (GET_tweets None) Sample.busy
       = (mkHTTPResponse 200
            (JSONBody (JDict [("result", JBool true);
                              ("tweets", JList entries)])), Sample.busy)
       /\ List.length entries = 1%nat.
Proof.
  assert (H1 : consistent Sample.busy = true) by reflexivity.
  split; [exact H1|].
  destruct (feed_lists_every_tweet Sample.str Sample.suffix Sample.busy
              None H1) as (entries & E & L & _).
  exists entries. split; [exact E | exact L].
Defined.

Lemma created_tweet_appears_in_feed_witness :
  consistent Sample.two_users = true
  /\ In Sample.alice (users Sample.two_users)
  /\ User_api_key Sample.alice = Some "k1"
  /\ "k1" <> ""
  /\ NUL_free "hello" = true
  /\ fst (serve Sample.str Sample.suffix (GET_tweets (Some "k1"))
            (snd (serve Sample.str Sample.suffix
                    (POST_tweets (Some "k1") (mkTweetCreate "hello" None))
                    Sample.two_users)))
     = mkHTTPResponse 200
         (JSONBody
            (JDict [("result", JBool true);
                    ("tweets",
                     JList [JDict [("id", JInt 1);
                                   ("content", JStr "hello");
                                   ("attachments", JList []);
                                   ("author",
                                    JDict [("id", JInt 1);
                                           ("name", JStr "alice")]);
                                   ("likes", JList [])]])])).
Proof.
  assert (H1 : consistent Sample.two_users = true) by reflexivity.
  assert (H2 : In Sample.alice (users Sample.two_users))
    by (left; reflexivity).
  assert (H3 : User_api_key Sample.alice = Some "k1") by reflexivity.
  assert (H4 : "k1" <> "") by discriminate.
  refine (conj H1 (conj H2 (conj H3 (conj H4 (conj eq_refl _))))).
  destruct (created_tweet_appears_in_feed Sample.str Sample.suffix
              Sample.two_users Sample.alice "k1" "hello" (Some "k1")
              H1 H2 H3 H4 eq_refl) as (entries & E0 & E1).
  assert (Hnil : entries = []).
  { injection E0 as <-. reflexivity. }
  rewrite Hnil in E1. exact E1.
Defined.

Lemma like_of_missing_tweet_fails_witness :
  in_int32 9
  /\ (forall t, In t (tweets Sample.busy) -> Tweet_id t <> 9)
  /\ serve Sample.str Sample.suffix (POST_likes (Some "k1") 9) Sample.busy
     = (mkHTTPResponse 200
          (JSONBody (server_error Sample.str
                       (HTTPException 404 "Tweet not found"))),
        Sample.busy).
Proof.
  assert (H1 : forall t, In t (tweets Sample.busy) -> Tweet_id t <> 9).
  { intros t [<- | []]. discriminate. }
  assert (H0 : in_int32 9) by (split; discriminate).
  exact (conj H0 (conj H1
           (like_of_missing_tweet_fails Sample.str Sample.suffix Sample.busy
              (Some "k1") 9 H0 H1))).
Defined.

Lemma unlike_removes_one_own_like_witness :
  consistent Sample.busy = true
  /\ In Sample.bob (users Sample.busy)
  /\ User_api_key Sample.bob = Some "k2"
  /\ "k2" <> ""
  /\ In (mkLike 1 2 1) (likes Sample.busy)
  /\ like_of (User_id Sample.bob) 1 (mkLike 1 2 1) = true
  /\ fst (serve Sample.str Sample.suffix (DELETE_likes (Some "k2") 1)
            Sample.busy)
     = mkHTTPResponse 200 (JSONBody (JDict [("result", JBool true)])).
Proof.
  assert (H1 : consistent Sample.busy = true) by reflexivity.
  assert (H2 : In Sample.bob (users Sample.busy))
    by (right; left; reflexivity).
  assert (H3 : User_api_key Sample.bob = Some "k2") by reflexivity.
  assert (H4 : "k2" <> "") by discriminate.
  assert (H5 : In (mkLike 1 2 1) (likes Sample.busy)) by (left; reflexivity).
  assert (H6 : like_of (User_id Sample.bob) 1 (mkLike 1 2 1) = true)
    by reflexivity.
  exact (conj H1 (conj H2 (conj H3 (conj H4 (conj H5 (conj H6
           (proj1 (unlike_removes_one_own_like Sample.str Sample.suffix
                     Sample.busy Sample.bob "k2" 1 (mkLike 1 2 1)
                     H1 H2 H3 H4 H5 H6)))))))).
Defined.

Lemma follow_inserts_an_edge_witness :
  consistent Sample.busy = true
  /\ In Sample.alice (users Sample.busy)
  /\ User_api_key Sample.alice = Some "k1"
  /\ "k1" <> ""
  /\ In 2 (map User_id (users Sample.busy))
  /\ fst (serve Sample.str Sample.suffix (POST_follow (Some "k1") 2)
            Sample.busy)
     = mkHTTPResponse 200 (JSONBody (JDict [("result", JBool true)])).
Proof.
  assert (H1 : consistent Sample.busy = true) by reflexivity.
  assert (H2 : In Sample.alice (users Sample.busy)) by (left; reflexivity).
  assert (H3 : User_api_key Sample.alice = Some "k1") by reflexivity.
  assert (H4 : "k1" <> "") by discriminate.
  assert (H5 : In 2 (map User_id (users Sample.busy)))
    by (right; left; reflexivity).
  exact (conj H1 (conj H2 (conj H3 (conj H4 (conj H5
           (proj1 (follow_inserts_an_edge Sample.str Sample.suffix
                     Sample.busy Sample.alice "k1" 2
                     H1 H2 H3 H4 H5))))))).
Defined.

Lemma follow_of_missing_user_fails_witness :
  in_int32 9
  /\ (forall v, In v (users Sample.busy) -> User_id v <> 9)
  /\ serve Sample.str Sample.suffix (POST_follow (Some "k1") 9) Sample.busy
     = (mkHTTPResponse 200
          (JSONBody (server_error Sample.str
                       (HTTPException 404 "User not found"))),
        Sample.busy).
Proof.
  assert (H1 : forall v, In v (users Sample.busy) -> User_id v <> 9).
  { intros v [<- | [<- | []]]; discriminate. }
  assert (H0 : in_int32 9) by (split; discriminate).
  exact (conj H0 (conj H1
           (follow_of_missing_user_fails Sample.str Sample.suffix Sample.busy
              (Some "k1") 9 H0 H1))).
Defined.

Lemma follow_then_unfollow_witness :
  consistent Sample.busy = true
  /\ In Sample.alice (users Sample.busy)
  /\ User_api_key Sample.alice = Some "k1"
  /\ "k1" <> ""
  /\ In 2 (map User_id (users Sample.busy))
  /\ (forall f, In f (followers Sample.busy) ->
                edge_of (User_id Sample.alice) 2 f = false)
  /\ followers
       (snd (serve Sample.str Sample.suffix (DELETE_follow (Some "k1") 2)
               (snd (serve Sample.str Sample.suffix
                       (POST_follow (Some "k1") 2) Sample.busy))))
     = followers Sample.busy.
Proof.
  assert (H1 : consistent Sample.busy = true) by reflexivity.
  assert (H2 : In Sample.alice (users Sample.busy)) by (left; reflexivity).
  assert (H3 : User_api_key Sample.alice = Some "k1") by reflexivity.
  assert (H4 : "k1" <> "") by discriminate.
  assert (H5 : In 2 (map User_id (users Sample.busy)))
    by (right; left; reflexivity).
  assert (H6 : forall f, In f (followers Sample.busy) ->
                 edge_of (User_id Sample.alice) 2 f = false)
    by (intros f []).
  exact (conj H1 (conj H2 (conj H3 (conj H4 (conj H5 (conj H6
           (proj2 (proj2 (follow_then_unfollow Sample.str Sample.suffix
                            Sample.busy Sample.alice "k1" 2
                            H1 H2 H3 H4 H5)) H6))))))).
Defined.

Lemma unfollow_without_edge_fails_witness :
  consistent Sample.busy = true
  /\ In Sample.alice (users Sample.busy)
  /\ User_api_key Sample.alice = Some "k1"
  /\ "k1" <> ""
  /\ in_int32 2
  /\ (forall f, In f (followers Sample.busy) ->
                edge_of (User_id Sample.alice) 2 f = false)
  /\ serve Sample.str Sample.suffix (DELETE_follow (Some "k1") 2) Sample.busy
     = (mkHTTPResponse 200
          (JSONBody (server_error Sample.str
                       (HTTPException 404 "Follower not found"))),
        Sample.busy).
Proof.
  assert (H1 : consistent Sample.busy = true) by reflexivity.
  assert (H2 : In Sample.alice (users Sample.busy)) by (left; reflexivity).
  assert (H3 : User_api_key Sample.alice = Some "k1") by reflexivity.
  assert (H4 : "k1" <> "") by discriminate.
  assert (H5 : forall f, In f (followers Sample.busy) ->
                 edge_of (User_id Sample.alice) 2 f = false)
    by (intros f []).
  assert (H0 : in_int32 2) by (split; discriminate).
  exact (conj H1 (conj H2 (conj H3 (conj H4 (conj H0 (conj H5
           (unfollow_without_edge_fails Sample.str Sample.suffix
              Sample.busy Sample.alice "k1" 2 H1 H2 H3 H4 H0 H5))))))).
Defined.

Lemma profile_after_follow_witness :
  consistent Sample.busy = true
  /\ In Sample.alice (users Sample.busy)
  /\ User_api_key Sample.alice = Some "k1"
  /\ "k1" <> ""
  /\ In Sample.bob (users Sample.busy)
  /\ In Sample.alice
        (followers_of
           (snd (serve Sample.str Sample.suffix (POST_follow (Some "k1") 2)
                   Sample.busy)) 2).
Proof.
  assert (H1 : consistent Sample.busy = true) by reflexivity.
  assert (H2 : In Sample.alice (users Sample.busy)) by (left; reflexivity).
  assert (H3 : User_api_key Sample.alice = Some "k1") by reflexivity.
  assert (H4 : "k1" <> "") by discriminate.
  assert (H5 : In Sample.bob (users Sample.busy))
    by (right; left; reflexivity).
  exact (conj H1 (conj H2 (conj H3 (conj H4 (conj H5
           (proj1 (proj2 (profile_after_follow Sample.str Sample.suffix
                            Sample.busy Sample.alice Sample.bob "k1" None
                            H1 H2 H3 H4 H5)))))))).
Defined.

Lemma own_profile_is_profile_by_id_witness :
  consistent Sample.busy = true
  /\ In Sample.alice (users Sample.busy)
  /\ User_api_key Sample.alice = Some "k1"
  /\ "k1" <> ""
  /\ serve Sample.str Sample.suffix (GET_users_me (Some "k1")) Sample.busy
     = serve Sample.str Sample.suffix (GET_users None 1) Sample.busy.
Proof.
  assert (H1 : consistent Sample.busy = true) by reflexivity.
  assert (H2 : In Sample.alice (users Sample.busy)) by (left; reflexivity).
  assert (H3 : User_api_key Sample.alice = Some "k1") by reflexivity.
  assert (H4 : "k1" <> "") by discriminate.
  exact (conj H1 (conj H2 (conj H3 (conj H4
           (proj2 (own_profile_is_profile_by_id Sample.str Sample.suffix
                     Sample.busy Sample.alice "k1" None
                     H1 H2 H3 H4)))))).
Defined.

Lemma profile_of_missing_user_fails_witness :
  in_int32 9
  /\ (forall v, In v (users Sample.busy) -> User_id v <> 9)
  /\ serve Sample.str Sample.suffix (GET_users (Some "k1") 9) Sample.busy
     = (mkHTTPResponse 200
          (JSONBody (server_error Sample.str
                       (HTTPException 404 "User not found"))),
        Sample.busy).
Proof.
  assert (H1 : forall v, In v (users Sample.busy) -> User_id v <> 9).
  { intros v [<- | [<- | []]]; discriminate. }
  assert (H0 : in_int32 9) by (split; discriminate).
  exact (conj H0 (conj H1
           (profile_of_missing_user_fails Sample.str Sample.suffix
              Sample.busy (Some "k1") 9 H0 H1))).
Defined.

Lemma media_outlives_its_tweet_witness :
  consistent Sample.busy = true
  /\ In Sample.alice (users Sample.busy)
  /\ User_api_key Sample.alice = Some "k1"
  /\ "k1" <> ""
  /\ In (mkTweet 1 "hello" 1) (tweets Sample.busy)
  /\ Tweet_owner_id (mkTweet 1 "hello" 1) = User_id Sample.alice
  /\ In (mkMedia 1 [x89; x50] "a.png" (Some 1)) (medias Sample.busy)
  /\ fst (serve Sample.str Sample.suffix (GET_media 1)
            (snd (serve Sample.str Sample.suffix (DELETE_tweets (Some "k1") 1)
                    Sample.busy)))
     = mkHTTPResponse 200 (RawBody [x89; x50] "image/png").
Proof.
  assert (H1 : consistent Sample.busy = true) by reflexivity.
  assert (H2 : In Sample.alice (users Sample.busy)) by (left; reflexivity).
  assert (H3 : User_api_key Sample.alice = Some "k1") by reflexivity.
  assert (H4 : "k1" <> "") by discriminate.
  assert (H5 : In (mkTweet 1 "hello" 1) (tweets Sample.busy))
    by (left; reflexivity).
  assert (H6 : Tweet_owner_id (mkTweet 1 "hello" 1) = User_id Sample.alice)
    by reflexivity.
  assert (H7 : In (mkMedia 1 [x89; x50] "a.png" (Some 1))
                 (medias Sample.busy)) by (left; reflexivity).
  exact (conj H1 (conj H2 (conj H3 (conj H4 (conj H5 (conj H6 (conj H7
           (f_equal fst
              (media_outlives_its_tweet Sample.str Sample.suffix
                 Sample.busy Sample.alice "k1" (mkTweet 1 "hello" 1)
                 (mkMedia 1 [x89; x50] "a.png" (Some 1))
                 H1 H2 H3 H4 H5 H6 H7))))))))).
Defined.

Lemma deleted_tweet_is_gone_witness :
  consistent Sample.busy = true
  /\ In Sample.alice (users Sample.busy)
  /\ User_api_key Sample.alice = Some "k1"
  /\ "k1" <> ""
  /\ In (mkTweet 1 "hello" 1) (tweets Sample.busy)
  /\ Tweet_owner_id (mkTweet 1 "hello" 1) = User_id Sample.alice
  /\ fst (serve Sample.str Sample.suffix (DELETE_tweets (Some "k1") 1)
            (snd (serve Sample.str Sample.suffix (DELETE_tweets (Some "k1") 1)
                    Sample.busy)))
     = mkHTTPResponse 200
         (JSONBody (server_error Sample.str
                      (HTTPException 404 "Tweet not found"))).
Proof.
  assert (H1 : consistent Sample.busy = true) by reflexivity.
  assert (H2 : In Sample.alice (users Sample.busy)) by (left; reflexivity).
  assert (H3 : User_api_key Sample.alice = Some "k1") by reflexivity.
  assert (H4 : "k1" <> "") by discriminate.
  assert (H5 : In (mkTweet 1 "hello" 1) (tweets Sample.busy))
    by (left; reflexivity).
  assert (H6 : Tweet_owner_id (mkTweet 1 "hello" 1) = User_id Sample.alice)
    by reflexivity.
  exact (conj H1 (conj H2 (conj H3 (conj H4 (conj H5 (conj H6
           (f_equal fst
              (proj1 (deleted_tweet_is_gone Sample.str Sample.suffix
                        Sample.busy Sample.alice "k1" (mkTweet 1 "hello" 1)
                        (Some "k1") H1 H2 H3 H4 H5 H6))))))))).
Defined.

Lemma unfollow_removes_one_own_edge_witness :
  let s := snd (serve Sample.str Sample.suffix (POST_follow (Some "k1") 2)
                  Sample.busy) in
  consistent s = true
  /\ In Sample.alice (users s)
  /\ User_api_key Sample.alice = Some "k1"
  /\ "k1" <> ""
  /\ In (mkFollower 1 1 2) (followers s)
  /\ edge_of (User_id Sample.alice) 2 (mkFollower 1 1 2) = true
  /\ fst (serve Sample.str Sample.suffix (DELETE_follow (Some "k1") 2) s)
     = mkHTTPResponse 200 (JSONBody (JDict [("result", JBool true)])).
Proof.
  cbv zeta.
  set (s := snd (serve Sample.str Sample.suffix (POST_follow (Some "k1") 2)
                   Sample.busy)).
  assert (H1 : consistent s = true) by reflexivity.
  assert (H2 : In Sample.alice (users s)) by (left; reflexivity).
  assert (H3 : User_api_key Sample.alice = Some "k1") by reflexivity.
  assert (H4 : "k1" <> "") by discriminate.
  assert (H5 : In (mkFollower 1 1 2) (followers s)) by (left; reflexivity).
  assert (H6 : edge_of (User_id Sample.alice) 2 (mkFollower 1 1 2) = true)
    by reflexivity.
  exact (conj H1 (conj H2 (conj H3 (conj H4 (conj H5 (conj H6
           (proj1 (unfollow_removes_one_own_edge Sample.str Sample.suffix
                     s Sample.alice "k1" 2 (mkFollower 1 1 2)
                     H1 H2 H3 H4 H5 H6)))))))).
Defined.
